(** * Signed blob service: the signed-record protocol

    A shallow embedding of the Go sources of [prit342/signed-blob-service]:

    - package [v1] ([api/v1/service.go]): the orchestrator, [StoreBlob] and
      [GetSignedBlob];
    - package [store] ([store/postgres.go] and the file of the [Storage]
      interface): the storage interface, its sentinel errors and its
      PostgreSQL adapter, with [NewPostgresStorage] and its wait for the
      database;
    - package [signature]: the [Signer] interface and [RSASignerService],
      the RSASSA-PSS signer;
    - package [pkg] ([cmd/client/pkg]): the offline verifier and the
      commands [put], [get] and [get-public-key], run against a client of
      the service.

    Go values are modelled as follows.  A Go [string] is a Rocq [string] (a
    sequence of 8-bit characters), a [[]byte] is a [list byte], [len] is the
    length as an integer.  A function returning [(T, error)] returns a
    [result T]; a function returning [error] returns an [option error]
    ([None] is [nil]).  State that the Go code mutates (the database behind
    the storage adapter) is passed explicitly, together with a record of the
    calls made to the collaborators.  Calls to the logger only write
    diagnostics and are left out.

    The libraries that the code calls are modelled next to it: [encoding/hex],
    [crypto/sha256] and [github.com/google/uuid] by definitions that run;
    [crypto/rsa], [crypto/x509], [encoding/pem], [proto.Marshal] and the
    client's decoders as interfaces, with small instances in [sample]. *)

From Stdlib Require Import ZArith List Strings.String Strings.Ascii Strings.Byte Lia.
From stdpp Require Import base option gmap strings list.
Import ListNotations.

Local Open Scope Z_scope.

(** [len(x)] of a slice and of a string. *)
Definition len {A : Type} (l : list A) : Z := Z.of_nat (length l).
Definition strlen (s : string) : Z := Z.of_nat (String.length s).

(** ** encoding/hex *)

Module hex.

(** [hextable = "0123456789abcdef"]. *)
Definition hextable : string := "0123456789abcdef".

Definition digit (n : N) : ascii :=
  match String.get (N.to_nat n) hextable with
  | Some c => c
  | None => "0"%char
  end.

(** [dst[j] = hextable[v>>4]; dst[j+1] = hextable[v&0x0f]]. *)
Fixpoint Encode (src : list byte) : string :=
  match src with
  | [] => EmptyString
  | v :: rest =>
      String (digit (N.shiftr (Byte.to_N v) 4))
        (String (digit (N.land (Byte.to_N v) 15)) (Encode rest))
  end.

Definition EncodeToString (src : list byte) : string := Encode src.

End hex.

(** ** crypto/sha256

    [Sum256] follows FIPS 180-4.  Words are integers below [2^32]; the state is
    the eight working words, so the digest has the shape of Go's [[32]byte]. *)

Module sha256.

Definition Size : Z := 32.
Definition BlockSize : Z := 64.

(** [uint32]: the low 32 bits. *)
Definition mask32 : Z := 0xffffffff.
Definition w32 (x : Z) : Z := Z.land x mask32.
Definition add32 (x y : Z) : Z := w32 (x + y).
Definition rotr (n x : Z) : Z :=
  Z.lor (Z.shiftr x n) (w32 (Z.shiftl x (32 - n))).
Definition not32 (x : Z) : Z := Z.lxor x mask32.

Definition Ch (x y z : Z) : Z := Z.lxor (Z.land x y) (Z.land (not32 x) z).
Definition Maj (x y z : Z) : Z :=
  Z.lxor (Z.lxor (Z.land x y) (Z.land x z)) (Z.land y z).
Definition bsig0 (x : Z) : Z := Z.lxor (Z.lxor (rotr 2 x) (rotr 13 x)) (rotr 22 x).
Definition bsig1 (x : Z) : Z := Z.lxor (Z.lxor (rotr 6 x) (rotr 11 x)) (rotr 25 x).
Definition ssig0 (x : Z) : Z := Z.lxor (Z.lxor (rotr 7 x) (rotr 18 x)) (Z.shiftr x 3).
Definition ssig1 (x : Z) : Z := Z.lxor (Z.lxor (rotr 17 x) (rotr 19 x)) (Z.shiftr x 10).

(** A 32-bit constant from its two 16-bit halves. *)
Definition hw (hi lo : Z) : Z := hi * 65536 + lo.

(** The round constants [_K] of sha256block.go. *)
Definition _K : list Z :=
  [
    hw 0x428a 0x2f98; hw 0x7137 0x4491; hw 0xb5c0 0xfbcf; hw 0xe9b5 0xdba5;
    hw 0x3956 0xc25b; hw 0x59f1 0x11f1; hw 0x923f 0x82a4; hw 0xab1c 0x5ed5;
    hw 0xd807 0xaa98; hw 0x1283 0x5b01; hw 0x2431 0x85be; hw 0x550c 0x7dc3;
    hw 0x72be 0x5d74; hw 0x80de 0xb1fe; hw 0x9bdc 0x06a7; hw 0xc19b 0xf174;
    hw 0xe49b 0x69c1; hw 0xefbe 0x4786; hw 0x0fc1 0x9dc6; hw 0x240c 0xa1cc;
    hw 0x2de9 0x2c6f; hw 0x4a74 0x84aa; hw 0x5cb0 0xa9dc; hw 0x76f9 0x88da;
    hw 0x983e 0x5152; hw 0xa831 0xc66d; hw 0xb003 0x27c8; hw 0xbf59 0x7fc7;
    hw 0xc6e0 0x0bf3; hw 0xd5a7 0x9147; hw 0x06ca 0x6351; hw 0x1429 0x2967;
    hw 0x27b7 0x0a85; hw 0x2e1b 0x2138; hw 0x4d2c 0x6dfc; hw 0x5338 0x0d13;
    hw 0x650a 0x7354; hw 0x766a 0x0abb; hw 0x81c2 0xc92e; hw 0x9272 0x2c85;
    hw 0xa2bf 0xe8a1; hw 0xa81a 0x664b; hw 0xc24b 0x8b70; hw 0xc76c 0x51a3;
    hw 0xd192 0xe819; hw 0xd699 0x0624; hw 0xf40e 0x3585; hw 0x106a 0xa070;
    hw 0x19a4 0xc116; hw 0x1e37 0x6c08; hw 0x2748 0x774c; hw 0x34b0 0xbcb5;
    hw 0x391c 0x0cb3; hw 0x4ed8 0xaa4a; hw 0x5b9c 0xca4f; hw 0x682e 0x6ff3;
    hw 0x748f 0x82ee; hw 0x78a5 0x636f; hw 0x84c8 0x7814; hw 0x8cc7 0x0208;
    hw 0x90be 0xfffa; hw 0xa450 0x6ceb; hw 0xbef9 0xa3f7; hw 0xc671 0x78f2 ].

(** The eight chaining words. *)
Record digest := Digest {
  h0 : Z; h1 : Z; h2 : Z; h3 : Z; h4 : Z; h5 : Z; h6 : Z; h7 : Z }.

Definition init : digest :=
  Digest (hw 0x6a09 0xe667) (hw 0xbb67 0xae85) (hw 0x3c6e 0xf372) (hw 0xa54f 0xf53a)
         (hw 0x510e 0x527f) (hw 0x9b05 0x688c) (hw 0x1f83 0xd9ab) (hw 0x5be0 0xcd19).

(** Big-endian word of four bytes. *)
Definition be32 (b : list Z) : Z :=
  fold_left (fun acc x => acc * 256 + x) b 0.

Fixpoint words (n : nat) (p : list Z) : list Z :=
  match n with
  | O => []
  | S n' => be32 (firstn 4 p) :: words n' (skipn 4 p)
  end.

(** The message schedule, most recent word first. *)
Fixpoint schedule (n : nat) (rev_w : list Z) : list Z :=
  match n with
  | O => rev_w
  | S n' =>
      let w2 := nth 1 rev_w 0 in
      let w7 := nth 6 rev_w 0 in
      let w15 := nth 14 rev_w 0 in
      let w16 := nth 15 rev_w 0 in
      schedule n' (add32 (add32 (add32 (ssig1 w2) w7) (ssig0 w15)) w16 :: rev_w)
  end.

Definition round (s : digest) (kw : Z * Z) : digest :=
  let '(Digest a b c d e f g h) := s in
  let t1 := add32 (add32 (add32 (add32 h (bsig1 e)) (Ch e f g)) (fst kw)) (snd kw) in
  let t2 := add32 (bsig0 a) (Maj a b c) in
  Digest (add32 t1 t2) a b c (add32 d t1) e f g.

Definition block (s : digest) (p : list Z) : digest :=
  let w := rev (schedule 48 (rev (words 16 p))) in
  let '(Digest a b c d e f g h) := fold_left round (combine _K w) s in
  Digest (add32 (h0 s) a) (add32 (h1 s) b) (add32 (h2 s) c) (add32 (h3 s) d)
         (add32 (h4 s) e) (add32 (h5 s) f) (add32 (h6 s) g) (add32 (h7 s) h).

Fixpoint blocks (n : nat) (s : digest) (p : list Z) : digest :=
  match n with
  | O => s
  | S n' => blocks n' (block s (firstn 64 p)) (skipn 64 p)
  end.

(** Big-endian bytes of a [k]-byte integer. *)
Fixpoint be_bytes (k : nat) (x : Z) : list Z :=
  match k with
  | O => []
  | S k' => Z.land (Z.shiftr x (8 * Z.of_nat k')) 255 :: be_bytes k' x
  end.

(** Padding: a one bit, zeros up to 56 modulo 64, the bit length on 8 bytes. *)
Definition pad (msg : list Z) : list Z :=
  let n := len msg in
  let zeros := (55 - n) mod 64 in
  msg ++ [0x80] ++ repeat 0 (Z.to_nat zeros) ++ be_bytes 8 (n * 8).

Definition byte_of_Z (x : Z) : byte :=
  match Byte.of_N (Z.to_N (x mod 256)) with
  | Some b => b
  | None => x00
  end.

Definition Z_of_byte (b : byte) : Z := Z.of_N (Byte.to_N b).

Definition put32 (x : Z) : list byte := map byte_of_Z (be_bytes 4 x).

(** The 32 bytes of the digest ([[32]byte]). *)
Definition bytes_of_digest (s : digest) : list byte :=
  put32 (h0 s) ++ put32 (h1 s) ++ put32 (h2 s) ++ put32 (h3 s) ++
  put32 (h4 s) ++ put32 (h5 s) ++ put32 (h6 s) ++ put32 (h7 s).

Definition Sum256 (data : list byte) : list byte :=
  let p := pad (map Z_of_byte data) in
  bytes_of_digest (blocks (length p / 64)%nat init p).

End sha256.

(** ** Go errors

    Sentinel errors are compared by identity, so each has a constructor of its
    own.  [fmt.Errorf] keeps its format and arguments; the [_w] form wraps the
    error passed for [%w], the [_v] form only prints it ([%v], [%s]). *)

Inductive fmt_arg :=
| arg_d (n : Z)
| arg_s (s : string).

Inductive error :=
| ErrBlobNotFound                      (* store.ErrBlobNotFound *)
| ErrBlobExists                        (* store.ErrBlobExists *)
| sql_ErrNoRows                        (* database/sql.ErrNoRows *)
| pq_Error (code : string)             (* an error reported by the server, by SQLSTATE *)
| lib_error (pkg text : string)        (* an error value of an external package *)
| log_Fatal (text : string)            (* not an error value: the process exits with status 1 *)
| nil_dereference                      (* runtime panic: nil pointer dereference *)
| errors_New (text : string)
| fmt_Errorf (format : string) (args : list fmt_arg)
| fmt_Errorf_v (format : string) (args : list fmt_arg) (err : error)
| fmt_Errorf_w (format : string) (args : list fmt_arg) (err : error).

#[global] Instance fmt_arg_eq_dec : EqDecision fmt_arg.
Proof. solve_decision. Defined.

#[global] Instance error_eq_dec : EqDecision error.
Proof. solve_decision. Defined.

(** [Unwrap] is defined by [%w] only. *)
Definition errors_Unwrap (err : error) : option error :=
  match err with
  | fmt_Errorf_w _ _ e => Some e
  | _ => None
  end.

(** [errors.Is]: [err] or an error in its chain is [target]. *)
Fixpoint errors_Is (err target : error) : bool :=
  if decide (err = target) then true
  else match err with
       | fmt_Errorf_w _ _ e => errors_Is e target
       | _ => false
       end.

(** A Go result [(T, error)]. *)
Inductive result (A : Type) :=
| Ok (a : A)
| Err (e : error).
Arguments Ok {A} a.
Arguments Err {A} e.

Definition is_Ok {A} (r : result A) : bool :=
  match r with Ok _ => true | Err _ => false end.

(** PostgreSQL's SQLSTATE of a violated unique or primary-key constraint. *)
Definition unique_violation : string := "23505".

(** ** github.com/google/uuid

    A [UUID] is Go's [[16]byte].  [String] prints the canonical form
    [xxxxxxxx-xxxx-xxxx-xxxx-xxxxxxxxxxxx]; [Parse] reads it back, and also
    accepts the [urn:uuid:] prefix, braces, and 32 bare hexadecimal digits. *)

Module uuid.

Record UUID := mkUUID {
  u0 : byte; u1 : byte; u2 : byte; u3 : byte;
  u4 : byte; u5 : byte; u6 : byte; u7 : byte;
  u8 : byte; u9 : byte; u10 : byte; u11 : byte;
  u12 : byte; u13 : byte; u14 : byte; u15 : byte }.

Definition of_list (l : list byte) : option UUID :=
  match l with
  | [a0; a1; a2; a3; a4; a5; a6; a7; a8; a9; a10; a11; a12; a13; a14; a15] =>
      Some (mkUUID a0 a1 a2 a3 a4 a5 a6 a7 a8 a9 a10 a11 a12 a13 a14 a15)
  | _ => None
  end.

(** [encodeHex]: the five groups, joined by ['-']. *)
Definition String (u : UUID) : string :=
  hex.Encode [u0 u; u1 u; u2 u; u3 u] +:+ "-" +:+
  hex.Encode [u4 u; u5 u] +:+ "-" +:+
  hex.Encode [u6 u; u7 u] +:+ "-" +:+
  hex.Encode [u8 u; u9 u] +:+ "-" +:+
  hex.Encode [u10 u; u11 u; u12 u; u13 u; u14 u; u15 u].

(** [xvalues]: the value of a hexadecimal digit of either case. *)
Definition xvalue (c : ascii) : option N :=
  let n := N_of_ascii c in
  if ((48 <=? n) && (n <=? 57))%N then Some (n - 48)%N
  else if ((97 <=? n) && (n <=? 102))%N then Some (n - 87)%N
  else if ((65 <=? n) && (n <=? 70))%N then Some (n - 55)%N
  else None.

(** [xtob] converts two hexadecimal characters into a byte. *)
Definition xtob (x1 x2 : ascii) : option byte :=
  match xvalue x1, xvalue x2 with
  | Some b1, Some b2 => Byte.of_N (N.lor (N.shiftl b1 4) b2)
  | _, _ => None
  end.

(** [s[i]]; out of range reads do not occur below. *)
Definition at_ (s : string) (i : nat) : ascii :=
  match String.get i s with
  | Some c => c
  | None => zero
  end.

Fixpoint decode (s : string) (offsets : list nat) : option (list byte) :=
  match offsets with
  | [] => Some []
  | x :: rest =>
      match xtob (at_ s x) (at_ s (x + 1)) with
      | None => None
      | Some v =>
          match decode s rest with
          | None => None
          | Some vs => Some (v :: vs)
          end
      end
  end.

Definition invalid_format : error := lib_error "uuid" "invalid UUID format".

Definition decode_uuid (s : string) (offsets : list nat) : result UUID :=
  match decode s offsets with
  | None => Err invalid_format
  | Some l =>
      match of_list l with
      | Some u => Ok u
      | None => Err invalid_format
      end
  end.

(** The form [xxxxxxxx-xxxx-xxxx-xxxx-xxxxxxxxxxxx], [s] at least 36 long. *)
Definition parse_hyphenated (s : string) : result UUID :=
  if negb (Ascii.eqb (at_ s 8) "-") || negb (Ascii.eqb (at_ s 13) "-")
     || negb (Ascii.eqb (at_ s 18) "-") || negb (Ascii.eqb (at_ s 23) "-")
  then Err invalid_format
  else decode_uuid s [0; 2; 4; 6; 9; 11; 14; 16; 19; 21; 24; 26; 28; 30; 32; 34]%nat.

Definition to_lower (c : ascii) : ascii :=
  let n := N_of_ascii c in
  if ((65 <=? n) && (n <=? 90))%N then ascii_of_N (n + 32) else c.

Fixpoint lower (s : string) : string :=
  match s with
  | EmptyString => EmptyString
  | String.String c r => String.String (to_lower c) (lower r)
  end.

(** [strings.EqualFold] on ASCII text. *)
Definition EqualFold (s t : string) : bool := String.eqb (lower s) (lower t).

Definition Parse (s : string) : result UUID :=
  let n := String.length s in
  if (n =? 36)%nat then parse_hyphenated s
  else if (n =? 36 + 9)%nat then
    if negb (EqualFold (substring 0 9 s) "urn:uuid:")
    then Err (fmt_Errorf "invalid urn prefix: %q" [arg_s (substring 0 9 s)])
    else parse_hyphenated (substring 9 36 s)
  else if (n =? 36 + 2)%nat then parse_hyphenated (substring 1 37 s)
  else if (n =? 32)%nat then
    decode_uuid s [0; 2; 4; 6; 8; 10; 12; 14; 16; 18; 20; 22; 24; 26; 28; 30]%nat
  else Err (fmt_Errorf "invalid UUID length: %d" [arg_d (Z.of_nat n)]).

End uuid.

(** ** gen/blob/v1: the messages of the service *)

Module blobv1.

(** Modelled from the spec: the generated message types, which are declared
    outside the sources at hand.  [BlobRecord] is the canonical record (id,
    content, content hash, creation time), [SignedBlobRecord] the signed
    record; the fields carry the names that the code uses. *)
Record BlobRecord := {
  Uuid : string;
  Blob : string;
  Hash : string;
  Timestamp : string }.

Record SignedBlobRecord := {
  Payload : BlobRecord;
  Signature : list byte }.

Record StoreBlobRequest := { StoreBlobRequest_Blob : string }.
Record StoreBlobResponse := { StoreBlobResponse_Uuid : string }.
Record GetSignedBlobRequest := { GetSignedBlobRequest_Uuid : string }.
Record GetSignedBlobResponse := {
  GetSignedBlobResponse_Payload : BlobRecord;
  GetSignedBlobResponse_Signature : list byte }.

End blobv1.

(** [proto.Marshal] on a [BlobRecord], as the linked protobuf library
    implements it.  It fails on a string field that is not valid UTF-8. *)
Class ProtoCodec := proto_Marshal : blobv1.BlobRecord -> result (list byte).

(** ** store: the storage interface and its PostgreSQL adapter *)

Module store.

(** [type Storage interface].  [Migrate] runs external migration files and
    is left out.  [Exists] returns Go's pair [(bool, error)]. *)
Class Storage (T : Type) := {
  Store : T -> blobv1.SignedBlobRecord -> option error * T;
  GetByUUID : T -> uuid.UUID -> result blobv1.SignedBlobRecord;
  Exists : T -> uuid.UUID -> bool * option error;
  Delete : T -> uuid.UUID -> option error * T;
  Ping : T -> option error }.

(** One row of [signed_blobs], without its key. *)
Record Row := {
  row_blob : string;
  row_hash : string;
  row_timestamp : string;
  row_signature : list byte }.

(** Modelled from the spec: the schema of [signed_blobs], whose migration
    files are not among the sources.  One table keyed by [uuid] (primary
    key) with the columns [blob], [hash], [timestamp] (text) and
    [signature] (raw bytes).  [unavailable] is the error that every
    statement returns while the server cannot be reached or the deadline of
    the context has passed. *)
Record Database := {
  signed_blobs : gmap string Row;
  unavailable : option error }.

Definition with_table (d : Database) (t : gmap string Row) : Database :=
  {| signed_blobs := t; unavailable := unavailable d |}.

(** [INSERT INTO signed_blobs (uuid, blob, hash, timestamp, signature)
    VALUES ($1, $2, $3, $4, $5)].  A second row for a key violates the
    primary key; a failed statement changes nothing. *)
Definition exec_insert (d : Database) (key : string) (r : Row)
  : option error * Database :=
  match unavailable d with
  | Some e => (Some e, d)
  | None =>
      match signed_blobs d !! key with
      | Some _ => (Some (pq_Error unique_violation), d)
      | None => (None, with_table d (<[key := r]> (signed_blobs d)))
      end
  end.

(** [SELECT uuid, blob, hash, timestamp, signature FROM signed_blobs
    WHERE uuid = $1], scanned from a single row. *)
Definition query_row_select (d : Database) (key : string)
  : result (string * Row) :=
  match unavailable d with
  | Some e => Err e
  | None =>
      match signed_blobs d !! key with
      | Some r => Ok (key, r)
      | None => Err sql_ErrNoRows
      end
  end.

(** [SELECT EXISTS(SELECT 1 FROM signed_blobs WHERE uuid = $1)]. *)
Definition query_row_exists (d : Database) (key : string) : result bool :=
  match unavailable d with
  | Some e => Err e
  | None => Ok (bool_decide (is_Some (signed_blobs d !! key)))
  end.

(** [DELETE FROM signed_blobs WHERE uuid = $1], with [RowsAffected]. *)
Definition exec_delete (d : Database) (key : string)
  : result Z * Database :=
  match unavailable d with
  | Some e => (Err e, d)
  | None =>
      match signed_blobs d !! key with
      | Some _ => (Ok 1, with_table d (delete key (signed_blobs d)))
      | None => (Ok 0, d)
      end
  end.

(** [SELECT NOW()]. *)
Definition exec_select_time (d : Database) : option error := unavailable d.

(** [type PostgresStorage struct]: the handle [db]; the logger is left out. *)
Record PostgresStorage := { db : Database }.

(** A [uuid.UUID] is sent to the server in its canonical text form. *)
Definition PostgresStorage_Store (s : PostgresStorage)
    (record : blobv1.SignedBlobRecord) : option error * PostgresStorage :=
  let '(err, d) :=
    exec_insert (db s)
      (blobv1.Uuid (blobv1.Payload record))
      {| row_blob := blobv1.Blob (blobv1.Payload record);
         row_hash := blobv1.Hash (blobv1.Payload record);
         row_timestamp := blobv1.Timestamp (blobv1.Payload record);
         row_signature := blobv1.Signature record |} in
  (err, {| db := d |}).

Definition PostgresStorage_GetByUUID (s : PostgresStorage) (u : uuid.UUID)
  : result blobv1.SignedBlobRecord :=
  match query_row_select (db s) (uuid.String u) with
  | Err err =>
      if errors_Is err sql_ErrNoRows then Err ErrBlobNotFound else Err err
  | Ok (key, r) =>
      Ok {| blobv1.Payload :=
              {| blobv1.Uuid := key;
                 blobv1.Blob := row_blob r;
                 blobv1.Hash := row_hash r;
                 blobv1.Timestamp := row_timestamp r |};
            blobv1.Signature := row_signature r |}
  end.

Definition PostgresStorage_Exists (s : PostgresStorage) (u : uuid.UUID)
  : bool * option error :=
  match query_row_exists (db s) (uuid.String u) with
  | Err err => (false, Some err)
  | Ok exists_ => (true, None)
  end.

Definition PostgresStorage_Delete (s : PostgresStorage) (u : uuid.UUID)
  : option error * PostgresStorage :=
  match exec_delete (db s) (uuid.String u) with
  | (Err err, d) => (Some err, {| db := d |})
  | (Ok rowsAffected, d) =>
      if rowsAffected =? 0 then (Some ErrBlobNotFound, {| db := d |})
      else (None, {| db := d |})
  end.

Definition PostgresStorage_Ping (s : PostgresStorage) : option error :=
  match exec_select_time (db s) with
  | Some err => Some (fmt_Errorf_w "failed to ping database: %w" [] err)
  | None => None
  end.

#[global] Instance PostgresStorage_Storage : Storage PostgresStorage := {
  Store := PostgresStorage_Store;
  GetByUUID := PostgresStorage_GetByUUID;
  Exists := PostgresStorage_Exists;
  Delete := PostgresStorage_Delete;
  Ping := PostgresStorage_Ping }.

(** *** Waiting for the database

    What the loop of [pingWithRetry] wakes up to: the context is done, with
    its error, or the ticker fires and [sql.Open] returns as given; the probe
    [SELECT NOW()] then runs on the database that was opened. *)
Inductive Wake :=
| wake_Done (ctx_err : error)
| wake_Tick (opened : result Database).

(** How far a blocking call got on the wake-ups it was given. *)
Inductive waited (A : Type) :=
| Waiting
| Panicked (text : string)
| Returned (r : result A).
Arguments Waiting {A}.
Arguments Panicked {A} text.
Arguments Returned {A} r.

(** The loop [for { select { ... } }] of [pingWithRetry]. *)
Fixpoint pingLoop (wakes : list Wake) : waited Database :=
  match wakes with
  | [] => Waiting
  | wake_Done ctx_err :: _ =>
      Returned (Err (fmt_Errorf_w "unable to ping database: %w" [] ctx_err))
  | wake_Tick opened :: rest =>
      match opened with
      | Ok d =>
          match exec_select_time d with
          | None => Returned (Ok d)
          | Some _ => pingLoop rest
          end
      | Err _ => pingLoop rest
      end
  end.

(** A wake-up after which the loop goes round again: a tick whose attempt
    to open the database or to probe it fails. *)
Definition fruitless (k : Wake) : Prop :=
  match k with
  | wake_Done _ => False
  | wake_Tick (Ok d) => unavailable d <> None
  | wake_Tick (Err _) => True
  end.

(** [pingWithRetry]; [time.NewTicker] panics on an interval that is not
    positive. *)
Definition pingWithRetry (retryInterval : Z) (wakes : list Wake) : waited Database :=
  if retryInterval <=? 0 then Panicked "non-positive interval for NewTicker"
  else pingLoop wakes.

(** [NewPostgresStorage]; [log] is the logger, a pointer. *)
Definition NewPostgresStorage (dsn : string) (log : option unit)
    (retryInterval : Z) (wakes : list Wake) : waited PostgresStorage :=
  if String.eqb dsn "" then
    Returned (Err (errors_New "DataSourceName (DNS) parameter cannot be empty"))
  else
    match log with
    | None => Returned (Err (errors_New "log parameter cannot be nil"))
    | Some _ =>
        match pingWithRetry retryInterval wakes with
        | Waiting => Waiting
        | Panicked text => Panicked text
        | Returned (Err err) =>
            Returned (Err (fmt_Errorf_w "failed to ping database: %w" [] err))
        | Returned (Ok d) => Returned (Ok {| db := d |})
        end
    end.

End store.

(** ** crypto, crypto/rsa, crypto/x509, encoding/pem

    The RSA primitives of Go's standard library are taken as given: a type
    of private and of public keys, the public half of a private key,
    RSASSA-PSS signing (which draws its salt from [rand.Reader], here the
    first argument) and verification, and the key encodings. *)

Module crypto.
Inductive Hash := SHA1 | SHA224 | SHA256 | SHA384 | SHA512.
End crypto.

Module pem.
Record Block := { Type_ : string; Bytes : list byte }.
End pem.

Module rsa.

Definition PSSSaltLengthAuto : Z := 0.
Definition PSSSaltLengthEqualsHash : Z := -1.

Record PSSOptions := { SaltLength : Z; Hash : crypto.Hash }.

Class Primitives := {
  PrivateKey : Type;
  PublicKey : Type;
  (** [&priv.PublicKey] *)
  Public : PrivateKey -> PublicKey;
  SignPSS : list byte -> PrivateKey -> crypto.Hash -> list byte ->
            PSSOptions -> result (list byte);
  VerifyPSS : PublicKey -> crypto.Hash -> list byte -> list byte ->
              PSSOptions -> option error;
  (** [pem.Decode]: the first block, if there is one *)
  pem_Decode : list byte -> option pem.Block;
  pem_EncodeToMemory : pem.Block -> list byte;
  x509_ParsePKCS1PrivateKey : list byte -> result PrivateKey;
  x509_MarshalPKIXPublicKey : PublicKey -> result (list byte);
  (** [x509.ParsePKIXPublicKey]: [None] for a key that is not RSA *)
  x509_ParsePKIXPublicKey : list byte -> result (option PublicKey) }.

(** What the development relies on: a signature made with a private key
    verifies under its public half, for the same digest and options, and
    is not empty (it has the size of the modulus). *)
Class Sound (P : Primitives) : Prop := {
  VerifyPSS_SignPSS :
    forall rand priv h hashed opts sig,
      SignPSS rand priv h hashed opts = Ok sig ->
      VerifyPSS (Public priv) h hashed sig opts = None;
  SignPSS_nonempty :
    forall rand priv h hashed opts sig,
      SignPSS rand priv h hashed opts = Ok sig -> sig <> [] }.

End rsa.

(** ** signature: the signer interface and its RSA implementation *)

Module signature.

(** [type Signer interface].  [Sign] takes the randomness it consumes. *)
Class Signer (T : Type) := {
  Sign : T -> list byte -> list byte -> result (list byte);
  VerifySignature : T -> list byte -> list byte -> option error;
  GetPublicKey : T -> result (list byte);
  ComputeHash : T -> list byte -> list byte }.

Section RSASigner.
Context {P : rsa.Primitives}.

(** [type RSASignerService struct]; both fields are pointers. *)
Record RSASignerService := {
  privateKey : option rsa.PrivateKey;
  publicKey : option rsa.PublicKey }.

Definition rsaPSSOptions : rsa.PSSOptions :=
  {| rsa.SaltLength := rsa.PSSSaltLengthEqualsHash;
     rsa.Hash := crypto.SHA256 |}.

Definition cryptoHash : crypto.Hash := crypto.SHA256.

(** [NewRSASignerServiceFromFile], from the result of reading the file. *)
Definition NewRSASignerServiceFromFile (file : result (list byte))
  : result RSASignerService :=
  match file with
  | Err err => Err (fmt_Errorf_w "failed to read private key file: %w" [] err)
  | Ok keyBytes =>
      match rsa.pem_Decode keyBytes with
      | None =>
          Err (errors_New "failed to decode PEM block containing RSA private key")
      | Some block =>
          if negb (String.eqb (pem.Type_ block) "RSA PRIVATE KEY")
          then Err (errors_New "failed to decode PEM block containing RSA private key")
          else
            match rsa.x509_ParsePKCS1PrivateKey (pem.Bytes block) with
            | Err err =>
                Err (fmt_Errorf_w "failed to parse RSA private key: %w" [] err)
            | Ok privateKey =>
                Ok {| privateKey := Some privateKey;
                      publicKey := Some (rsa.Public privateKey) |}
            end
      end
  end.

(** The receiver is a pointer: [None] is the nil receiver. *)
Definition rSASignerServiceCheckInit (s : option RSASignerService)
  : option error :=
  match s with
  | None => Some (errors_New "RSASignerService has not been initialised properly")
  | Some s =>
      match privateKey s, publicKey s with
      | Some _, Some _ => None
      | _, _ =>
          Some (errors_New "signer service is not properly initialised with keys")
      end
  end.

Definition RSASignerService_Sign (s : option RSASignerService)
    (rand blobContent : list byte) : result (list byte) :=
  match rSASignerServiceCheckInit s with
  | Some err => Err (fmt_Errorf_w "failed to sign content: %w" [] err)
  | None =>
      if len blobContent =? 0
      then Err (errors_New "blob content cannot be nil or empty")
      else
        let hashed := sha256.Sum256 blobContent in
        match s ≫= privateKey with
        | None => Err nil_dereference
        | Some priv =>
            match rsa.SignPSS rand priv cryptoHash hashed rsaPSSOptions with
            | Err err =>
                Err (fmt_Errorf_w
                       "failed to sign blob content using RSASSA-PSS: %w" [] err)
            | Ok signature => Ok signature
            end
        end
  end.

Definition RSASignerService_ComputeHash (s : option RSASignerService)
    (blobContent : list byte) : list byte :=
  let hash := sha256.Sum256 blobContent in
  hash.

Definition RSASignerService_VerifySignature (s : option RSASignerService)
    (blobContent signature : list byte) : option error :=
  match rSASignerServiceCheckInit s with
  | Some err => Some (fmt_Errorf_w "signature verification failed: %w" [] err)
  | None =>
      if len blobContent =? 0
      then Some (errors_New "blob content cannot be nil or empty")
      else if len signature =? 0
      then Some (errors_New "signature content cannot be nil or empty")
      else
        let hashed := sha256.Sum256 blobContent in
        match s ≫= publicKey with
        | None => Some nil_dereference
        | Some pub =>
            match rsa.VerifyPSS pub cryptoHash hashed signature rsaPSSOptions with
            | Some err =>
                Some (fmt_Errorf_w
                        "signature verification failed using RSASSA-PSS: %w" [] err)
            | None => None
            end
        end
  end.

Definition RSASignerService_GetPublicKey (s : option RSASignerService)
  : result (list byte) :=
  match s with
  | None => Err nil_dereference
  | Some s =>
      match publicKey s with
      | None => Err (errors_New "signer service is not properly initialised with keys")
      | Some pub =>
          match rsa.x509_MarshalPKIXPublicKey pub with
          | Err err => Err (fmt_Errorf_w "failed to marshal public key: %w" [] err)
          | Ok pubASN1 =>
              Ok (rsa.pem_EncodeToMemory
                    {| pem.Type_ := "PUBLIC KEY"; pem.Bytes := pubASN1 |})
          end
      end
  end.

#[global] Instance RSASignerService_Signer : Signer (option RSASignerService) := {
  Sign := RSASignerService_Sign;
  VerifySignature := RSASignerService_VerifySignature;
  GetPublicKey := RSASignerService_GetPublicKey;
  ComputeHash := RSASignerService_ComputeHash }.

End RSASigner.

End signature.

(** ** Sequencing with early return

    A computation reads and updates a world [W] and either returns a value
    or stops with an error, as a Go function does with [return nil, err]. *)

Definition M (W A : Type) : Type := W -> result A * W.

Definition ret {W A} (a : A) : M W A := fun w => (Ok a, w).
Definition fail {W A} (e : error) : M W A := fun w => (Err e, w).
Definition bind {W A B} (m : M W A) (k : A -> M W B) : M W B :=
  fun w =>
    match m w with
    | (Ok a, w') => k a w'
    | (Err e, w') => (Err e, w')
    end.

Declare Scope go_scope.
Delimit Scope go_scope with go.
Notation "'let*' x ':=' m 'in' k" :=
  (bind m (fun x => k))
  (at level 10, x name, m at level 100, k at level 200) : go_scope.
Notation "m ';;' k" :=
  (bind m (fun _ => k)) (at level 100, k at level 200, right associativity) : go_scope.

(** ** api/v1: the orchestrator *)

Module v1.

(** The calls that the service makes to its collaborators, in the order
    in which it makes them (most recent last). *)
Inductive Call :=
| call_ComputeHash (content : list byte)
| call_uuid_New
| call_time_Now
| call_proto_Marshal (m : blobv1.BlobRecord)
| call_Sign (payload : list byte)
| call_Store (record : blobv1.SignedBlobRecord)
| call_uuid_Parse (s : string)
| call_GetByUUID (u : uuid.UUID).

(** What one request draws from its environment: the identifier that
    [uuid.New()] returns, the result of
    [time.Now().UTC().Format("2006-01-02T15:04:05Z")], and the random bytes
    that signing consumes. *)
Record Env := {
  env_uuid : uuid.UUID;
  env_timestamp : string;
  env_rand : list byte }.

(** we only allow blobs of size 256 Kilobytes *)
Definition maxBlobSize : Z := 256 * 1024.

Section Service.
Context {St Sg : Type} {storage : store.Storage St}
        {signer_ : signature.Signer Sg} {codec : ProtoCodec}.

(** The state behind the [store] field of the service, and the calls made
    so far. *)
Record World := {
  the_store : St;
  calls : list Call }.

(** [type Service struct]: the signer is fixed when the service is built;
    the store is the one of the world. *)
Record Service := { signer : Sg }.

Definition called (c : Call) : M World unit :=
  fun w => (Ok tt, {| the_store := the_store w; calls := calls w ++ [c] |}).

Definition do_ComputeHash (s : Service) (content : list byte)
  : M World (list byte) :=
  (called (call_ComputeHash content);;
   ret (signature.ComputeHash (signer s) content))%go.

Definition do_uuid_New (env : Env) : M World uuid.UUID :=
  (called call_uuid_New;; ret (env_uuid env))%go.

Definition do_time_Now (env : Env) : M World string :=
  (called call_time_Now;; ret (env_timestamp env))%go.

(** The collaborators below return Go's [(value, err)]; the caller
    inspects [err]. *)
Definition do_proto_Marshal (m : blobv1.BlobRecord)
  : M World (result (list byte)) :=
  (called (call_proto_Marshal m);; ret (proto_Marshal m))%go.

Definition do_Sign (s : Service) (env : Env) (payload : list byte)
  : M World (result (list byte)) :=
  (called (call_Sign payload);;
   ret (signature.Sign (signer s) (env_rand env) payload))%go.

Definition do_Store (record : blobv1.SignedBlobRecord)
  : M World (option error) :=
  (called (call_Store record);;
   fun w =>
     let '(err, st) := store.Store (the_store w) record in
     (Ok err, {| the_store := st; calls := calls w |}))%go.

Definition do_uuid_Parse (s : string) : M World (result uuid.UUID) :=
  (called (call_uuid_Parse s);; ret (uuid.Parse s))%go.

Definition do_GetByUUID (u : uuid.UUID)
  : M World (result blobv1.SignedBlobRecord) :=
  (called (call_GetByUUID u);;
   fun w => (Ok (store.GetByUUID (the_store w) u), w))%go.

(** StoreBlob stores a blob and its signature and returns its UUID *)
Definition StoreBlob (s : Service) (env : Env)
    (req : option blobv1.StoreBlobRequest)
  : M World blobv1.StoreBlobResponse :=
  match req with
  | None => fail (errors_New "request cannot be nil")
  | Some req =>
    let blob := blobv1.StoreBlobRequest_Blob req in
    if String.eqb blob "" then
      fail (errors_New "blob content cannot be empty")
    else if strlen blob >? maxBlobSize then
      fail (fmt_Errorf "blob content exceeds maximum size of %d bytes"
              [arg_d maxBlobSize])
    else
      (let* hash := do_ComputeHash s (list_byte_of_string blob) in
       if len hash =? 0 then
         fail (errors_New "failed to compute hash for blob content")
       else
         let encodedHashStr := hex.EncodeToString hash in
         let* u := do_uuid_New env in
         let uuidStr := uuid.String u in
         let* timestamp := do_time_Now env in
         let payloadToBeSigned :=
           {| blobv1.Uuid := uuidStr;
              blobv1.Blob := blob;
              blobv1.Hash := encodedHashStr;
              blobv1.Timestamp := timestamp |} in
         let* marshalled := do_proto_Marshal payloadToBeSigned in
         match marshalled with
         | Err err => fail (fmt_Errorf_w "failed to marshal payload: %w" [] err)
         | Ok serialisedPayload =>
           let* signed := do_Sign s env serialisedPayload in
           match signed with
           | Err err => fail (fmt_Errorf_w "failed to sign payload: %w" [] err)
           | Ok sig =>
             let recordWithSignature :=
               {| blobv1.Payload :=
                    {| blobv1.Uuid := uuidStr;
                       blobv1.Blob := blob;
                       blobv1.Hash := encodedHashStr;
                       blobv1.Timestamp := timestamp |};
                  blobv1.Signature := sig |} in
             let* stored := do_Store recordWithSignature in
             match stored with
             | Some err =>
                 fail (fmt_Errorf_w "failed to store signed record: %w" [] err)
             | None => ret {| blobv1.StoreBlobResponse_Uuid := uuidStr |}
             end
           end
         end)%go
  end.

(** GetSignedBlob retrieves a signed blob by its UUID *)
Definition GetSignedBlob (s : Service)
    (req : option blobv1.GetSignedBlobRequest)
  : M World blobv1.GetSignedBlobResponse :=
  match req with
  | None => fail (errors_New "request cannot be nil")
  | Some req =>
    if String.eqb (blobv1.GetSignedBlobRequest_Uuid req) "" then
      fail (errors_New "UUID cannot be empty")
    else
      (let* parsed := do_uuid_Parse (blobv1.GetSignedBlobRequest_Uuid req) in
       match parsed with
       | Err err => fail (fmt_Errorf_w "invalid UUID format: %w" [] err)
       | Ok u =>
         let* got := do_GetByUUID u in
         match got with
         | Err err =>
             if errors_Is err ErrBlobNotFound
             then fail (fmt_Errorf_w "blob not found: %w" [] err)
             else fail (fmt_Errorf_w "failed to retrieve blob: %w" [] err)
         | Ok blobRow =>
             let signature := blobv1.Signature blobRow in
             if len signature =? 0 then
               fail (errors_New "signature is empty")
             else
               ret {| blobv1.GetSignedBlobResponse_Payload :=
                        {| blobv1.Uuid := blobv1.Uuid (blobv1.Payload blobRow);
                           blobv1.Blob := blobv1.Blob (blobv1.Payload blobRow);
                           blobv1.Hash := blobv1.Hash (blobv1.Payload blobRow);
                           blobv1.Timestamp :=
                             blobv1.Timestamp (blobv1.Payload blobRow) |};
                      blobv1.GetSignedBlobResponse_Signature := signature |}
         end
       end)%go
  end.

(** GetPublicKey returns the public key used for signing blobs.  (A
    service is built by [NewService], which refuses a nil signer.) *)
Definition GetPublicKey (s : Service) : result string :=
  match signature.GetPublicKey (signer s) with
  | Err err => Err (fmt_Errorf_w "failed to retrieve public key: %w" [] err)
  | Ok publicKey => Ok (string_of_list_byte publicKey)
  end.

End Service.

Arguments World : clear implicits.
Arguments Service : clear implicits.

(** The calls made between two worlds. *)
Definition new_calls {St} (w w' : World St) : list Call :=
  skipn (length (calls w)) (calls w').

End v1.

(** ** cmd/client/pkg: the offline verifier *)

Module pkg.

(** metaData is the data associated with each blob. *)
Record metaData := {
  UUID : string;
  Hash : string;
  TimeStamp : string }.

(** The files that the command can see. *)
Inductive node :=
| Dir
| File (content : list byte).

(** The library functions of the client that are taken as given. *)
Class Libs := {
  filepath_Abs : string -> result string;
  filepath_Base : string -> string;
  json_Unmarshal : list byte -> result metaData;
  base64_DecodeString : string -> result (list byte) }.

(** What the verifier does with its inputs, in order. *)
Inductive Event :=
| ev_ReadFile (path : string)
| ev_Sum256 (data : list byte)
| ev_proto_Marshal (m : blobv1.BlobRecord)
| ev_ParsePKIXPublicKey (der : list byte)
| ev_VerifyPSS (hashed sig : list byte).

Record World := {
  fs : gmap string node;
  events : list Event }.

(** The flags [--dir] and [--public-key], the variable [storeDir] of the
    [get] command (which the first error message prints), and [os.Args[0]]. *)
Record Flags := {
  verifyDir : string;
  publicKeyPath : string;
  storeDir : string;
  program : string }.

Section Verify.
Context {P : rsa.Primitives} {L : Libs} {codec : ProtoCodec}.

Definition did (e : Event) : M World unit :=
  fun w => (Ok tt, {| fs := fs w; events := events w ++ [e] |}).

Definition os_Stat (name : string) : M World node :=
  fun w =>
    match fs w !! name with
    | Some n => (Ok n, w)
    | None => (Err (lib_error "os" "no such file or directory"), w)
    end.

Definition os_ReadFile (name : string) : M World (result (list byte)) :=
  (did (ev_ReadFile name);;
   fun w =>
     match fs w !! name with
     | Some (File content) => (Ok (Ok content), w)
     | Some Dir => (Ok (Err (lib_error "os" "is a directory")), w)
     | None => (Ok (Err (lib_error "os" "no such file or directory")), w)
     end)%go.

Definition getAbsolutePath (fileName : string) : result string :=
  if String.eqb fileName "" then Err (errors_New "empty filename passed")
  else
    match filepath_Abs fileName with
    | Err err =>
        Err (fmt_Errorf_w "unable to get full path of the filename: %w" [] err)
    | Ok absPath => Ok absPath
    end.

(** Lifts a Go result, wrapping its error. *)
Definition or_fail {A} (r : result A) (wrap : error -> error) : M World A :=
  match r with
  | Ok a => ret a
  | Err err => fail (wrap err)
  end.

(** The three artifacts, read and decoded. *)
Record Artifacts := {
  meta : metaData;
  blobBytes : list byte;
  sig : list byte }.

(** [verifyCommand.RunE], from the arguments to the decoded signature. *)
Definition load_artifacts (f : Flags) (args : list string) : M World Artifacts :=
  match args with
  | [] =>
      fail (fmt_Errorf "usage: %s verify <uuid> --public-key <path> --dir <directory>"
              [arg_s (program f)])
  | blobUUID :: _ =>
    (let* stat := (fun w =>
         match os_Stat (verifyDir f) w with
         | (Err err, w') =>
             (Err (fmt_Errorf_v "failed to read %q: %s" [arg_s (storeDir f)] err), w')
         | ok => ok
         end) in
     match stat with
     | File _ =>
         fail (fmt_Errorf "%s is not a directory" [arg_s (filepath_Base (verifyDir f))])
     | Dir =>
       let* metaFile :=
         or_fail (getAbsolutePath (verifyDir f +:+ "/" +:+ blobUUID +:+ ".meta.json"))
           (fmt_Errorf_w "unable to read metadata file JSON: %w" []) in
       let* sigFile :=
         or_fail (getAbsolutePath (verifyDir f +:+ "/" +:+ blobUUID +:+ ".sig"))
           (fmt_Errorf_w "unable to read signature file: %w" []) in
       let* blobFile :=
         or_fail (getAbsolutePath (verifyDir f +:+ "/" +:+ blobUUID +:+ ".txt"))
           (fmt_Errorf_w "unable to read blob content file: %w" []) in
       let* metaRead := os_ReadFile metaFile in
       let* metaBytes :=
         or_fail metaRead (fmt_Errorf_w "failed to read metadata: %w" []) in
       let* meta :=
         or_fail (json_Unmarshal metaBytes)
           (fmt_Errorf_w "failed to parse metadata: %w" []) in
       let* blobRead := os_ReadFile blobFile in
       let* blobBytes :=
         or_fail blobRead (fmt_Errorf_w "failed to read blob content: %w" []) in
       let* sigRead := os_ReadFile sigFile in
       let* sigBase64 :=
         or_fail sigRead (fmt_Errorf_w "failed to read signature: %w" []) in
       let* sig :=
         or_fail (base64_DecodeString (string_of_list_byte sigBase64))
           (fmt_Errorf_w "invalid base64 in signature file: %w" []) in
       ret {| meta := meta; blobBytes := blobBytes; sig := sig |}
     end)%go
  end.

(** The payload that the verifier rebuilds from the artifacts. *)
Definition rebuilt_payload (a : Artifacts) : blobv1.BlobRecord :=
  {| blobv1.Uuid := UUID (meta a);
     blobv1.Blob := string_of_list_byte (blobBytes a);
     blobv1.Hash := Hash (meta a);
     blobv1.Timestamp := TimeStamp (meta a) |}.

Definition pssOptions : rsa.PSSOptions :=
  {| rsa.SaltLength := rsa.PSSSaltLengthEqualsHash;
     rsa.Hash := crypto.SHA256 |}.

(** [verifyCommand.RunE], from "Compute hash and compare" to the end. *)
Definition check_artifacts (f : Flags) (a : Artifacts) : M World unit :=
  (did (ev_Sum256 (blobBytes a));;
   let hash := sha256.Sum256 (blobBytes a) in
   let computedHash := hex.EncodeToString hash in
   if negb (String.eqb computedHash (Hash (meta a))) then
     fail (fmt_Errorf "hash mismatch! Expected: %s, Computed: %s"
             [arg_s (Hash (meta a)); arg_s computedHash])
   else
     let payload := rebuilt_payload a in
     did (ev_proto_Marshal payload);;
     let* payloadBytes :=
       or_fail (proto_Marshal payload)
         (fmt_Errorf_w "failed to marshal payload for verification: %w" []) in
     let* pubRead := os_ReadFile (publicKeyPath f) in
     let* pubBytes :=
       or_fail pubRead (fmt_Errorf_w "failed to read public key: %w" []) in
     match rsa.pem_Decode pubBytes with
     | None => fail (fmt_Errorf "invalid PEM format for public key" [])
     | Some block =>
       if negb (String.eqb (pem.Type_ block) "PUBLIC KEY") then
         fail (fmt_Errorf "invalid PEM format for public key" [])
       else
         did (ev_ParsePKIXPublicKey (pem.Bytes block));;
         let* pubInterface :=
           or_fail (rsa.x509_ParsePKIXPublicKey (pem.Bytes block))
             (fmt_Errorf_w "failed to parse public key: %w" []) in
         match pubInterface with
         | None => fail (log_Fatal "public key is not RSA, We use RSAPSS")
         | Some rsaPubKey =>
           did (ev_Sum256 payloadBytes);;
           let hashed := sha256.Sum256 payloadBytes in
           did (ev_VerifyPSS hashed (sig a));;
           match rsa.VerifyPSS rsaPubKey crypto.SHA256 hashed (sig a) pssOptions with
           | Some err =>
               fail (fmt_Errorf_v "signature verification failed: %v" [] err)
           | None => ret tt
           end
         end
     end)%go.

(** [verifyCommand.RunE] *)
Definition verifyCommand (f : Flags) (args : list string) : M World unit :=
  (let* a := load_artifacts f args in check_artifacts f a)%go.

(** The events between two worlds. *)
Definition new_events (w w' : World) : list Event :=
  skipn (length (events w)) (events w').

(** The steps that touch the public key or the signature. *)
Definition signature_crypto (e : Event) : bool :=
  match e with
  | ev_ParsePKIXPublicKey _ | ev_VerifyPSS _ _ => true
  | _ => false
  end.

(** A computation that leaves the files alone and takes no step on the
    public key or the signature. *)
Definition quiet {A} (m : M World A) : Prop :=
  forall w r w',
    m w = (r, w') ->
    fs w' = fs w /\
    exists evs, events w' = events w ++ evs /\
                Forall (fun e => signature_crypto e = false) evs.

(** The hash check of the specification: the SHA-256 of the local
    content, in hexadecimal, is the [hash] of the metadata. *)
Definition hash_matches (a : Artifacts) : Prop :=
  hex.EncodeToString (sha256.Sum256 (blobBytes a)) = Hash (meta a).

(** The signature check of the specification: the record rebuilt from
    the artifacts serializes, the file at [--public-key] holds an RSA
    public key, and the signature verifies under that key over the SHA-256
    of the serialization, with the options of the signer. *)
Definition signature_verifies (f : Flags) (w : World) (a : Artifacts) : Prop :=
  exists payloadBytes pubBytes block key,
    proto_Marshal (rebuilt_payload a) = Ok payloadBytes /\
    fs w !! publicKeyPath f = Some (File pubBytes) /\
    rsa.pem_Decode pubBytes = Some block /\
    pem.Type_ block = "PUBLIC KEY"%string /\
    rsa.x509_ParsePKIXPublicKey (pem.Bytes block) = Ok (Some key) /\
    rsa.VerifyPSS key crypto.SHA256 (sha256.Sum256 payloadBytes) (sig a)
      {| rsa.SaltLength := rsa.PSSSaltLengthEqualsHash;
         rsa.Hash := crypto.SHA256 |} = None.

End Verify.

(** *** The commands that talk to the server *)

(** The other library functions of the client. *)
Class Encoders := {
  json_MarshalIndent : metaData -> result (list byte);
  base64_EncodeToString : list byte -> string }.

(** A [GetSignedBlobResponse] as the client receives it: the payload is a
    pointer. *)
Record SignedBlobReply := {
  reply_Payload : option blobv1.BlobRecord;
  reply_Signature : list byte }.

(** [blobv1.BlobServiceClient]: what a call returns, a response (a pointer)
    or an error. *)
Class BlobServiceClient := {
  client_StoreBlob :
    blobv1.StoreBlobRequest -> result (option blobv1.StoreBlobResponse);
  client_GetSignedBlob :
    blobv1.GetSignedBlobRequest -> result (option SignedBlobReply);
  client_GetPublicKey : result (option string) }.

(** The calls sent to the server. *)
Inductive RPC :=
| rpc_StoreBlob (req : blobv1.StoreBlobRequest)
| rpc_GetSignedBlob (req : blobv1.GetSignedBlobRequest)
| rpc_GetPublicKey.

(** The machine that a command runs on: its files, the paths that cannot be
    opened for reading or writing (permissions, a missing parent) with the
    error they give, the files whose content cannot be read once they are
    open, and the calls sent so far. *)
Record Host := {
  disk : gmap string node;
  fault : string -> option error;
  read_fault : string -> option error;
  sent : list RPC }.

Definition IsDir (n : node) : bool :=
  match n with Dir => true | File _ => false end.

(** The files of the model are directories and regular files. *)
Definition IsRegular (n : node) : bool :=
  match n with Dir => false | File _ => true end.

Section Commands.
Context {P : rsa.Primitives} {L : Libs} {E : Encoders} {C : BlobServiceClient}.

Definition host_Stat (name : string) : M Host (result node) :=
  fun h =>
    match disk h !! name with
    | Some n => (Ok (Ok n), h)
    | None => (Ok (Err (lib_error "os" "no such file or directory")), h)
    end.

(** [os.Open]: the open file stands for what it holds. *)
Definition host_Open (name : string) : M Host (result node) :=
  fun h =>
    match fault h name with
    | Some err => (Ok (Err err), h)
    | None =>
        match disk h !! name with
        | Some n => (Ok (Ok n), h)
        | None => (Ok (Err (lib_error "os" "no such file or directory")), h)
        end
    end.

(** [io.ReadAll] on the open file [file] of the path [name]. *)
Definition host_ReadAll (name : string) (file : node)
  : M Host (result (list byte)) :=
  fun h =>
    match read_fault h name with
    | Some err => (Ok (Err err), h)
    | None =>
        match file with
        | File content => (Ok (Ok content), h)
        | Dir => (Ok (Err (lib_error "os" "is a directory")), h)
        end
    end.

(** [os.WriteFile]: creates the file or replaces its content.  A write
    that fails has failed to open the file: nothing is written. *)
Definition host_WriteFile (name : string) (data : list byte) : M Host (option error) :=
  fun h =>
    match fault h name with
    | Some err => (Ok (Some err), h)
    | None =>
        match disk h !! name with
        | Some Dir => (Ok (Some (lib_error "os" "is a directory")), h)
        | _ =>
            (Ok None,
             {| disk := <[name := File data]> (disk h);
                fault := fault h; read_fault := read_fault h; sent := sent h |})
        end
    end.

Definition call (r : RPC) : M Host unit :=
  fun h =>
    (Ok tt,
     {| disk := disk h; fault := fault h; read_fault := read_fault h;
        sent := sent h ++ [r] |}).

(** [putCommand.RunE] *)
Definition putCommand (args : list string) : M Host unit :=
  match args with
  | [] => fail (errors_New "Please provide a file name to upload")
  | filename :: _ =>
    if String.eqb filename "" then
      fail (errors_New "Please provide a file name to upload")
    else
      match filepath_Abs filename with
      | Err err => fail (fmt_Errorf_w "unable to get full path of the file: %w" [] err)
      | Ok fullPath =>
        (let* stat := host_Stat fullPath in
         match stat with
         | Err err =>
             fail (fmt_Errorf_w "error reading file %s: %w" [arg_s fullPath] err)
         | Ok fileInfo =>
           if IsDir fileInfo then
             fail (fmt_Errorf "%q is a directory, please provide a file"
                     [arg_s fullPath])
           else if negb (IsRegular fileInfo) then
             fail (fmt_Errorf "file %s is not a regular file" [arg_s fullPath])
           else
             let* opened := host_Open fullPath in
             match opened with
             | Err err =>
                 fail (fmt_Errorf_w "error opening file %s: %w" [arg_s filename] err)
             | Ok file =>
               let* read := host_ReadAll fullPath file in
               match read with
               | Err err =>
                   fail (fmt_Errorf_w "error reading file %s: %w" [arg_s filename] err)
               | Ok b =>
                 if len b =? 0 then
                   fail (fmt_Errorf
                           "file is %q empty, please provide a file with content"
                           [arg_s fullPath])
                 else
                   let req :=
                     {| blobv1.StoreBlobRequest_Blob := string_of_list_byte b |} in
                   call (rpc_StoreBlob req);;
                   match client_StoreBlob req with
                   | Err err => fail (fmt_Errorf_w "error storing blob: %w" [] err)
                   | Ok None => fail (errors_New "got empty response from the server")
                   | Ok (Some resp) => ret tt
                   end
               end
             end
         end)%go
      end
  end.

(** [getCommand.RunE] *)
Definition getCommand (f : Flags) (args : list string) : M Host unit :=
  match args with
  | [] => fail (log_Fatal "Please provide a UUID to download")
  | blobUUID :: _ =>
    match uuid.Parse blobUUID with
    | Err err =>
        fail (fmt_Errorf_w "invalid UUID format, please provide a valid UUID: %w" [] err)
    | Ok _ =>
      (let* stat := host_Stat (storeDir f) in
       match stat with
       | Err err => fail (fmt_Errorf_v "failed to read %q: %s" [arg_s (storeDir f)] err)
       | Ok (File _) =>
           fail (fmt_Errorf "%s is not a directory" [arg_s (filepath_Base (storeDir f))])
       | Ok Dir =>
         let req := {| blobv1.GetSignedBlobRequest_Uuid := blobUUID |} in
         call (rpc_GetSignedBlob req);;
         match client_GetSignedBlob req with
         | Err err => fail (fmt_Errorf_w "unable to get blob: %w" [] err)
         | Ok None => fail (log_Fatal "response is nil, please check the server logs")
         | Ok (Some resp) =>
           match reply_Payload resp with
           | None => fail (log_Fatal "response is nil, please check the server logs")
           | Some payload =>
             let blobFilename := storeDir f +:+ "/" +:+ blobUUID +:+ ".txt" in
             let* wrote :=
               host_WriteFile blobFilename (list_byte_of_string (blobv1.Blob payload)) in
             match wrote with
             | Some err =>
                 fail (fmt_Errorf_v "failed to write blob to file %s: %v"
                         [arg_s blobFilename] err)
             | None =>
               let sigFilename := storeDir f +:+ "/" +:+ blobUUID +:+ ".sig" in
               let sigB64 := base64_EncodeToString (reply_Signature resp) in
               let* wrote := host_WriteFile sigFilename (list_byte_of_string sigB64) in
               match wrote with
               | Some err =>
                   fail (fmt_Errorf_w "failed to write signature to file %q: %w"
                           [arg_s sigFilename] err)
               | None =>
                 let metaFilename := storeDir f +:+ "/" +:+ blobUUID +:+ ".meta.json" in
                 let m := {| UUID := blobv1.Uuid payload;
                             Hash := blobv1.Hash payload;
                             TimeStamp := blobv1.Timestamp payload |} in
                 match json_MarshalIndent m with
                 | Err err =>
                     fail (fmt_Errorf_w "failed to marshal metadata into JSON: %w" [] err)
                 | Ok metaByte =>
                   let* wrote := host_WriteFile metaFilename metaByte in
                   match wrote with
                   | Some err =>
                       fail (fmt_Errorf_w "faile to write metadata JSON file %s: %w"
                               [arg_s metaFilename] err)
                   | None => ret tt
                   end
                 end
               end
             end
           end
         end
       end)%go
    end
  end.

(** [getPublicKeyCommand.RunE]; the response is used without a nil check. *)
Definition getPublicKeyCommand (f : Flags) (args : list string) : M Host unit :=
  match args with
  | [] =>
      fail (log_Fatal
              ("Usage: %s get-public-key <filename>"
               +:+ String.String "010"
                     "Please provide a filename to save the public key."))
  | publicKeyFile :: _ =>
    (call rpc_GetPublicKey;;
     match client_GetPublicKey with
     | Err err =>
         fail (fmt_Errorf_w "unable to write file %q: %w" [arg_s publicKeyFile] err)
     | Ok None => fail nil_dereference
     | Ok (Some publicKey) =>
       let* wrote := host_WriteFile publicKeyFile (list_byte_of_string publicKey) in
       match wrote with
       | Some err =>
           fail (fmt_Errorf_w "failed to write blob to file %s: %w"
                   [arg_s publicKeyFile] err)
       | None => ret tt
       end
     end)%go
  end.

(** A host after a file has been written, and after a call has been sent. *)
Definition with_file (h : Host) (name : string) (data : list byte) : Host :=
  {| disk := <[name := File data]> (disk h); fault := fault h;
     read_fault := read_fault h; sent := sent h |}.

Definition with_call (h : Host) (r : RPC) : Host :=
  {| disk := disk h; fault := fault h; read_fault := read_fault h;
     sent := sent h ++ [r] |}.

(** What the verifier sees of a host. *)
Definition verifier_world (h : Host) : World := {| fs := disk h; events := [] |}.

(** The metadata [m] survives its way into the metadata file and back. *)
Definition meta_round_trip (m : metaData) : Prop :=
  forall data, json_MarshalIndent m = Ok data -> json_Unmarshal data = Ok m.

(** A signature survives its way into the signature file and back. *)
Definition sig_round_trip : Prop :=
  forall sig, base64_DecodeString (base64_EncodeToString sig) = Ok sig.

(** The public key [pub] survives its way into a key file and back. *)
Definition key_round_trip (pub : rsa.PublicKey) : Prop :=
  forall der,
    rsa.x509_MarshalPKIXPublicKey pub = Ok der ->
    rsa.pem_Decode
      (rsa.pem_EncodeToMemory {| pem.Type_ := "PUBLIC KEY"; pem.Bytes := der |})
    = Some {| pem.Type_ := "PUBLIC KEY"; pem.Bytes := der |} /\
    rsa.x509_ParsePKIXPublicKey der = Ok (Some pub).

(** The three artifacts of an identifier in a directory. *)
Definition artifact_paths (dir blobUUID : string) : list string :=
  [dir +:+ "/" +:+ blobUUID +:+ ".txt";
   dir +:+ "/" +:+ blobUUID +:+ ".sig";
   dir +:+ "/" +:+ blobUUID +:+ ".meta.json"].

End Commands.

End pkg.

(** ** The client connected to the service *)

(** Modelled from the spec: the RPC transport, whose generated stubs are not
    among the sources.  It delivers a request to the service and the answer
    back; an error of the service reaches the client as a status error that
    carries its text only, not its chain. *)

Module transport.

Section Connect.
Context {St Sg : Type} {storage : store.Storage St}
        {signer_ : signature.Signer Sg} {codec : ProtoCodec}.

Definition status (e : error) : error :=
  fmt_Errorf_v "rpc error: code = Unknown desc = %s" [] e.

(** The client of a service [s] whose world is [w] and whose next request
    draws [env]. *)
Definition connect (s : v1.Service Sg) (env : v1.Env) (w : v1.World St)
  : pkg.BlobServiceClient := {|
  pkg.client_StoreBlob := fun req =>
    match fst (v1.StoreBlob s env (Some req) w) with
    | Ok resp => Ok (Some resp)
    | Err e => Err (status e)
    end;
  pkg.client_GetSignedBlob := fun req =>
    match fst (v1.GetSignedBlob s (Some req) w) with
    | Ok resp =>
        Ok (Some {| pkg.reply_Payload := Some (blobv1.GetSignedBlobResponse_Payload resp);
                    pkg.reply_Signature := blobv1.GetSignedBlobResponse_Signature resp |})
    | Err e => Err (status e)
    end;
  pkg.client_GetPublicKey :=
    match v1.GetPublicKey s with
    | Ok publicKey => Ok (Some publicKey)
    | Err e => Err (status e)
    end |}.

End Connect.

End transport.

(** ** A sample deployment

    Concrete stand-ins for the libraries that the development takes as given,
    small enough to run: the protobuf wire format of four string fields, RSA
    on a sixteen-bit modulus, one-byte PEM labels, and line-based metadata. *)

Module sample.

Definition N_of_byte (b : byte) : N := Byte.to_N b.

(** UTF-8 validity (RFC 3629), on byte values. *)
Definition cont (b : N) : bool := ((128 <=? b) && (b <=? 191))%N.

Fixpoint utf8_valid (l : list N) : bool :=
  match l with
  | [] => true
  | b0 :: r =>
      if (b0 <? 128)%N then utf8_valid r
      else if ((194 <=? b0) && (b0 <=? 223))%N then
        match r with
        | b1 :: r' => cont b1 && utf8_valid r'
        | _ => false
        end
      else if ((224 <=? b0) && (b0 <=? 239))%N then
        match r with
        | b1 :: b2 :: r' =>
            cont b1 && cont b2
            && (if (b0 =? 224)%N then (160 <=? b1)%N else true)
            && (if (b0 =? 237)%N then (b1 <=? 159)%N else true)
            && utf8_valid r'
        | _ => false
        end
      else if ((240 <=? b0) && (b0 <=? 244))%N then
        match r with
        | b1 :: b2 :: b3 :: r' =>
            cont b1 && cont b2 && cont b3
            && (if (b0 =? 240)%N then (144 <=? b1)%N else true)
            && (if (b0 =? 244)%N then (b1 <=? 143)%N else true)
            && utf8_valid r'
        | _ => false
        end
      else false
  end.

(** Base-128 varint, least significant group first. *)
Fixpoint varint (fuel : nat) (n : N) : list byte :=
  match fuel with
  | O => []
  | S fuel' =>
      if (n <? 128)%N then [sha256.byte_of_Z (Z.of_N n)]
      else sha256.byte_of_Z (Z.of_N (N.lor (N.land n 127) 128))
             :: varint fuel' (N.shiftr n 7)
  end.

(** A string field: nothing when empty, else tag, length, bytes. *)
Definition field (number : N) (s : string) : list byte :=
  if String.eqb s "" then []
  else varint 10 (N.lor (N.shiftl number 3) 2)
         ++ varint 10 (N.of_nat (String.length s))
         ++ list_byte_of_string s.

Definition valid (s : string) : bool :=
  utf8_valid (map N_of_byte (list_byte_of_string s)).

Definition Marshal (m : blobv1.BlobRecord) : result (list byte) :=
  if valid (blobv1.Uuid m) && valid (blobv1.Blob m)
     && valid (blobv1.Hash m) && valid (blobv1.Timestamp m)
  then Ok (field 1 (blobv1.Uuid m) ++ field 2 (blobv1.Blob m)
           ++ field 3 (blobv1.Hash m) ++ field 4 (blobv1.Timestamp m))
  else Err (lib_error "proto" "string field contains invalid UTF-8").

#[export] Instance codec : ProtoCodec := Marshal.

(** RSA on small numbers: a key is [(N, E, D)]. *)
Record PrivateKey := { key_N : Z; key_E : Z; key_D : Z }.
Record PublicKey := { pub_N : Z; pub_E : Z }.

Fixpoint modpow_pos (b : Z) (e : positive) (n : Z) : Z :=
  match e with
  | xH => b mod n
  | xO e' => let h := modpow_pos b e' n in (h * h) mod n
  | xI e' => let h := modpow_pos b e' n in (h * h * b) mod n
  end.

Definition modpow (b e n : Z) : Z :=
  match e with
  | Zpos p => modpow_pos b p n
  | _ => 1 mod n
  end.

(** The key deciphers what it enciphers, on every byte value. *)
Definition key_ok (k : PrivateKey) : bool :=
  (255 <? key_N k) && (key_N k <? 65536)
  && forallb (fun m => modpow (modpow m (key_D k) (key_N k)) (key_E k) (key_N k) =? m)
       (map Z.of_nat (seq 0 256)).

Definition two_bytes (x : Z) : list byte :=
  [sha256.byte_of_Z (x / 256); sha256.byte_of_Z x].

(** The encoded message is the salt (four random bytes) followed by the
    SHA-256 of the salt and the digest; each of its bytes is signed on its
    own. *)
Definition encipher (k : PrivateKey) (msg : list byte) : list byte :=
  flat_map (fun b => two_bytes (modpow (sha256.Z_of_byte b) (key_D k) (key_N k))) msg.

Fixpoint decipher (k : PublicKey) (sig : list byte) : option (list Z) :=
  match sig with
  | [] => Some []
  | hi :: lo :: rest =>
      match decipher k rest with
      | Some ms =>
          Some (modpow (sha256.Z_of_byte hi * 256 + sha256.Z_of_byte lo)
                  (pub_E k) (pub_N k) :: ms)
      | None => None
      end
  | _ => None
  end.

Definition saltLength : nat := 4.

Definition encode (salt hashed : list byte) : list byte :=
  salt ++ sha256.Sum256 (salt ++ hashed).

Definition SignPSS (rand : list byte) (k : PrivateKey) (h : crypto.Hash)
    (hashed : list byte) (opts : rsa.PSSOptions) : result (list byte) :=
  if negb (key_ok k) then Err (lib_error "rsa" "invalid key")
  else if (length rand <? saltLength)%nat then Err (lib_error "rand" "short read")
  else Ok (encipher k (encode (firstn saltLength rand) hashed)).

Definition ErrVerification : error := lib_error "rsa" "verification error".

Definition VerifyPSS (k : PublicKey) (h : crypto.Hash)
    (hashed sig : list byte) (opts : rsa.PSSOptions) : option error :=
  match decipher k sig with
  | Some ms =>
      let salt := map sha256.byte_of_Z (firstn saltLength ms) in
      if bool_decide (ms = map sha256.Z_of_byte (encode salt hashed))
         && (saltLength <=? length ms)%nat
      then None else Some ErrVerification
  | None => Some ErrVerification
  end.

(** Keys on the wire: the label is the first byte, the numbers follow on
    two bytes each. *)
Definition pem_Decode (data : list byte) : option pem.Block :=
  match data with
  | x01 :: der => Some {| pem.Type_ := "RSA PRIVATE KEY"; pem.Bytes := der |}
  | x02 :: der => Some {| pem.Type_ := "PUBLIC KEY"; pem.Bytes := der |}
  | _ => None
  end.

Definition pem_EncodeToMemory (b : pem.Block) : list byte :=
  (if String.eqb (pem.Type_ b) "RSA PRIVATE KEY" then x01 else x02) :: pem.Bytes b.

Definition num (hi lo : byte) : Z := sha256.Z_of_byte hi * 256 + sha256.Z_of_byte lo.

Definition ParsePKCS1PrivateKey (der : list byte) : result PrivateKey :=
  match der with
  | [n1; n0; e1; e0; d1; d0] =>
      Ok {| key_N := num n1 n0; key_E := num e1 e0; key_D := num d1 d0 |}
  | _ => Err (lib_error "x509" "malformed private key")
  end.

Definition MarshalPKIXPublicKey (k : PublicKey) : result (list byte) :=
  Ok (two_bytes (pub_N k) ++ two_bytes (pub_E k)).

Definition ParsePKIXPublicKey (der : list byte) : result (option PublicKey) :=
  match der with
  | [n1; n0; e1; e0] => Ok (Some {| pub_N := num n1 n0; pub_E := num e1 e0 |})
  | [] => Err (lib_error "x509" "malformed public key")
  | _ => Ok None
  end.

#[export] Instance primitives : rsa.Primitives := {
  rsa.PrivateKey := PrivateKey;
  rsa.PublicKey := PublicKey;
  rsa.Public := fun k => {| pub_N := key_N k; pub_E := key_E k |};
  rsa.SignPSS := SignPSS;
  rsa.VerifyPSS := VerifyPSS;
  rsa.pem_Decode := pem_Decode;
  rsa.pem_EncodeToMemory := pem_EncodeToMemory;
  rsa.x509_ParsePKCS1PrivateKey := ParsePKCS1PrivateKey;
  rsa.x509_MarshalPKIXPublicKey := MarshalPKIXPublicKey;
  rsa.x509_ParsePKIXPublicKey := ParsePKIXPublicKey }.

(** Metadata as three lines; the signature file in hexadecimal. *)
Fixpoint lines (cur : string) (s : string) : list string :=
  match s with
  | EmptyString => [cur]
  | String.String c r =>
      if Ascii.eqb c "010" then cur :: lines EmptyString r
      else lines (cur +:+ String.String c EmptyString) r
  end.

Definition Unmarshal (data : list byte) : result pkg.metaData :=
  match lines EmptyString (string_of_list_byte data) with
  | [u; h; t] => Ok {| pkg.UUID := u; pkg.Hash := h; pkg.TimeStamp := t |}
  | _ => Err (lib_error "json" "unexpected end of JSON input")
  end.

Fixpoint unhex (s : string) : option (list byte) :=
  match s with
  | EmptyString => Some []
  | String.String a (String.String b r) =>
      match uuid.xtob a b, unhex r with
      | Some v, Some vs => Some (v :: vs)
      | _, _ => None
      end
  | _ => None
  end.

Definition DecodeString (s : string) : result (list byte) :=
  match unhex s with
  | Some l => Ok l
  | None => Err (lib_error "base64" "illegal base64 data")
  end.

#[export] Instance libs : pkg.Libs := {
  pkg.filepath_Abs := fun p => Ok p;
  pkg.filepath_Base := fun p => p;
  pkg.json_Unmarshal := Unmarshal;
  pkg.base64_DecodeString := DecodeString }.

(** The key [N = 61 * 53], [E = 17], [D = 2753], as a private-key file. *)
Definition private_key_file : list byte :=
  x01 :: two_bytes 3233 ++ two_bytes 17 ++ two_bytes 2753.

(** The signer that [NewRSASignerServiceFromFile] loads from that file. *)
Definition loaded_signer : signature.RSASignerService :=
  {| signature.privateKey := Some {| key_N := 3233; key_E := 17; key_D := 2753 |};
     signature.publicKey := Some {| pub_N := 3233; pub_E := 17 |} |}.

Definition the_signer : option signature.RSASignerService := Some loaded_signer.

(** A service whose signer is the nil pointer. *)
Definition unkeyed_service : v1.Service (option signature.RSASignerService) :=
  {| v1.signer := None |}.

Definition the_service : v1.Service (option signature.RSASignerService) :=
  {| v1.signer := the_signer |}.

Definition empty_database : store.PostgresStorage :=
  {| store.db := {| store.signed_blobs := ∅; store.unavailable := None |} |}.

Definition start : v1.World store.PostgresStorage :=
  {| v1.the_store := empty_database; v1.calls := [] |}.

Definition an_uuid : uuid.UUID :=
  uuid.mkUUID x55 x0e x84 x00 xe2 x9b x41 xd4 xa7 x16 x44 x66 x55 x44 x00 x00.

Definition an_env : v1.Env :=
  {| v1.env_uuid := an_uuid;
     v1.env_timestamp := "2025-07-01T12:00:00Z";
     v1.env_rand := [x01; x02; x03; x04; x05; x06; x07; x08] |}.

Definition hello : option blobv1.StoreBlobRequest :=
  Some {| blobv1.StoreBlobRequest_Blob := "hello-world" |}.

(** The world after [hello] has been stored. *)
Definition stored : v1.World store.PostgresStorage :=
  Eval vm_compute in snd (v1.StoreBlob the_service an_env hello start).

Definition one_record_database : store.PostgresStorage := v1.the_store stored.

Definition the_id : string := "550e8400-e29b-41d4-a716-446655440000".

Definition get_the_id : option blobv1.GetSignedBlobRequest :=
  Some {| blobv1.GetSignedBlobRequest_Uuid := the_id |}.

(** The artifacts of the stored record, as the [get] command lays them
    out, and the public key of the signer. *)
Definition newline : string := String.String "010" EmptyString.

Definition meta_file : list byte :=
  list_byte_of_string
    (the_id +:+ newline
     +:+ "afa27b44d43b02a9fea41d13cedc2e4016cfcf87c5dbf990e593669aa8ce286d"
     +:+ newline +:+ "2025-07-01T12:00:00Z").

Definition public_key_file : list byte :=
  x02 :: two_bytes 3233 ++ two_bytes 17.

Definition files (content sig_hex : string) : gmap string pkg.node :=
  <[ "/blobs" := pkg.Dir ]>
  (<[ "/blobs/550e8400-e29b-41d4-a716-446655440000.meta.json" := pkg.File meta_file ]>
  (<[ "/blobs/550e8400-e29b-41d4-a716-446655440000.txt"
        := pkg.File (list_byte_of_string content) ]>
  (<[ "/blobs/550e8400-e29b-41d4-a716-446655440000.sig"
        := pkg.File (list_byte_of_string sig_hex) ]>
  (<[ "/keys/public.pem" := pkg.File public_key_file ]> ∅)))).

Definition flags : pkg.Flags :=
  {| pkg.verifyDir := "/blobs";
     pkg.publicKeyPath := "/keys/public.pem";
     pkg.storeDir := ".";
     pkg.program := "client" |}.

(** A content of exactly 262,144 bytes, and one byte more. *)
Definition largest_blob : string :=
  string_of_list_byte (repeat x41 (Z.to_nat 262144)).

Definition too_large_blob : string := String.String "A" largest_blob.

(** A table with a row whose signature column is empty. *)
Definition unsigned_database : store.PostgresStorage :=
  Eval vm_compute in
  snd (store.Store empty_database
         {| blobv1.Payload :=
              {| blobv1.Uuid := uuid.String an_uuid;
                 blobv1.Blob := "hello-world";
                 blobv1.Hash := hex.EncodeToString
                                  (sha256.Sum256 (list_byte_of_string "hello-world"));
                 blobv1.Timestamp := "2025-07-01T12:00:00Z" |};
            blobv1.Signature := [] |}).

Definition the_record : blobv1.SignedBlobRecord :=
  Eval vm_compute in
  match store.GetByUUID one_record_database an_uuid with
  | Ok r => r
  | Err _ => {| blobv1.Payload := {| blobv1.Uuid := ""; blobv1.Blob := "";
                                     blobv1.Hash := ""; blobv1.Timestamp := "" |};
                blobv1.Signature := [] |}
  end.

Definition the_signature_hex : string :=
  Eval vm_compute in hex.EncodeToString (blobv1.Signature the_record).

(** The downloaded artifacts, untouched and with one letter of the content
    changed. *)
Definition downloaded : pkg.World :=
  {| pkg.fs := files "hello-world" the_signature_hex; pkg.events := [] |}.

Definition tampered : pkg.World :=
  {| pkg.fs := files "hello-w0rld" the_signature_hex; pkg.events := [] |}.

Definition the_artifacts : pkg.Artifacts :=
  {| pkg.meta :=
       {| pkg.UUID := the_id;
          pkg.Hash := "afa27b44d43b02a9fea41d13cedc2e4016cfcf87c5dbf990e593669aa8ce286d";
          pkg.TimeStamp := "2025-07-01T12:00:00Z" |};
     pkg.blobBytes := list_byte_of_string "hello-world";
     pkg.sig := blobv1.Signature the_record |}.

(** The largest content as [StoreBlob] lays it out, serializes it and
    signs it. *)
Definition largest_payload : blobv1.BlobRecord :=
  {| blobv1.Uuid := uuid.String an_uuid;
     blobv1.Blob := largest_blob;
     blobv1.Hash := hex.EncodeToString
                      (sha256.Sum256 (list_byte_of_string largest_blob));
     blobv1.Timestamp := "2025-07-01T12:00:00Z" |}.

Definition largest_serialised : list byte :=
  field 1 (blobv1.Uuid largest_payload) ++ field 2 (blobv1.Blob largest_payload)
  ++ field 3 (blobv1.Hash largest_payload) ++ field 4 (blobv1.Timestamp largest_payload).

Definition largest_signature : list byte :=
  encipher {| key_N := 3233; key_E := 17; key_D := 2753 |}
    (encode (firstn saltLength (v1.env_rand an_env))
       (sha256.Sum256 largest_serialised)).

(** A signer that implements [ComputeHash] by returning no bytes. *)
#[export] Instance hashless_signer : signature.Signer unit := {
  signature.Sign := fun _ _ _ => Err (lib_error "signer" "no key");
  signature.VerifySignature := fun _ _ _ => Some (lib_error "signer" "no key");
  signature.GetPublicKey := fun _ => Err (lib_error "signer" "no key");
  signature.ComputeHash := fun _ _ => [] }.

(** The store while the server cannot be reached. *)
Definition unreachable : v1.World store.PostgresStorage :=
  {| v1.the_store :=
       {| store.db := {| store.signed_blobs := ∅;
                         store.unavailable := Some (lib_error "pq" "connection refused") |} |};
     v1.calls := [] |}.

Definition unsigned : v1.World store.PostgresStorage :=
  {| v1.the_store := unsigned_database; v1.calls := [] |}.

(** [json.MarshalIndent] and [base64.StdEncoding.EncodeToString] of the
    sample: the three fields on three lines, the signature in hexadecimal. *)
Definition MarshalIndent (m : pkg.metaData) : result (list byte) :=
  Ok (list_byte_of_string
        (pkg.UUID m +:+ newline +:+ pkg.Hash m +:+ newline +:+ pkg.TimeStamp m)).

#[export] Instance encoders : pkg.Encoders := {
  pkg.json_MarshalIndent := MarshalIndent;
  pkg.base64_EncodeToString := hex.EncodeToString }.

(** The clients of the sample service, before and after [hello] has been
    stored. *)
Definition first_client : pkg.BlobServiceClient :=
  transport.connect the_service an_env start.

Definition the_client : pkg.BlobServiceClient :=
  transport.connect the_service an_env stored.

(** A machine with a file to upload and a directory for downloads. *)
Definition a_host : pkg.Host :=
  {| pkg.disk := <[ "/blobs" := pkg.Dir ]>
                 (<[ "/home/hello.txt" := pkg.File (list_byte_of_string "hello-world") ]>
                 (<[ "/home/empty.txt" := pkg.File [] ]> ∅));
     pkg.fault := fun _ => None;
     pkg.read_fault := fun _ => None;
     pkg.sent := [] |}.

Definition download_flags : pkg.Flags :=
  {| pkg.verifyDir := "/blobs";
     pkg.publicKeyPath := "/keys/public.pem";
     pkg.storeDir := "/blobs";
     pkg.program := "client" |}.

(** The host after the file has been uploaded; after the public key has
    been saved; and after the record has then been downloaded. *)
Definition uploaded_host : pkg.Host :=
  Eval vm_compute in
  snd (pkg.putCommand (C := first_client) ["/home/hello.txt"%string] a_host).

Definition key_saved_host : pkg.Host :=
  Eval vm_compute in
  snd (pkg.getPublicKeyCommand (C := the_client) download_flags
         ["/keys/public.pem"%string] a_host).

Definition downloaded_host : pkg.Host :=
  Eval vm_compute in
  snd (pkg.getCommand (C := the_client) download_flags [the_id] key_saved_host).

(** A database that does not answer, and one that does. *)
Definition starting_up : store.Database :=
  {| store.signed_blobs := ∅;
     store.unavailable := Some (lib_error "pq" "the database system is starting up") |}.

Definition ready : store.Database :=
  {| store.signed_blobs := ∅; store.unavailable := None |}.

Definition context_DeadlineExceeded : error :=
  lib_error "context" "deadline exceeded".

End sample.

(** * Properties *)

(** ** The libraries *)

Lemma put32_length (x : Z) : length (sha256.put32 x) = 4%nat.
Proof. reflexivity. Qed.

Lemma Sum256_length (data : list byte) : length (sha256.Sum256 data) = 32%nat.
Proof.
  unfold sha256.Sum256, sha256.bytes_of_digest.
  rewrite !length_app, !put32_length. reflexivity.
Qed.

Lemma Sum256_len (data : list byte) : len (sha256.Sum256 data) = sha256.Size.
Proof. unfold len. rewrite Sum256_length. reflexivity. Qed.

Example sha256_empty :
  hex.EncodeToString (sha256.Sum256 []) =
  "e3b0c44298fc1c149afbf4c8996fb92427ae41e4649b934ca495991b7852b855"%string.
Proof. vm_compute. reflexivity. Qed.

Example sha256_abc :
  hex.EncodeToString (sha256.Sum256 (list_byte_of_string "abc")) =
  "ba7816bf8f01cfea414140de5dae2223b00361a396177a9cb410ff61f20015ad"%string.
Proof. vm_compute. reflexivity. Qed.

Example sha256_two_blocks :
  hex.EncodeToString (sha256.Sum256 (list_byte_of_string
    "abcdbcdecdefdefgefghfghighijhijkijkljklmklmnlmnomnopnopq")) =
  "248d6a61d20638b8e5c026930c3e6039a33ce45964ff2167f6ecedd419db06c1"%string.
Proof. vm_compute. reflexivity. Qed.

Lemma xtob_digit (b : byte) :
  uuid.xtob (hex.digit (N.shiftr (Byte.to_N b) 4))
            (hex.digit (N.land (Byte.to_N b) 15)) = Some b.
Proof. destruct b; reflexivity. Qed.

(** Parsing the canonical text of an identifier gives the identifier back. *)
Lemma uuid_Parse_String (u : uuid.UUID) : uuid.Parse (uuid.String u) = Ok u.
Proof.
  destruct u. unfold uuid.String.
  cbn [hex.Encode uuid.u0 uuid.u1 uuid.u2 uuid.u3 uuid.u4 uuid.u5 uuid.u6
       uuid.u7 uuid.u8 uuid.u9 uuid.u10 uuid.u11 uuid.u12 uuid.u13 uuid.u14
       uuid.u15].
  cbv [String.append].
  unfold uuid.Parse. cbn [String.length Nat.eqb].
  unfold uuid.parse_hyphenated.
  cbn [uuid.at_ String.get Ascii.eqb Bool.eqb negb orb].
  unfold uuid.decode_uuid. cbn [uuid.decode uuid.at_ String.get Nat.add].
  rewrite !xtob_digit. reflexivity.
Qed.

Example uuid_Parse_braces_upper_case :
  uuid.Parse "{550E8400-E29B-41D4-A716-446655440000}" = Ok sample.an_uuid.
Proof. vm_compute. reflexivity. Qed.

Example uuid_Parse_invalid :
  uuid.Parse "invalid-uuid" = Err (fmt_Errorf "invalid UUID length: %d" [arg_d 12]).
Proof. vm_compute. reflexivity. Qed.

Lemma len_nil_iff {A} (l : list A) : (len l =? 0) = true <-> l = [].
Proof.
  unfold len. destruct l; simpl; split; intros H; try reflexivity; try discriminate.
Qed.

Lemma len_nonempty {A} (l : list A) : l <> [] -> (len l =? 0) = false.
Proof.
  intros H. destruct (len l =? 0) eqn:E; [|reflexivity].
  apply len_nil_iff in E. contradiction.
Qed.

(** ** The storage adapter *)

Section PostgresStorage.
Import store.

Lemma GetByUUID_after_Store (s s' : PostgresStorage) (u : uuid.UUID)
    (record : blobv1.SignedBlobRecord) :
  blobv1.Uuid (blobv1.Payload record) = uuid.String u ->
  Store s record = (None, s') ->
  GetByUUID s' u = Ok record /\ unavailable (db s') = None.
Proof.
  intros Hkey. simpl. unfold PostgresStorage_Store, PostgresStorage_GetByUUID,
    exec_insert, query_row_select.
  destruct (unavailable (db s)) eqn:Hav; [intros [=]|].
  destruct (signed_blobs (db s) !! _) eqn:Hl; [intros [=]|].
  intros [= <-]. simpl. rewrite Hav, <- Hkey, lookup_insert_eq.
  destruct record as [[] ?]; simpl in *. split; reflexivity.
Qed.

End PostgresStorage.

Section AdapterProperties.
Import store.

(** Whenever the lookup itself succeeds, [Exists] answers [true]: the
    scanned value is not looked at. *)
Lemma Exists_ignores_the_lookup (s : PostgresStorage) (u : uuid.UUID) :
  Exists s u =
  match unavailable (db s) with
  | Some e => (false, Some e)
  | None => (true, None)
  end.
Proof.
  simpl. unfold PostgresStorage_Exists, query_row_exists.
  destruct (unavailable (db s)); reflexivity.
Qed.

(** C1, evaluated on the code: on the empty table, where [GetByUUID] finds
    no record for the identifier, [Exists] still returns [(true, nil)]; so
    it does not return [false] for an absent record. *)
Theorem Exists_true_for_absent_record :
  signed_blobs (db sample.empty_database) !! uuid.String sample.an_uuid = None /\
  GetByUUID sample.empty_database sample.an_uuid = Err ErrBlobNotFound /\
  Exists sample.empty_database sample.an_uuid = (true, None).
Proof. repeat split. Qed.

Lemma Delete_present (s : PostgresStorage) (u : uuid.UUID) :
  unavailable (db s) = None ->
  is_Some (signed_blobs (db s) !! uuid.String u) ->
  Delete s u =
  (None, {| db := with_table (db s) (delete (uuid.String u) (signed_blobs (db s))) |}).
Proof.
  intros Hav [r Hr]. simpl. unfold PostgresStorage_Delete, exec_delete.
  rewrite Hav, Hr. reflexivity.
Qed.

Lemma Delete_absent (s : PostgresStorage) (u : uuid.UUID) :
  unavailable (db s) = None ->
  signed_blobs (db s) !! uuid.String u = None ->
  Delete s u = (Some ErrBlobNotFound, s).
Proof.
  intros Hav Hr. simpl. unfold PostgresStorage_Delete, exec_delete.
  rewrite Hav, Hr. destruct s; reflexivity.
Qed.

Lemma Delete_success_inv (s s' : PostgresStorage) (u : uuid.UUID) :
  Delete s u = (None, s') ->
  unavailable (db s) = None /\
  is_Some (signed_blobs (db s) !! uuid.String u) /\
  s' = {| db := with_table (db s) (delete (uuid.String u) (signed_blobs (db s))) |}.
Proof.
  simpl. unfold PostgresStorage_Delete, exec_delete.
  destruct (unavailable (db s)) eqn:Hav; [intros [=]|].
  destruct (signed_blobs (db s) !! uuid.String u) eqn:Hr; simpl.
  - intros [= <-]. eauto.
  - intros [=].
Qed.




Lemma Store_collision (s : PostgresStorage) (record : blobv1.SignedBlobRecord) :
  unavailable (db s) = None ->
  is_Some (signed_blobs (db s) !! blobv1.Uuid (blobv1.Payload record)) ->
  Store s record = (Some (pq_Error unique_violation), s).
Proof.
  intros Hav [r Hr]. simpl. unfold PostgresStorage_Store, exec_insert.
  rewrite Hav, Hr. destruct s; reflexivity.
Qed.

(** C8, evaluated on the code: storing a record whose identifier is
    already taken fails with the error of the driver (SQLSTATE 23505), which
    is not [ErrBlobExists]; [StoreBlob] reports it under the message of
    every other storage failure. *)
Theorem Store_collision_is_not_ErrBlobExists :
  Store sample.one_record_database sample.the_record
    = (Some (pq_Error unique_violation), sample.one_record_database) /\
  errors_Is (pq_Error unique_violation) ErrBlobExists = false /\
  fst (v1.StoreBlob (codec := sample.codec) sample.the_service sample.an_env
         sample.hello sample.stored)
    = Err (fmt_Errorf_w "failed to store signed record: %w" []
             (pq_Error unique_violation)) /\
  errors_Is (fmt_Errorf_w "failed to store signed record: %w" []
               (pq_Error unique_violation)) ErrBlobExists = false.
Proof. vm_compute. repeat split. Qed.

End AdapterProperties.

(** ** The orchestrator *)

(** Splits the hypotheses that an event is in an explicit list of events. *)
Ltac split_in :=
  repeat match goal with
         | H : In _ (_ :: _) |- _ => destruct H as [H|H]
         | H : In _ [] |- _ => destruct H
         | H : _ \/ _ |- _ => destruct H as [H|H]
         | H : False |- _ => destruct H
         end; try discriminate.

Section Service.
Context {St Sg : Type} {storage : store.Storage St}
        {signer_ : signature.Signer Sg} {codec : ProtoCodec}.
Implicit Types (s : v1.Service Sg) (w : v1.World St) (env : v1.Env).

Lemma new_calls_app w (st : St) (l : list v1.Call) :
  v1.new_calls w {| v1.the_store := st; v1.calls := v1.calls w ++ l |} = l.
Proof. unfold v1.new_calls. simpl. apply drop_app_length. Qed.

Lemma new_calls_same w : v1.new_calls w w = [].
Proof. unfold v1.new_calls. apply drop_all. Qed.

Lemma strlen_empty (b : string) : String.eqb b "" = true -> strlen b = 0.
Proof. intros H. apply String.eqb_eq in H. subst. reflexivity. Qed.

(** The run of [StoreBlob] on a request that passes validation. *)
Lemma StoreBlob_valid s env (blob : string) w :
  String.eqb blob "" = false ->
  (strlen blob >? v1.maxBlobSize) = false ->
  v1.StoreBlob s env (Some {| blobv1.StoreBlobRequest_Blob := blob |}) w =
  let hash := signature.ComputeHash (v1.signer s) (list_byte_of_string blob) in
  let c1 := [v1.call_ComputeHash (list_byte_of_string blob)] in
  if len hash =? 0 then
    (Err (errors_New "failed to compute hash for blob content"),
     {| v1.the_store := v1.the_store w; v1.calls := v1.calls w ++ c1 |})
  else
    let payload :=
      {| blobv1.Uuid := uuid.String (v1.env_uuid env);
         blobv1.Blob := blob;
         blobv1.Hash := hex.EncodeToString hash;
         blobv1.Timestamp := v1.env_timestamp env |} in
    let c4 := c1 ++ [v1.call_uuid_New; v1.call_time_Now; v1.call_proto_Marshal payload] in
    match proto_Marshal payload with
    | Err err =>
        (Err (fmt_Errorf_w "failed to marshal payload: %w" [] err),
         {| v1.the_store := v1.the_store w; v1.calls := v1.calls w ++ c4 |})
    | Ok p =>
        match signature.Sign (v1.signer s) (v1.env_rand env) p with
        | Err err =>
            (Err (fmt_Errorf_w "failed to sign payload: %w" [] err),
             {| v1.the_store := v1.the_store w;
                v1.calls := v1.calls w ++ c4 ++ [v1.call_Sign p] |})
        | Ok sig =>
            let record := {| blobv1.Payload := payload; blobv1.Signature := sig |} in
            let w' st := {| v1.the_store := st;
                            v1.calls := v1.calls w ++ c4 ++ [v1.call_Sign p; v1.call_Store record] |} in
            match store.Store (v1.the_store w) record with
            | (Some err, st) =>
                (Err (fmt_Errorf_w "failed to store signed record: %w" [] err), w' st)
            | (None, st) =>
                (Ok {| blobv1.StoreBlobResponse_Uuid := uuid.String (v1.env_uuid env) |},
                 w' st)
            end
        end
    end.
Proof.
  intros Hne Hle. unfold v1.StoreBlob.
  cbn [blobv1.StoreBlobRequest_Blob]. rewrite Hne, Hle.
  unfold bind, ret, fail, v1.do_ComputeHash, v1.do_uuid_New, v1.do_time_Now,
    v1.do_proto_Marshal, v1.do_Sign, v1.do_Store, v1.called, bind, ret.
  cbn [v1.the_store v1.calls].
  destruct (len _ =? 0); [reflexivity|].
  cbn zeta. destruct (proto_Marshal _) as [p|e]; cbn [v1.the_store v1.calls].
  2:{ rewrite <- !app_assoc. reflexivity. }
  destruct (signature.Sign _ _ _) as [sig|e]; cbn [v1.the_store v1.calls].
  2:{ rewrite <- !app_assoc. reflexivity. }
  destruct (store.Store _ _) as [[e|] st]; cbn [v1.the_store v1.calls];
    rewrite <- !app_assoc; reflexivity.
Qed.

(** The requests that do not pass validation: nothing is called, nothing
    changes. *)
Lemma StoreBlob_invalid s env req w :
  match req with
  | None => True
  | Some r =>
      String.eqb (blobv1.StoreBlobRequest_Blob r) "" = true \/
      (strlen (blobv1.StoreBlobRequest_Blob r) >? v1.maxBlobSize) = true
  end ->
  snd (v1.StoreBlob s env req w) = w /\
  exists e, fst (v1.StoreBlob s env req w) = Err e.
Proof.
  destruct req as [r|]; simpl.
  - destruct (String.eqb _ "") eqn:E1; [eauto|].
    destruct (strlen _ >? v1.maxBlobSize) eqn:E2; [eauto|].
    intros [H|H]; discriminate.
  - eauto.
Qed.

(** C4.  In a run of [StoreBlob]: if the call to [Sign] fails, the store
    is unchanged, [Store] is not called, and the caller gets the signing
    error; if the call to [Store] fails, the caller gets an error (so no
    identifier). *)
Theorem StoreBlob_failure_of_sign_or_store s env req w res w' :
  v1.StoreBlob s env req w = (res, w') ->
  (forall payload e,
      In (v1.call_Sign payload) (v1.new_calls w w') ->
      signature.Sign (v1.signer s) (v1.env_rand env) payload = Err e ->
      v1.the_store w' = v1.the_store w /\
      (forall record, ~ In (v1.call_Store record) (v1.new_calls w w')) /\
      res = Err (fmt_Errorf_w "failed to sign payload: %w" [] e)) /\
  (forall record e st,
      In (v1.call_Store record) (v1.new_calls w w') ->
      store.Store (v1.the_store w) record = (Some e, st) ->
      res = Err (fmt_Errorf_w "failed to store signed record: %w" [] e)).
Proof.
  intros Hrun.
  assert (Hinvalid : snd (v1.StoreBlob s env req w) = w ->
            v1.new_calls w w' = []).
  { rewrite Hrun. simpl. intros ->. apply new_calls_same. }
  destruct req as [[blob]|].
  2:{ rewrite Hinvalid by reflexivity. split; intros; split_in. }
  destruct (String.eqb blob "") eqn:Hne.
  { rewrite Hinvalid by (simpl; rewrite Hne; reflexivity).
    split; intros; split_in. }
  destruct (strlen blob >? v1.maxBlobSize) eqn:Hle.
  { rewrite Hinvalid by (simpl; rewrite Hne, Hle; reflexivity).
    split; intros; split_in. }
  clear Hinvalid. rewrite (StoreBlob_valid s env blob w Hne Hle) in Hrun.
  cbv zeta in Hrun.
  destruct (len _ =? 0).
  { injection Hrun as <- <-. rewrite new_calls_app. split; intros; split_in. }
  destruct (proto_Marshal _) as [p|em].
  2:{ injection Hrun as <- <-. rewrite new_calls_app. split; intros; split_in. }
  destruct (signature.Sign _ _ p) as [sig|es] eqn:Hsign.
  2:{ injection Hrun as <- <-. rewrite new_calls_app. cbn [app].
      split; intros; split_in.
      match goal with H : v1.call_Sign _ = v1.call_Sign _ |- _ =>
        injection H as <- end.
      rewrite Hsign in *.
      match goal with H : Err _ = Err _ |- _ => injection H as <- end.
      repeat split. intros record Hin. split_in. }
  destruct (store.Store _ _) as [[e1|] st1] eqn:Hstore;
    injection Hrun as <- <-; rewrite new_calls_app; cbn [app];
    split; intros; split_in;
    match goal with
    | H : v1.call_Sign _ = v1.call_Sign _ |- _ =>
        injection H as <-; congruence
    | H : v1.call_Store _ = v1.call_Store _ |- _ =>
        injection H as <-; congruence
    end.
Qed.

Lemma too_large_is_not_empty (blob : string) :
  strlen blob > v1.maxBlobSize -> String.eqb blob "" = false.
Proof.
  intros H. destruct (String.eqb blob "") eqn:E; [|reflexivity].
  apply strlen_empty in E. unfold v1.maxBlobSize in H. lia.
Qed.

(** C6.  A blob of exactly 262,144 bytes passes validation: its hash is
    computed, and the request succeeds when marshalling, signing and storing
    do.  A blob of more than 262,144 bytes is refused with the size error,
    with no call made and the store unchanged. *)
Theorem StoreBlob_size_boundary s env (blob : string) w :
  let req := Some {| blobv1.StoreBlobRequest_Blob := blob |} in
  let hash := signature.ComputeHash (v1.signer s) (list_byte_of_string blob) in
  let payload :=
    {| blobv1.Uuid := uuid.String (v1.env_uuid env);
       blobv1.Blob := blob;
       blobv1.Hash := hex.EncodeToString hash;
       blobv1.Timestamp := v1.env_timestamp env |} in
  (strlen blob = 262144 ->
     (exists rest,
        v1.new_calls w (snd (v1.StoreBlob s env req w))
        = v1.call_ComputeHash (list_byte_of_string blob) :: rest) /\
     (forall p sig st,
        hash <> [] ->
        proto_Marshal payload = Ok p ->
        signature.Sign (v1.signer s) (v1.env_rand env) p = Ok sig ->
        store.Store (v1.the_store w)
          {| blobv1.Payload := payload; blobv1.Signature := sig |} = (None, st) ->
        fst (v1.StoreBlob s env req w)
          = Ok {| blobv1.StoreBlobResponse_Uuid := uuid.String (v1.env_uuid env) |} /\
        v1.the_store (snd (v1.StoreBlob s env req w)) = st)) /\
  (strlen blob > 262144 ->
     v1.StoreBlob s env req w
     = (Err (fmt_Errorf "blob content exceeds maximum size of %d bytes"
               [arg_d 262144]), w)).
Proof.
  cbv zeta. split.
  - intros Hlen.
    assert (Hne : String.eqb blob "" = false).
    { destruct (String.eqb blob "") eqn:E; [|reflexivity].
      apply strlen_empty in E. lia. }
    assert (Hle : (strlen blob >? v1.maxBlobSize) = false).
    { rewrite Hlen. reflexivity. }
    rewrite (StoreBlob_valid s env blob w Hne Hle). cbv zeta. split.
    + destruct (len _ =? 0); [cbn [snd]; rewrite new_calls_app; eauto|].
      destruct (proto_Marshal _); [|cbn [snd]; rewrite new_calls_app; eauto].
      destruct (signature.Sign _ _ _); [|cbn [snd]; rewrite new_calls_app; eauto].
      destruct (store.Store _ _) as [[?|] ?]; cbn [snd];
        rewrite new_calls_app; eauto.
    + intros p sig st Hhash Hm Hs Hst.
      rewrite (len_nonempty _ Hhash), Hm, Hs, Hst. split; reflexivity.
  - intros Hlen. unfold v1.StoreBlob. cbn [blobv1.StoreBlobRequest_Blob].
    rewrite (too_large_is_not_empty blob Hlen).
    replace (strlen blob >? v1.maxBlobSize) with true; [reflexivity|].
    symmetry. apply Z.gtb_lt. unfold v1.maxBlobSize. lia.
Qed.

Lemma Parse_nonempty (id : string) (u : uuid.UUID) :
  uuid.Parse id = Ok u -> String.eqb id "" = false.
Proof.
  intros H. destruct (String.eqb id "") eqn:E; [|reflexivity].
  apply String.eqb_eq in E. subst. discriminate H.
Qed.

(** The run of [GetSignedBlob] on a well-formed identifier. *)
Lemma GetSignedBlob_parsed s (id : string) (u : uuid.UUID) w :
  uuid.Parse id = Ok u ->
  v1.GetSignedBlob s (Some {| blobv1.GetSignedBlobRequest_Uuid := id |}) w =
  let w' := {| v1.the_store := v1.the_store w;
               v1.calls := v1.calls w ++ [v1.call_uuid_Parse id; v1.call_GetByUUID u] |} in
  match store.GetByUUID (v1.the_store w) u with
  | Err err =>
      if errors_Is err ErrBlobNotFound
      then (Err (fmt_Errorf_w "blob not found: %w" [] err), w')
      else (Err (fmt_Errorf_w "failed to retrieve blob: %w" [] err), w')
  | Ok blobRow =>
      if len (blobv1.Signature blobRow) =? 0
      then (Err (errors_New "signature is empty"), w')
      else (Ok {| blobv1.GetSignedBlobResponse_Payload :=
                    {| blobv1.Uuid := blobv1.Uuid (blobv1.Payload blobRow);
                       blobv1.Blob := blobv1.Blob (blobv1.Payload blobRow);
                       blobv1.Hash := blobv1.Hash (blobv1.Payload blobRow);
                       blobv1.Timestamp := blobv1.Timestamp (blobv1.Payload blobRow) |};
                  blobv1.GetSignedBlobResponse_Signature := blobv1.Signature blobRow |},
            w')
  end.
Proof.
  intros Hp. unfold v1.GetSignedBlob. cbn [blobv1.GetSignedBlobRequest_Uuid].
  rewrite (Parse_nonempty id u Hp).
  unfold bind, ret, fail, v1.do_uuid_Parse, v1.do_GetByUUID, v1.called, bind, ret.
  cbn [v1.the_store v1.calls]. rewrite Hp. cbn [v1.the_store v1.calls].
  rewrite <- !app_assoc. cbn [app].
  destruct (store.GetByUUID _ _) as [row|err].
  - destruct (len _ =? 0); reflexivity.
  - destruct (errors_Is _ _); reflexivity.
Qed.

(** C10.  A record found for a well-formed identifier whose signature is
    empty makes [GetSignedBlob] fail; every response that [GetSignedBlob]
    returns has a signature that is not empty. *)
Theorem GetSignedBlob_signature_nonempty s w :
  (forall (id : string) u row,
      uuid.Parse id = Ok u ->
      store.GetByUUID (v1.the_store w) u = Ok row ->
      blobv1.Signature row = [] ->
      fst (v1.GetSignedBlob s (Some {| blobv1.GetSignedBlobRequest_Uuid := id |}) w)
      = Err (errors_New "signature is empty")) /\
  (forall req resp,
      fst (v1.GetSignedBlob s req w) = Ok resp ->
      blobv1.GetSignedBlobResponse_Signature resp <> []).
Proof.
  split.
  - intros id u row Hp Hget Hsig.
    rewrite (GetSignedBlob_parsed s id u w Hp). cbv zeta.
    rewrite Hget, Hsig. reflexivity.
  - intros [[id]|] resp; [|discriminate].
    destruct (uuid.Parse id) as [u|e] eqn:Hp.
    + rewrite (GetSignedBlob_parsed s id u w Hp). cbv zeta.
      destruct (store.GetByUUID _ _) as [row|err].
      * destruct (len (blobv1.Signature row) =? 0) eqn:Hlen; [discriminate|].
        cbn [fst]. intros [= <-]. cbn [blobv1.GetSignedBlobResponse_Signature].
        intros Hnil. rewrite Hnil in Hlen. discriminate.
      * destruct (errors_Is _ _); discriminate.
    + unfold v1.GetSignedBlob. cbn [blobv1.GetSignedBlobRequest_Uuid].
      destruct (String.eqb id ""); [discriminate|].
      unfold bind, ret, fail, v1.do_uuid_Parse, v1.called, bind, ret.
      cbn [v1.the_store v1.calls]. rewrite Hp. discriminate.
Qed.

End Service.

(** ** The RSA signer behind the orchestrator *)

Section RSASigner.
Context {P : rsa.Primitives} {codec : ProtoCodec}.
Import signature.

Lemma NewRSASignerServiceFromFile_keys file (sg : RSASignerService) :
  NewRSASignerServiceFromFile file = Ok sg ->
  exists priv, privateKey sg = Some priv /\ publicKey sg = Some (rsa.Public priv).
Proof.
  unfold NewRSASignerServiceFromFile.
  destruct file as [keyBytes|]; [|discriminate].
  destruct (rsa.pem_Decode keyBytes) as [block|]; [|discriminate].
  destruct (negb _); [discriminate|].
  destruct (rsa.x509_ParsePKCS1PrivateKey _) as [priv|]; [|discriminate].
  intros [= <-]. exists priv. split; reflexivity.
Qed.

Lemma Sign_inv (sg : RSASignerService) (rand content sig : list byte) :
  Sign (Some sg) rand content = Ok sig ->
  exists priv,
    privateKey sg = Some priv /\
    (len content =? 0) = false /\
    rsa.SignPSS rand priv cryptoHash (sha256.Sum256 content) rsaPSSOptions = Ok sig.
Proof.
  simpl. unfold RSASignerService_Sign.
  destruct (rSASignerServiceCheckInit (Some sg)); [discriminate|].
  destruct (len content =? 0); [discriminate|].
  cbn [mbind option_bind].
  destruct (privateKey sg) as [priv|]; [|discriminate].
  destruct (rsa.SignPSS _ _ _ _ _) as [sig'|] eqn:E; [|discriminate].
  intros [= <-]. exists priv. repeat split. exact E.
Qed.

(** A signature made by the signer verifies with the signer. *)
Lemma VerifySignature_Sign (Hsound : rsa.Sound P) file (sg : RSASignerService)
    (rand content sig : list byte) :
  NewRSASignerServiceFromFile file = Ok sg ->
  Sign (Some sg) rand content = Ok sig ->
  VerifySignature (Some sg) content sig = None /\ sig <> [].
Proof.
  intros Hnew Hsign.
  destruct (NewRSASignerServiceFromFile_keys file sg Hnew) as (priv & Hpriv & Hpub).
  destruct (Sign_inv sg rand content sig Hsign) as (priv' & Hpriv' & Hlen & Hpss).
  rewrite Hpriv in Hpriv'. injection Hpriv' as <-.
  pose proof (rsa.SignPSS_nonempty _ _ _ _ _ _ Hpss) as Hne.
  split; [|exact Hne].
  simpl. unfold RSASignerService_VerifySignature, rSASignerServiceCheckInit.
  rewrite Hpriv, Hpub, Hlen, (len_nonempty sig Hne).
  cbn [mbind option_bind]. rewrite Hpub.
  rewrite (rsa.VerifyPSS_SignPSS _ _ _ _ _ _ Hpss). reflexivity.
Qed.

Section AnyStore.
Context {St : Type} {storage : store.Storage St}.

(** C9.  [ComputeHash] returns 32 bytes for every input, the empty one
    included, so never an empty slice; hence [StoreBlob] with this signer
    never returns the error of its empty-hash branch. *)
Theorem ComputeHash_is_32_bytes :
  (forall (sg : option RSASignerService) (content : list byte),
      length (ComputeHash sg content) = 32%nat /\
      ComputeHash sg content <> []) /\
  (forall (s : v1.Service (option RSASignerService)) env req (w : v1.World St),
      fst (v1.StoreBlob s env req w)
      <> Err (errors_New "failed to compute hash for blob content")).
Proof.
  assert (Hlen : forall (sg : option RSASignerService) content,
             length (ComputeHash sg content) = 32%nat).
  { intros sg0 content0. exact (Sum256_length content0). }
  split.
  - intros sg content. split; [apply Hlen|].
    intros Hnil. specialize (Hlen sg content). rewrite Hnil in Hlen.
    discriminate.
  - intros s env [[blob]|] w; [|discriminate].
    destruct (String.eqb blob "") eqn:Hne.
    { simpl. rewrite Hne. discriminate. }
    destruct (strlen blob >? v1.maxBlobSize) eqn:Hle.
    { simpl. rewrite Hne, Hle. discriminate. }
    rewrite (StoreBlob_valid s env blob w Hne Hle). cbv zeta.
    unfold len at 1. rewrite Hlen. cbn [Z.of_nat Z.eqb Pos.of_succ_nat].
    change (Z.of_nat 32 =? 0) with false. cbv iota.
    destruct (proto_Marshal _); [|discriminate].
    destruct (Sign _ _ _); [|discriminate].
    destruct (store.Store _ _) as [[?|] ?]; discriminate.
Qed.

End AnyStore.


End RSASigner.

(** ** The sample deployment *)

Section Sample.
Import sample.

Lemma Z_of_byte_range (b : byte) : 0 <= sha256.Z_of_byte b < 256.
Proof.
  unfold sha256.Z_of_byte. pose proof (Byte.to_N_bounded b). lia.
Qed.

Lemma Z_of_byte_of_Z (x : Z) : sha256.Z_of_byte (sha256.byte_of_Z x) = x mod 256.
Proof.
  unfold sha256.Z_of_byte, sha256.byte_of_Z.
  pose proof (Z.mod_pos_bound x 256 eq_refl) as Hb.
  destruct (Byte.of_N (Z.to_N (x mod 256))) as [b|] eqn:E.
  - apply Byte.to_of_N in E. rewrite E. lia.
  - apply Byte.of_N_None_iff in E. lia.
Qed.

Lemma num_two_bytes (x : Z) :
  0 <= x < 65536 ->
  sha256.Z_of_byte (sha256.byte_of_Z (x / 256)) * 256
    + sha256.Z_of_byte (sha256.byte_of_Z x) = x.
Proof.
  intros Hx. rewrite !Z_of_byte_of_Z.
  Z.div_mod_to_equations. lia.
Qed.

Lemma modpow_range (b e n : Z) : 0 < n -> 0 <= modpow b e n < n.
Proof.
  intros Hn. unfold modpow.
  destruct e as [|p|p]; try (apply Z.mod_pos_bound; exact Hn).
  destruct p; simpl; apply Z.mod_pos_bound; exact Hn.
Qed.

Lemma key_ok_spec (k : PrivateKey) :
  key_ok k = true ->
  255 < key_N k < 65536 /\
  forall m, 0 <= m < 256 ->
    modpow (modpow m (key_D k) (key_N k)) (key_E k) (key_N k) = m.
Proof.
  unfold key_ok. intros H.
  apply andb_prop in H as [H Hall]. apply andb_prop in H as [H1 H2].
  split; [lia|].
  intros m Hm. rewrite forallb_forall in Hall.
  apply Z.eqb_eq, Hall, in_map_iff. exists (Z.to_nat m).
  split; [lia|]. apply in_seq. lia.
Qed.

Lemma decipher_encipher (k : PrivateKey) (msg : list byte) :
  key_ok k = true ->
  decipher {| pub_N := key_N k; pub_E := key_E k |} (encipher k msg)
  = Some (map sha256.Z_of_byte msg).
Proof.
  intros Hk. destruct (key_ok_spec k Hk) as [HN Hinv].
  induction msg as [|b msg IH]; [reflexivity|].
  unfold encipher in *. cbn [flat_map two_bytes app decipher].
  rewrite IH. cbn [pub_N pub_E map].
  rewrite num_two_bytes.
  - rewrite (Hinv _ (Z_of_byte_range b)). reflexivity.
  - pose proof (modpow_range (sha256.Z_of_byte b) (key_D k) (key_N k)). lia.
Qed.

Lemma byte_of_Z_of_byte (b : byte) : sha256.byte_of_Z (sha256.Z_of_byte b) = b.
Proof. destruct b; reflexivity. Qed.

(** The sample primitives are sound. *)
Lemma sample_sound : rsa.Sound primitives.
Proof.
  split.
  - intros rand priv h hashed opts sig. simpl. unfold SignPSS, VerifyPSS.
    destruct (key_ok priv) eqn:Hk; [|discriminate]. cbn [negb].
    destruct (length rand <? saltLength)%nat eqn:Hr; [discriminate|].
    intros [= <-]. rewrite (decipher_encipher priv _ Hk).
    apply Nat.ltb_ge in Hr. cbv zeta.
    assert (Hsalt : length (firstn saltLength rand) = saltLength).
    { rewrite length_take. lia. }
    assert (Hback : map sha256.byte_of_Z
                      (firstn saltLength
                         (map sha256.Z_of_byte (encode (firstn saltLength rand) hashed)))
                    = firstn saltLength rand).
    { unfold encode. rewrite map_app, take_app_length'
        by (rewrite length_map; symmetry; exact Hsalt).
      rewrite map_map. erewrite map_ext; [apply map_id|].
      intros b. apply byte_of_Z_of_byte. }
    rewrite Hback, bool_decide_eq_true_2 by reflexivity.
    unfold encode at 1. rewrite length_map, length_app, Hsalt. cbn [andb].
    destruct (saltLength <=? saltLength + _)%nat eqn:E; [reflexivity|].
    apply Nat.leb_gt in E. lia.
  - intros rand priv h hashed opts sig. simpl. unfold SignPSS.
    destruct (key_ok priv); [|discriminate]. cbn [negb].
    destruct (length rand <? saltLength)%nat eqn:Hr; [discriminate|].
    intros [= <-]. apply Nat.ltb_ge in Hr.
    destruct rand as [|r0 rand]; [simpl in Hr; unfold saltLength in Hr; lia|].
    discriminate.
Qed.

Example loaded_from_file :
  signature.NewRSASignerServiceFromFile (Ok private_key_file) = Ok loaded_signer.
Proof. reflexivity. Qed.

Example a_tampered_content_is_rejected :
  signature.VerifySignature the_signer
    (list_byte_of_string "hello-world") [x00; x01] <> None.
Proof. vm_compute. discriminate. Qed.

End Sample.

(** ** The offline verifier *)

Section Verifier.
Context {P : rsa.Primitives} {L : pkg.Libs} {codec : ProtoCodec}.
Import pkg.

Lemma quiet_ret {A} (a : A) : quiet (ret a).
Proof.
  intros w r w' [= <- <-]. split; [reflexivity|].
  exists []. rewrite app_nil_r. split; [reflexivity | constructor].
Qed.

Lemma quiet_fail {A} (e : error) : quiet (@fail World A e).
Proof.
  intros w r w' [= <- <-]. split; [reflexivity|].
  exists []. rewrite app_nil_r. split; [reflexivity | constructor].
Qed.

Lemma quiet_bind {A B} (m : M World A) (k : A -> M World B) :
  quiet m -> (forall a, quiet (k a)) -> quiet (bind m k).
Proof.
  intros Hm Hk w r w'. unfold bind.
  destruct (m w) as [[a|e] w1] eqn:E; destruct (Hm _ _ _ E) as (Hfs & evs & Hev & Hq).
  - intros E2. destruct (Hk a _ _ _ E2) as (Hfs2 & evs2 & Hev2 & Hq2).
    split; [congruence|]. exists (evs ++ evs2).
    rewrite Hev2, Hev, app_assoc. split; [reflexivity|].
    apply Forall_app; split; assumption.
  - intros [= <- <-]. split; [exact Hfs|]. exists evs. split; assumption.
Qed.

Lemma quiet_or_fail {A} (r : result A) (wrap : error -> error) :
  quiet (or_fail r wrap).
Proof. destruct r; [apply quiet_ret | apply quiet_fail]. Qed.

Lemma quiet_os_ReadFile (name : string) : quiet (os_ReadFile name).
Proof.
  intros w r w'. unfold os_ReadFile, bind, did. cbn [fs events].
  intros H. assert (Hw : w' = {| fs := fs w; events := events w ++ [ev_ReadFile name] |}).
  { repeat case_match; congruence. }
  subst w'. split; [reflexivity|].
  exists [ev_ReadFile name]. split; [reflexivity|].
  repeat constructor.
Qed.

Lemma quiet_load_artifacts (f : Flags) (args : list string) :
  quiet (load_artifacts f args).
Proof.
  unfold load_artifacts. destruct args as [|blobUUID rest]; [apply quiet_fail|].
  apply quiet_bind.
  { intros w r w'. unfold os_Stat.
    destruct (fs w !! verifyDir f); intros [= <- <-];
      (split; [reflexivity|]); exists []; rewrite app_nil_r;
      (split; [reflexivity | constructor]). }
  intros [|content]; [|apply quiet_fail].
  repeat first
    [ apply quiet_ret
    | apply quiet_or_fail
    | apply quiet_os_ReadFile
    | apply quiet_bind; [|intros ?] ].
Qed.

Lemma new_events_app (w : World) (fs' : gmap string node) (l : list Event) :
  new_events w {| fs := fs'; events := events w ++ l |} = l.
Proof. unfold new_events. simpl. apply drop_app_length. Qed.

(** C5.  Once the three artifacts are read: if the hash of the local
    content differs from the hash of the metadata, the command fails with
    the mismatch right after hashing the content, and no step on the
    public key or on the signature has been taken.  And the command
    succeeds exactly when the artifacts are read, the hash matches and the
    signature verifies. *)
Theorem verifyCommand_hash_then_signature (f : Flags) (args : list string)
    (w : World) :
  (forall a w1,
      load_artifacts f args w = (Ok a, w1) ->
      ~ hash_matches a ->
      verifyCommand f args w
      = (Err (fmt_Errorf "hash mismatch! Expected: %s, Computed: %s"
                [arg_s (Hash (meta a));
                 arg_s (hex.EncodeToString (sha256.Sum256 (blobBytes a)))]),
         {| fs := fs w1; events := events w1 ++ [ev_Sum256 (blobBytes a)] |}) /\
      Forall (fun e => signature_crypto e = false)
        (new_events w (snd (verifyCommand f args w)))) /\
  (fst (verifyCommand f args w) = Ok tt <->
   exists a w1,
     load_artifacts f args w = (Ok a, w1) /\
     hash_matches a /\
     signature_verifies f w1 a).
Proof.
  split.
  - intros a w1 Hload Hhash.
    assert (Hrun : verifyCommand f args w
      = (Err (fmt_Errorf "hash mismatch! Expected: %s, Computed: %s"
                [arg_s (Hash (meta a));
                 arg_s (hex.EncodeToString (sha256.Sum256 (blobBytes a)))]),
         {| fs := fs w1; events := events w1 ++ [ev_Sum256 (blobBytes a)] |})).
    { unfold verifyCommand, bind at 1. rewrite Hload.
      unfold check_artifacts, bind at 1, did.
      destruct (String.eqb _ (Hash (meta a))) eqn:E; [|reflexivity].
      apply String.eqb_eq in E. contradiction. }
    split; [exact Hrun|]. rewrite Hrun. cbn [snd].
    destruct (quiet_load_artifacts f args _ _ _ Hload) as (_ & evs & -> & Hq).
    rewrite <- app_assoc, new_events_app.
    apply Forall_app. split; [exact Hq | repeat constructor].
  - unfold verifyCommand, bind at 1, signature_verifies.
    destruct (load_artifacts f args w) as [[a|e] w1] eqn:Hload.
    2:{ cbn [fst]. split; [discriminate|]. intros (a & w2 & [=] & _). }
    unfold check_artifacts, hash_matches, bind, did, or_fail, os_ReadFile,
      bind, did, ret, fail.
    cbn [fs events]. split.
    + intros Hok. exists a, w1. split; [reflexivity|].
      destruct (String.eqb _ (Hash (meta a))) eqn:Eh; [|discriminate Hok].
      apply String.eqb_eq in Eh. split; [exact Eh|].
      cbn [negb] in Hok.
      destruct (proto_Marshal (rebuilt_payload a)) as [payloadBytes|] eqn:Em;
        [|discriminate Hok].
      cbn [fs events] in Hok.
      destruct (fs w1 !! publicKeyPath f) as [[|pubBytes]|] eqn:Ef;
        try discriminate Hok.
      cbn [fs events] in Hok.
      destruct (rsa.pem_Decode pubBytes) as [block|] eqn:Ep; [|discriminate Hok].
      destruct (String.eqb (pem.Type_ block) "PUBLIC KEY") eqn:Et;
        [|discriminate Hok].
      apply String.eqb_eq in Et. cbn [negb fs events] in Hok.
      destruct (rsa.x509_ParsePKIXPublicKey (pem.Bytes block)) as [[key|]|] eqn:Ek;
        try discriminate Hok.
      cbn [fs events] in Hok.
      destruct (rsa.VerifyPSS key _ _ _ _) eqn:Ev; [discriminate Hok|].
      exists payloadBytes, pubBytes, block, key. repeat split; assumption.
    + intros (a' & w1' & [= <- <-] & Hh & payloadBytes & pubBytes & block & key
              & Em & Ef & Ep & Et & Ek & Ev).
      apply String.eqb_eq in Hh, Et. rewrite Hh. cbn [negb].
      rewrite Em. cbn [fs events]. rewrite Ef. cbn [fs events].
      rewrite Ep, Et. cbn [negb fs events]. rewrite Ek. cbn [fs events].
      unfold pssOptions. rewrite Ev. reflexivity.
Qed.

End Verifier.

(** ** Signing and verifying serialize alike *)

Section Serialization.
Context {St Sg : Type} {storage : store.Storage St}
        {signer_ : signature.Signer Sg}
        {P : rsa.Primitives} {L : pkg.Libs} {codec : ProtoCodec}.
Import pkg.

(** The record that [StoreBlob] serializes and the bytes that it signs. *)
Lemma StoreBlob_signs_the_serialization (s : v1.Service Sg) env req
    (w w' : v1.World St) res (signed : blobv1.BlobRecord) (payload : list byte) :
  v1.StoreBlob s env req w = (res, w') ->
  In (v1.call_proto_Marshal signed) (v1.new_calls w w') ->
  In (v1.call_Sign payload) (v1.new_calls w w') ->
  proto_Marshal signed = Ok payload.
Proof.
  intros Hrun.
  assert (Hinvalid : snd (v1.StoreBlob s env req w) = w ->
            v1.new_calls w w' = []).
  { rewrite Hrun. simpl. intros ->. apply new_calls_same. }
  destruct req as [[blob]|].
  2:{ rewrite Hinvalid by reflexivity. intros []. }
  destruct (String.eqb blob "") eqn:Hne.
  { rewrite Hinvalid by (simpl; rewrite Hne; reflexivity). intros []. }
  destruct (strlen blob >? v1.maxBlobSize) eqn:Hle.
  { rewrite Hinvalid by (simpl; rewrite Hne, Hle; reflexivity). intros []. }
  clear Hinvalid. rewrite (StoreBlob_valid s env blob w Hne Hle) in Hrun.
  cbv zeta in Hrun.
  destruct (len _ =? 0).
  { injection Hrun as <- <-. rewrite new_calls_app. intros H1 H2. split_in. }
  destruct (proto_Marshal _) as [p|em] eqn:Hm.
  2:{ injection Hrun as <- <-. rewrite new_calls_app. intros H1 H2. split_in. }
  destruct (signature.Sign _ _ p) as [sig|es].
  2:{ injection Hrun as <- <-. rewrite new_calls_app. cbn [app].
      intros H1 H2. split_in. congruence. }
  destruct (store.Store _ _) as [[e1|] st1];
    injection Hrun as <- <-; rewrite new_calls_app; cbn [app];
    intros H1 H2; split_in; congruence.
Qed.

(** What the verifier hands to [VerifyPSS] is the SHA-256 of its
    serialization of the rebuilt record. *)
Lemma check_artifacts_verifies_the_serialization (f : Flags) (a : Artifacts)
    (v v' : World) out (hashed sg : list byte) :
  check_artifacts f a v = (out, v') ->
  In (ev_VerifyPSS hashed sg) (new_events v v') ->
  exists payloadBytes,
    proto_Marshal (rebuilt_payload a) = Ok payloadBytes /\
    hashed = sha256.Sum256 payloadBytes /\ sg = sig a.
Proof.
  unfold check_artifacts, bind, did, or_fail, os_ReadFile, bind, did, ret, fail.
  cbn [fs events]. intros Hrun.
  destruct (negb _).
  { apply pair_equal_spec in Hrun as [<- <-]. rewrite new_events_app. intros H. split_in. }
  destruct (proto_Marshal (rebuilt_payload a)) as [payloadBytes|] eqn:Em;
    cbn [fs events] in Hrun.
  2:{ apply pair_equal_spec in Hrun as [<- <-]. rewrite <- !app_assoc, new_events_app.
      intros H. cbn [app] in H. split_in. }
  destruct (fs v !! publicKeyPath f) as [[|pubBytes]|]; cbn [fs events] in Hrun;
    try (apply pair_equal_spec in Hrun as [<- <-]; rewrite <- !app_assoc, new_events_app;
         intros H; cbn [app] in H; split_in).
  destruct (rsa.pem_Decode pubBytes) as [block|];
    try (apply pair_equal_spec in Hrun as [<- <-]; rewrite <- !app_assoc, new_events_app;
         intros H; cbn [app] in H; split_in).
  destruct (negb _); cbn [fs events] in Hrun;
    try (apply pair_equal_spec in Hrun as [<- <-]; rewrite <- !app_assoc, new_events_app;
         intros H; cbn [app] in H; split_in).
  destruct (rsa.x509_ParsePKIXPublicKey _) as [[key|]|]; cbn [fs events] in Hrun;
    try (apply pair_equal_spec in Hrun as [<- <-]; rewrite <- !app_assoc, new_events_app;
         intros H; cbn [app] in H; split_in).
  destruct (rsa.VerifyPSS _ _ _ _ _);
    apply pair_equal_spec in Hrun as [<- <-]; rewrite <- !app_assoc, new_events_app;
    intros H; cbn [app] in H; split_in;
    injection H as <- <-; exists payloadBytes;
    repeat split.
Qed.


End Serialization.

(** ** The scenarios of the specification, run on the sample deployment *)

Section Scenarios.
Import sample.

Example store_hello_world :
  fst (v1.StoreBlob the_service an_env hello start)
  = Ok {| blobv1.StoreBlobResponse_Uuid := the_id |}.
Proof. vm_compute. reflexivity. Qed.

Example retrieve_hello_world :
  fst (v1.GetSignedBlob the_service get_the_id stored)
  = Ok {| blobv1.GetSignedBlobResponse_Payload :=
            {| blobv1.Uuid := the_id;
               blobv1.Blob := "hello-world";
               blobv1.Hash :=
                 "afa27b44d43b02a9fea41d13cedc2e4016cfcf87c5dbf990e593669aa8ce286d";
               blobv1.Timestamp := "2025-07-01T12:00:00Z" |};
          blobv1.GetSignedBlobResponse_Signature := blobv1.Signature the_record |}.
Proof. vm_compute. reflexivity. Qed.

Example the_signature_verifies :
  match proto_Marshal (blobv1.Payload the_record) with
  | Ok serialised =>
      signature.VerifySignature the_signer serialised (blobv1.Signature the_record)
  | Err e => Some e
  end = None.
Proof. vm_compute. reflexivity. Qed.

(** Flipping the bits of the first byte of the signature. *)
Example a_flipped_signature_fails :
  match proto_Marshal (blobv1.Payload the_record), blobv1.Signature the_record with
  | Ok serialised, b :: rest =>
      signature.VerifySignature the_signer serialised
        (sha256.byte_of_Z (Z.lxor (sha256.Z_of_byte b) 255) :: rest)
  | _, _ => None
  end
  = Some (fmt_Errorf_w "signature verification failed using RSASSA-PSS: %w" []
            ErrVerification).
Proof. vm_compute. reflexivity. Qed.

Example a_tampered_record_fails :
  match proto_Marshal {| blobv1.Uuid := the_id;
                         blobv1.Blob := "TAMPERED CONTENT";
                         blobv1.Hash := blobv1.Hash (blobv1.Payload the_record);
                         blobv1.Timestamp := "2025-07-01T12:00:00Z" |} with
  | Ok serialised =>
      signature.VerifySignature the_signer serialised (blobv1.Signature the_record)
  | Err e => None
  end
  = Some (fmt_Errorf_w "signature verification failed using RSASSA-PSS: %w" []
            ErrVerification).
Proof. vm_compute. reflexivity. Qed.

(** Two signatures over the same bytes differ with the randomness drawn, and
    both verify. *)
Example signing_is_probabilistic :
  let payload := list_byte_of_string "the same bytes" in
  match signature.Sign the_signer [x01; x02; x03; x04] payload,
        signature.Sign the_signer [x09; x08; x07; x06] payload with
  | Ok s1, Ok s2 =>
      bool_decide (map sha256.Z_of_byte s1 = map sha256.Z_of_byte s2) = false /\
      signature.VerifySignature the_signer payload s1 = None /\
      signature.VerifySignature the_signer payload s2 = None
  | _, _ => False
  end.
Proof. vm_compute. repeat split. Qed.

Example empty_content_is_rejected :
  v1.StoreBlob the_service an_env
    (Some {| blobv1.StoreBlobRequest_Blob := "" |}) start
  = (Err (errors_New "blob content cannot be empty"), start).
Proof. reflexivity. Qed.

(** A malformed identifier is refused before the store is asked. *)
Example malformed_identifier_is_rejected :
  v1.GetSignedBlob the_service
    (Some {| blobv1.GetSignedBlobRequest_Uuid := "invalid-uuid" |}) stored
  = (Err (fmt_Errorf_w "invalid UUID format: %w" []
            (fmt_Errorf "invalid UUID length: %d" [arg_d 12])),
     {| v1.the_store := v1.the_store stored;
        v1.calls := v1.calls stored ++ [v1.call_uuid_Parse "invalid-uuid"] |}).
Proof. vm_compute. reflexivity. Qed.

Example unknown_identifier_is_not_found :
  let res := fst (v1.GetSignedBlob the_service get_the_id start) in
  res = Err (fmt_Errorf_w "blob not found: %w" [] ErrBlobNotFound) /\
  errors_Is (fmt_Errorf_w "blob not found: %w" [] ErrBlobNotFound) ErrBlobNotFound
  = true.
Proof. vm_compute. split; reflexivity. Qed.

Example unreachable_store_is_not_not_found :
  fst (v1.GetSignedBlob the_service get_the_id unreachable)
  = Err (fmt_Errorf_w "failed to retrieve blob: %w" []
           (lib_error "pq" "connection refused")).
Proof. vm_compute. reflexivity. Qed.

(** With a signer whose hash is empty, [StoreBlob] takes its empty-hash
    branch. *)
Example empty_hash_branch_of_another_signer :
  fst (v1.StoreBlob (signer_ := hashless_signer) {| v1.signer := tt |} an_env hello start)
  = Err (errors_New "failed to compute hash for blob content").
Proof. reflexivity. Qed.

Example offline_verification_succeeds :
  fst (pkg.verifyCommand flags [the_id] downloaded) = Ok tt.
Proof. vm_compute. reflexivity. Qed.

End Scenarios.

Section Witnesses.
Import sample.


Lemma StoreBlob_failure_of_sign_or_store_witness :
  (v1.the_store (snd (v1.StoreBlob unkeyed_service an_env hello start))
     = v1.the_store start /\
   fst (v1.StoreBlob unkeyed_service an_env hello start)
     = Err (fmt_Errorf_w "failed to sign payload: %w" []
              (fmt_Errorf_w "failed to sign content: %w" []
                 (errors_New "RSASignerService has not been initialised properly")))) /\
  fst (v1.StoreBlob the_service an_env hello stored)
    = Err (fmt_Errorf_w "failed to store signed record: %w" []
             (pq_Error unique_violation)).
Proof.
  pose proof (StoreBlob_failure_of_sign_or_store unkeyed_service an_env hello
                start _ _ (surjective_pairing _)) as [Hsign _].
  pose proof (StoreBlob_failure_of_sign_or_store the_service an_env hello
                stored _ _ (surjective_pairing _)) as [_ Hstore].
  split.
  - edestruct Hsign as (Hsame & _ & Herr);
      [ vm_compute; do 4 right; left; reflexivity
      | vm_compute; reflexivity
      | split; [exact Hsame | exact Herr] ].
  - eapply Hstore;
      [ vm_compute; do 5 right; left; reflexivity
      | vm_compute; reflexivity ].
Defined.

Lemma GetSignedBlob_signature_nonempty_witness :
  fst (v1.GetSignedBlob the_service get_the_id unsigned)
    = Err (errors_New "signature is empty") /\
  blobv1.Signature the_record <> [].
Proof.
  pose proof (GetSignedBlob_signature_nonempty the_service unsigned) as [Hempty _].
  pose proof (GetSignedBlob_signature_nonempty the_service stored) as [_ Hfull].
  split.
  - eapply Hempty; [vm_compute; reflexivity | vm_compute; reflexivity | reflexivity].
  - refine (Hfull get_the_id
              {| blobv1.GetSignedBlobResponse_Payload := blobv1.Payload the_record;
                 blobv1.GetSignedBlobResponse_Signature := blobv1.Signature the_record |}
              _).
    vm_compute. reflexivity.
Defined.



Lemma verifyCommand_hash_then_signature_witness :
  fst (pkg.verifyCommand flags [the_id] tampered)
    = Err (fmt_Errorf "hash mismatch! Expected: %s, Computed: %s"
             [arg_s "afa27b44d43b02a9fea41d13cedc2e4016cfcf87c5dbf990e593669aa8ce286d";
              arg_s "6963381c748a4fa5c882a5ccfc7ad90b604057fac8db6e07ab53665573aebdbe"]) /\
  fst (pkg.verifyCommand flags [the_id] downloaded) = Ok tt.
Proof.
  pose proof (verifyCommand_hash_then_signature flags [the_id] tampered)
    as [Hmismatch _].
  pose proof (verifyCommand_hash_then_signature flags [the_id] downloaded)
    as [_ Hsuccess].
  split.
  - edestruct Hmismatch as [Hrun _].
    + vm_compute. reflexivity.
    + unfold pkg.hash_matches. vm_compute. discriminate.
    + rewrite Hrun. vm_compute. reflexivity.
  - apply Hsuccess. eexists _, _. split; [vm_compute; reflexivity|].
    split; [vm_compute; reflexivity|].
    eexists _, _, _, _. repeat split; vm_compute; reflexivity.
Defined.

(** The largest content is [A] 262,144 times: its length, its validity as
    UTF-8 and its serialization are obtained without running over it. *)
Lemma strlen_repeat (b : byte) (n : nat) :
  strlen (string_of_list_byte (repeat b n)) = Z.of_nat n.
Proof.
  unfold strlen. f_equal. induction n as [|n IH]; [reflexivity|].
  cbn [repeat]. unfold string_of_list_byte in *. cbn [map string_of_list_ascii].
  cbn [String.length]. rewrite IH. reflexivity.
Qed.

Lemma strlen_cons (c : ascii) (s : string) :
  strlen (String.String c s) = strlen s + 1.
Proof. unfold strlen. cbn [String.length]. lia. Qed.

Lemma valid_repeat_A (n : nat) : valid (string_of_list_byte (repeat x41 n)) = true.
Proof.
  unfold valid. rewrite list_byte_of_string_of_list_byte.
  induction n as [|n IH]; [reflexivity|]. exact IH.
Qed.

Lemma digit_is_ascii (k : N) : (N_of_ascii (hex.digit k) <? 128)%N = true.
Proof.
  unfold hex.digit, hex.hextable. generalize (N.to_nat k) as n. intros n.
  do 16 (destruct n as [|n]; [reflexivity|]). reflexivity.
Qed.

Lemma N_of_byte_of_ascii (c : ascii) : N_of_byte (byte_of_ascii c) = N_of_ascii c.
Proof.
  unfold N_of_byte. rewrite <- (ascii_of_byte_of_ascii c) at 2.
  rewrite ascii_of_byte_via_N, N_ascii_embedding; [reflexivity|].
  pose proof (Byte.to_N_bounded (byte_of_ascii c)). lia.
Qed.

Lemma valid_hex (l : list byte) : valid (hex.EncodeToString l) = true.
Proof.
  unfold valid, hex.EncodeToString.
  induction l as [|b l IH]; [reflexivity|].
  cbn [hex.Encode]. unfold list_byte_of_string in *.
  cbn [list_ascii_of_string map utf8_valid].
  rewrite !N_of_byte_of_ascii, !digit_is_ascii. exact IH.
Qed.

Lemma largest_serialised_eq : proto_Marshal largest_payload = Ok largest_serialised.
Proof.
  change (Marshal largest_payload = Ok largest_serialised). unfold Marshal.
  replace (valid (blobv1.Uuid largest_payload)) with true
    by (change (blobv1.Uuid largest_payload) with (uuid.String an_uuid);
        vm_compute; reflexivity).
  replace (valid (blobv1.Blob largest_payload)) with true
    by (symmetry; apply valid_repeat_A).
  replace (valid (blobv1.Hash largest_payload)) with true
    by (symmetry; apply valid_hex).
  replace (valid (blobv1.Timestamp largest_payload)) with true
    by (change (blobv1.Timestamp largest_payload) with "2025-07-01T12:00:00Z"%string;
        vm_compute; reflexivity).
  reflexivity.
Qed.

Lemma largest_signature_eq :
  signature.Sign the_signer (v1.env_rand an_env) largest_serialised
  = Ok largest_signature.
Proof.
  change (signature.RSASignerService_Sign the_signer (v1.env_rand an_env)
            largest_serialised = Ok largest_signature).
  unfold signature.RSASignerService_Sign.
  replace (signature.rSASignerServiceCheckInit the_signer) with (@None error)
    by reflexivity.
  replace (len largest_serialised =? 0) with false.
  2:{ symmetry. apply len_nonempty. unfold largest_serialised.
      change (blobv1.Uuid largest_payload) with (uuid.String an_uuid).
      replace (field 1 (uuid.String an_uuid))
        with (x0a :: varint 10 36 ++ list_byte_of_string (uuid.String an_uuid))
        by (vm_compute; reflexivity).
      discriminate. }
  cbn [the_signer mbind option_bind loaded_signer signature.privateKey].
  change (SignPSS (v1.env_rand an_env) {| key_N := 3233; key_E := 17; key_D := 2753 |}
            signature.cryptoHash (sha256.Sum256 largest_serialised)
            signature.rsaPSSOptions)
    with (if negb (key_ok {| key_N := 3233; key_E := 17; key_D := 2753 |})
          then Err (lib_error "rsa" "invalid key")
          else if (length (v1.env_rand an_env) <? saltLength)%nat
               then Err (lib_error "rand" "short read")
               else Ok largest_signature).
  replace (key_ok {| key_N := 3233; key_E := 17; key_D := 2753 |}) with true
    by (vm_compute; reflexivity).
  reflexivity.
Qed.

Lemma StoreBlob_size_boundary_witness :
  fst (v1.StoreBlob the_service an_env
         (Some {| blobv1.StoreBlobRequest_Blob := largest_blob |}) start)
    = Ok {| blobv1.StoreBlobResponse_Uuid := uuid.String (v1.env_uuid an_env) |} /\
  v1.StoreBlob the_service an_env
    (Some {| blobv1.StoreBlobRequest_Blob := too_large_blob |}) start
    = (Err (fmt_Errorf "blob content exceeds maximum size of %d bytes"
              [arg_d 262144]), start).
Proof.
  pose proof (StoreBlob_size_boundary the_service an_env largest_blob start)
    as [Haccept _].
  pose proof (StoreBlob_size_boundary the_service an_env too_large_blob start)
    as [_ Hreject].
  cbv zeta in Haccept, Hreject. split.
  - destruct Haccept as [_ Hok].
    { unfold largest_blob. rewrite strlen_repeat. apply Z2Nat.id. lia. }
    refine (proj1 (Hok largest_serialised largest_signature _ _ _ _ eq_refl)).
    + intros Hnil. apply (f_equal (@length byte)) in Hnil.
      change (length (sha256.Sum256 (list_byte_of_string largest_blob)) = 0%nat)
        in Hnil.
      rewrite Sum256_length in Hnil. discriminate.
    + exact largest_serialised_eq.
    + exact largest_signature_eq.
  - apply Hreject. unfold too_large_blob. rewrite strlen_cons.
    unfold largest_blob. rewrite strlen_repeat, Z2Nat.id; lia.
Defined.

End Witnesses.

(** * Further properties of the code *)

Lemma bind_eq {W A B} (m : M W A) (k : A -> M W B) (w : W) :
  bind m k w = match m w with
               | (Ok a, w') => k a w'
               | (Err e, w') => (Err e, w')
               end.
Proof. reflexivity. Qed.

Lemma errors_Is_refl (e : error) : errors_Is e e = true.
Proof.
  destruct e; simpl;
    first [reflexivity | destruct (decide _); [reflexivity|contradiction]].
Qed.

Lemma errors_Is_wrapped (format : string) (args : list fmt_arg) (e target : error) :
  errors_Is e target = true ->
  errors_Is (fmt_Errorf_w format args e) target = true.
Proof. intros H. simpl. destruct (decide _); [reflexivity|exact H]. Qed.

(** ** The PostgreSQL adapter, record by record *)

Section AdapterRecords.
Import store.

Lemma String_inj (u u' : uuid.UUID) : uuid.String u = uuid.String u' -> u = u'.
Proof.
  intros H. pose proof (uuid_Parse_String u) as Hu.
  rewrite H, uuid_Parse_String in Hu. congruence.
Qed.

Lemma GetByUUID_same_row (s s' : PostgresStorage) (u : uuid.UUID) :
  unavailable (db s') = unavailable (db s) ->
  signed_blobs (db s') !! uuid.String u = signed_blobs (db s) !! uuid.String u ->
  GetByUUID s' u = GetByUUID s u.
Proof.
  intros Hav Hrow. simpl. unfold PostgresStorage_GetByUUID, query_row_select.
  rewrite Hav, Hrow. reflexivity.
Qed.

Lemma Store_inv (s s' : PostgresStorage) (record : blobv1.SignedBlobRecord) err :
  Store s record = (err, s') ->
  let key := blobv1.Uuid (blobv1.Payload record) in
  match err with
  | Some e =>
      s' = s /\
      (unavailable (db s) = Some e \/
       unavailable (db s) = None /\ is_Some (signed_blobs (db s) !! key) /\
       e = pq_Error unique_violation)
  | None =>
      unavailable (db s) = None /\ signed_blobs (db s) !! key = None /\
      unavailable (db s') = None /\
      signed_blobs (db s') =
        <[key := {| row_blob := blobv1.Blob (blobv1.Payload record);
                    row_hash := blobv1.Hash (blobv1.Payload record);
                    row_timestamp := blobv1.Timestamp (blobv1.Payload record);
                    row_signature := blobv1.Signature record |}]>
          (signed_blobs (db s))
  end.
Proof.
  simpl. unfold PostgresStorage_Store, exec_insert.
  destruct (unavailable (db s)) as [e0|] eqn:Hav.
  { intros [= <- <-]. destruct s; auto. }
  destruct (signed_blobs (db s) !! _) as [r|] eqn:Hrow.
  { intros [= <- <-]. destruct s. split; [reflexivity|]. right. eauto. }
  intros [= <- <-]. simpl. auto.
Qed.





End AdapterRecords.

(** ** Waiting for the database *)

Section Waiting.
Import store.

Lemma pingLoop_skips (skipped rest : list Wake) :
  Forall fruitless skipped -> pingLoop (skipped ++ rest) = pingLoop rest.
Proof.
  induction 1 as [|k l Hk _ IH]; [reflexivity|].
  destruct k as [c|[d|e]]; simpl in *; [contradiction| |exact IH].
  unfold exec_select_time. destruct (unavailable d); [exact IH|contradiction].
Qed.

Lemma pingLoop_inv (wakes : list Wake) (r : result Database) :
  pingLoop wakes = Returned r ->
  exists skipped k rest,
    wakes = skipped ++ k :: rest /\ Forall fruitless skipped /\
    match r with
    | Ok d => k = wake_Tick (Ok d) /\ unavailable d = None
    | Err e =>
        exists c, k = wake_Done c /\
                  e = fmt_Errorf_w "unable to ping database: %w" [] c
    end.
Proof.
  induction wakes as [|k l IH]; [discriminate|].
  destruct k as [c|[d|e]]; simpl.
  - intros [= <-]. exists [], (wake_Done c), l. eauto.
  - unfold exec_select_time. destruct (unavailable d) as [e0|] eqn:Hav.
    + intros H. destruct (IH H) as (sk & k & rest & -> & Hsk & Hr).
      exists (wake_Tick (Ok d) :: sk), k, rest. repeat split; [|exact Hr].
      constructor; [simpl; congruence|exact Hsk].
    + intros [= <-]. exists [], (wake_Tick (Ok d)), l. eauto.
  - intros H. destruct (IH H) as (sk & k & rest & -> & Hsk & Hr).
    exists (wake_Tick (Err e) :: sk), k, rest. repeat split; [|exact Hr].
    constructor; [exact I|exact Hsk].
Qed.


(** X6.  When the context is done before an attempt has succeeded,
    [NewPostgresStorage] gives up with an error whose chain holds the error
    of the context, however many attempts have failed and whatever would
    have come later. *)
Theorem NewPostgresStorage_gives_up (dsn : string) (log : unit)
    (retryInterval : Z) (skipped rest : list Wake) (ctx_err : error) :
  dsn <> ""%string ->
  0 < retryInterval ->
  Forall fruitless skipped ->
  exists e,
    NewPostgresStorage dsn (Some log) retryInterval
      (skipped ++ wake_Done ctx_err :: rest) = Returned (Err e) /\
    errors_Is e ctx_err = true.
Proof.
  intros Hdsn Hint Hsk. unfold NewPostgresStorage, pingWithRetry.
  destruct (String.eqb dsn "") eqn:E.
  { apply String.eqb_eq in E. contradiction. }
  destruct (retryInterval <=? 0) eqn:E2.
  { apply Z.leb_le in E2. lia. }
  rewrite (pingLoop_skips skipped _ Hsk). simpl.
  eexists. split; [reflexivity|].
  do 2 apply errors_Is_wrapped. apply errors_Is_refl.
Qed.

End Waiting.

(** ** The RSA signer *)

Section SignerProperties.
Context {P : rsa.Primitives}.
Import signature.

(** X7.  [Sign] and [VerifySignature] check the receiver and its keys
    before they use them: on a nil receiver or a receiver without keys they
    return the error of the check, wrapped, and they never dereference a nil
    pointer. *)
Theorem Sign_and_VerifySignature_check_first (s : option RSASignerService)
    (rand content sig : list byte) :
  Sign s rand content <> Err nil_dereference /\
  VerifySignature s content sig <> Some nil_dereference /\
  forall e, rSASignerServiceCheckInit s = Some e ->
    Sign s rand content = Err (fmt_Errorf_w "failed to sign content: %w" [] e) /\
    VerifySignature s content sig
      = Some (fmt_Errorf_w "signature verification failed: %w" [] e).
Proof.
  simpl. unfold RSASignerService_Sign, RSASignerService_VerifySignature.
  destruct s as [[[priv|] [pub|]]|]; simpl;
    (split; [|split; [|intros e He; try discriminate He;
                       injection He as <-; split; reflexivity]]);
    try discriminate.
  - destruct (len content =? 0); [discriminate|].
    destruct (rsa.SignPSS _ _ _ _ _); discriminate.
  - destruct (len content =? 0); [discriminate|].
    destruct (len sig =? 0); [discriminate|].
    destruct (rsa.VerifyPSS _ _ _ _ _); discriminate.
Qed.

(** X8.  Whatever the RSA primitives would answer, nothing is signed for an
    empty content, and no signature verifies for an empty content nor does
    the empty signature verify for any content. *)
Theorem empty_input_is_refused (s : option RSASignerService)
    (rand content sig : list byte) :
  is_Ok (Sign s rand []) = false /\
  VerifySignature s [] sig <> None /\
  VerifySignature s content [] <> None.
Proof.
  simpl. unfold RSASignerService_Sign, RSASignerService_VerifySignature.
  destruct (rSASignerServiceCheckInit s); simpl.
  { repeat split; discriminate. }
  repeat split; try discriminate.
  destruct (len content =? 0); discriminate.
Qed.

(** X9.  A signer that [NewRSASignerServiceFromFile] returns was read from
    a file whose first PEM block is an RSA PRIVATE KEY that parses; it
    passes the check of [Sign] and [VerifySignature], its public key is the
    public half of its private key, and [GetPublicKey] fails on it only if
    the key cannot be marshalled. *)
Theorem NewRSASignerServiceFromFile_is_initialised file (sg : RSASignerService) :
  NewRSASignerServiceFromFile file = Ok sg ->
  rSASignerServiceCheckInit (Some sg) = None /\
  exists keyBytes block priv,
    file = Ok keyBytes /\
    rsa.pem_Decode keyBytes = Some block /\
    pem.Type_ block = "RSA PRIVATE KEY"%string /\
    rsa.x509_ParsePKCS1PrivateKey (pem.Bytes block) = Ok priv /\
    privateKey sg = Some priv /\
    publicKey sg = Some (rsa.Public priv) /\
    GetPublicKey (Some sg) =
      match rsa.x509_MarshalPKIXPublicKey (rsa.Public priv) with
      | Ok der =>
          Ok (rsa.pem_EncodeToMemory {| pem.Type_ := "PUBLIC KEY"; pem.Bytes := der |})
      | Err e => Err (fmt_Errorf_w "failed to marshal public key: %w" [] e)
      end.
Proof.
  unfold NewRSASignerServiceFromFile.
  destruct file as [keyBytes|]; [|discriminate].
  destruct (rsa.pem_Decode keyBytes) as [block|] eqn:Hpem; [|discriminate].
  destruct (String.eqb (pem.Type_ block) "RSA PRIVATE KEY") eqn:Hty; [|discriminate].
  simpl. destruct (rsa.x509_ParsePKCS1PrivateKey _) as [priv|] eqn:Hparse; [|discriminate].
  intros [= <-]. split; [reflexivity|].
  exists keyBytes, block, priv. apply String.eqb_eq in Hty.
  repeat split; try assumption.
Qed.

(** X10.  With sound RSA primitives, what a signer loaded from a key file
    signs, for any content, it verifies; and the signature does not verify
    as a signature of the empty content. *)
Theorem Sign_then_VerifySignature (Hsound : rsa.Sound P) file
    (sg : RSASignerService) (rand content sig : list byte) :
  NewRSASignerServiceFromFile file = Ok sg ->
  Sign (Some sg) rand content = Ok sig ->
  VerifySignature (Some sg) content sig = None /\
  content <> [] /\ sig <> [] /\
  VerifySignature (Some sg) [] sig <> None.
Proof.
  intros Hnew Hsign.
  destruct (VerifySignature_Sign Hsound file sg rand content sig Hnew Hsign)
    as [Hver Hne].
  destruct (Sign_inv sg rand content sig Hsign) as (priv & _ & Hlen & _).
  repeat split; try assumption.
  - intros ->. discriminate Hlen.
  - simpl. unfold RSASignerService_VerifySignature.
    destruct (rSASignerServiceCheckInit _); discriminate.
Qed.

Lemma Encode_length (l : list byte) :
  String.length (hex.EncodeToString l) = (2 * length l)%nat.
Proof.
  unfold hex.EncodeToString. induction l as [|b l IH]; [reflexivity|].
  cbn [hex.Encode String.length length]. rewrite IH. lia.
Qed.

Lemma digit_in_hextable (k : N) :
  In (hex.digit k) (list_ascii_of_string hex.hextable).
Proof.
  unfold hex.digit, hex.hextable. generalize (N.to_nat k) as n. intros n.
  do 16 (destruct n as [|n]; [simpl; tauto|]). simpl. tauto.
Qed.

Lemma Encode_digits (l : list byte) :
  Forall (fun c => In c (list_ascii_of_string hex.hextable))
    (list_ascii_of_string (hex.EncodeToString l)).
Proof.
  unfold hex.EncodeToString. induction l as [|b l IH]; [constructor|].
  cbn [hex.Encode list_ascii_of_string].
  constructor; [apply digit_in_hextable|].
  constructor; [apply digit_in_hextable|exact IH].
Qed.

End SignerProperties.

(** ** The orchestrator, call by call *)

Section ServiceCalls.
Context {St Sg : Type} {storage : store.Storage St}
        {signer_ : signature.Signer Sg} {codec : ProtoCodec}.
Implicit Types (s : v1.Service Sg) (w : v1.World St) (env : v1.Env).

(** The run in which [StoreBlob] calls [Store]. *)
Lemma StoreBlob_Store_call s env req w res w' (record : blobv1.SignedBlobRecord) :
  v1.StoreBlob s env req w = (res, w') ->
  In (v1.call_Store record) (v1.new_calls w w') ->
  exists blob p,
    req = Some {| blobv1.StoreBlobRequest_Blob := blob |} /\
    String.eqb blob "" = false /\
    (strlen blob >? v1.maxBlobSize) = false /\
    blobv1.Payload record =
      {| blobv1.Uuid := uuid.String (v1.env_uuid env);
         blobv1.Blob := blob;
         blobv1.Hash := hex.EncodeToString
                          (signature.ComputeHash (v1.signer s) (list_byte_of_string blob));
         blobv1.Timestamp := v1.env_timestamp env |} /\
    proto_Marshal (blobv1.Payload record) = Ok p /\
    signature.Sign (v1.signer s) (v1.env_rand env) p = Ok (blobv1.Signature record) /\
    v1.new_calls w w' =
      [v1.call_ComputeHash (list_byte_of_string blob); v1.call_uuid_New;
       v1.call_time_Now; v1.call_proto_Marshal (blobv1.Payload record);
       v1.call_Sign p; v1.call_Store record] /\
    v1.the_store w' = snd (store.Store (v1.the_store w) record) /\
    match fst (store.Store (v1.the_store w) record) with
    | Some err => res = Err (fmt_Errorf_w "failed to store signed record: %w" [] err)
    | None => res = Ok {| blobv1.StoreBlobResponse_Uuid := uuid.String (v1.env_uuid env) |}
    end.
Proof.
  intros Hrun.
  assert (Hinvalid : snd (v1.StoreBlob s env req w) = w ->
            v1.new_calls w w' = []).
  { rewrite Hrun. simpl. intros ->. apply new_calls_same. }
  destruct req as [[blob]|].
  2:{ rewrite Hinvalid by reflexivity. intros []. }
  destruct (String.eqb blob "") eqn:Hne.
  { rewrite Hinvalid by (simpl; rewrite Hne; reflexivity). intros []. }
  destruct (strlen blob >? v1.maxBlobSize) eqn:Hle.
  { rewrite Hinvalid by (simpl; rewrite Hne, Hle; reflexivity). intros []. }
  clear Hinvalid. rewrite (StoreBlob_valid s env blob w Hne Hle) in Hrun.
  cbv zeta in Hrun.
  destruct (len _ =? 0).
  { apply pair_equal_spec in Hrun as [<- <-]. rewrite new_calls_app. intros H. split_in. }
  destruct (proto_Marshal _) as [p|em] eqn:Hm.
  2:{ apply pair_equal_spec in Hrun as [<- <-]. rewrite new_calls_app. cbn [app].
      intros H. split_in. }
  destruct (signature.Sign _ _ p) as [sig|es] eqn:Hsig.
  2:{ apply pair_equal_spec in Hrun as [<- <-]. rewrite new_calls_app. cbn [app].
      intros H. split_in. }
  destruct (store.Store _ _) as [err st1] eqn:Hstore.
  assert (Hw : w' = {| v1.the_store := st1;
                       v1.calls := v1.calls w ++
                         ([v1.call_ComputeHash (list_byte_of_string blob)] ++
                          [v1.call_uuid_New; v1.call_time_Now;
                           v1.call_proto_Marshal
                             {| blobv1.Uuid := uuid.String (v1.env_uuid env);
                                blobv1.Blob := blob;
                                blobv1.Hash := hex.EncodeToString
                                  (signature.ComputeHash (v1.signer s)
                                     (list_byte_of_string blob));
                                blobv1.Timestamp := v1.env_timestamp env |}]) ++
                         [v1.call_Sign p;
                          v1.call_Store
                            {| blobv1.Payload :=
                                 {| blobv1.Uuid := uuid.String (v1.env_uuid env);
                                    blobv1.Blob := blob;
                                    blobv1.Hash := hex.EncodeToString
                                      (signature.ComputeHash (v1.signer s)
                                         (list_byte_of_string blob));
                                    blobv1.Timestamp := v1.env_timestamp env |};
                               blobv1.Signature := sig |}] |}).
  { destruct err; apply pair_equal_spec in Hrun as [_ <-]; reflexivity. }
  assert (Hres : match err with
                 | Some e => res = Err (fmt_Errorf_w "failed to store signed record: %w" [] e)
                 | None => res = Ok {| blobv1.StoreBlobResponse_Uuid :=
                                         uuid.String (v1.env_uuid env) |}
                 end).
  { destruct err; apply pair_equal_spec in Hrun as [<- _]; reflexivity. }
  clear Hrun. subst w'. rewrite new_calls_app. cbn [app].
  intros H. split_in. injection H as <-.
  exists blob, p. cbn [blobv1.Payload blobv1.Signature].
  rewrite Hstore. cbn [fst snd v1.the_store].
  repeat split; try assumption; reflexivity.
Qed.

(** X11.  [StoreBlob] hands to [Store] only what it has signed: the record
    of a call to [Store] carries the content of the request and the
    identifier drawn for it, its payload serializes, and its signature is
    the one that [Sign] returned for that serialization.  A request leads
    to at most one such call. *)
Theorem StoreBlob_stores_what_it_signed s env req w res w'
    (record : blobv1.SignedBlobRecord) :
  v1.StoreBlob s env req w = (res, w') ->
  In (v1.call_Store record) (v1.new_calls w w') ->
  (exists p,
      proto_Marshal (blobv1.Payload record) = Ok p /\
      signature.Sign (v1.signer s) (v1.env_rand env) p = Ok (blobv1.Signature record)) /\
  req = Some {| blobv1.StoreBlobRequest_Blob := blobv1.Blob (blobv1.Payload record) |} /\
  1 <= strlen (blobv1.Blob (blobv1.Payload record)) <= 262144 /\
  blobv1.Uuid (blobv1.Payload record) = uuid.String (v1.env_uuid env) /\
  forall record', In (v1.call_Store record') (v1.new_calls w w') -> record' = record.
Proof.
  intros Hrun Hin.
  destruct (StoreBlob_Store_call s env req w res w' record Hrun Hin)
    as (blob & p & -> & Hne & Hle & Hpay & Hm & Hsig & Hcalls & _).
  rewrite Hpay. cbn [blobv1.Blob blobv1.Uuid]. rewrite <- Hpay.
  split; [exists p; split; assumption|].
  split; [reflexivity|].
  split.
  { rewrite Z.gtb_ltb in Hle. apply Z.ltb_ge in Hle. unfold v1.maxBlobSize in Hle.
    split; [|lia]. destruct blob; [discriminate Hne|].
    unfold strlen. cbn [String.length]. lia. }
  split; [reflexivity|].
  intros record' Hin'. rewrite Hcalls in Hin'. split_in. congruence.
Qed.

(** X12.  A request that [GetSignedBlob] cannot read an identifier from (no
    request, an empty or a malformed identifier) is answered with an error
    without a call to the store. *)
Theorem GetSignedBlob_rejects_without_lookup s req w :
  match req with
  | None => True
  | Some r => is_Ok (uuid.Parse (blobv1.GetSignedBlobRequest_Uuid r)) = false
  end ->
  is_Ok (fst (v1.GetSignedBlob s req w)) = false /\
  v1.the_store (snd (v1.GetSignedBlob s req w)) = v1.the_store w /\
  forall u, ~ In (v1.call_GetByUUID u) (v1.new_calls w (snd (v1.GetSignedBlob s req w))).
Proof.
  destruct req as [[id]|]; cbn [v1.GetSignedBlob blobv1.GetSignedBlobRequest_Uuid].
  2:{ intros _. unfold fail. cbn [fst snd]. rewrite new_calls_same.
      repeat split. intros u []. }
  intros Hparse. destruct (String.eqb id "") eqn:Hid.
  { unfold fail. cbn [fst snd]. rewrite new_calls_same. repeat split. intros u []. }
  unfold bind, ret, fail, v1.do_uuid_Parse, v1.called, bind, ret.
  cbn [v1.the_store v1.calls].
  destruct (uuid.Parse id) as [u|e]; [discriminate|].
  cbn [fst snd v1.the_store]. rewrite new_calls_app.
  repeat split. intros u H. split_in.
Qed.

(** X13.  When the store fails for a well-formed identifier, the error of
    [GetSignedBlob] holds the error of the store in its chain, and it is a
    not-found error ([ErrBlobNotFound] in its chain) exactly when the error
    of the store is one. *)
Theorem GetSignedBlob_tells_not_found_apart s (id : string) (u : uuid.UUID)
    (err : error) w :
  uuid.Parse id = Ok u ->
  store.GetByUUID (v1.the_store w) u = Err err ->
  exists e,
    fst (v1.GetSignedBlob s (Some {| blobv1.GetSignedBlobRequest_Uuid := id |}) w)
      = Err e /\
    errors_Is e err = true /\
    errors_Is e ErrBlobNotFound = errors_Is err ErrBlobNotFound.
Proof.
  intros Hparse Hget. rewrite (GetSignedBlob_parsed s id u w Hparse).
  cbv zeta. rewrite Hget.
  destruct (errors_Is err ErrBlobNotFound) eqn:His; cbn [fst]; eexists;
    (split; [reflexivity|]);
    (split; [apply errors_Is_wrapped, errors_Is_refl|]).
  - apply errors_Is_wrapped. exact His.
  - simpl. exact His.
Qed.

(** X14.  [GetSignedBlob] answers by the identifier, not by its spelling:
    two texts that [uuid.Parse] reads as the same identifier (upper or lower
    case, with braces or the urn prefix) get the same answer. *)
Theorem GetSignedBlob_any_spelling s (id1 id2 : string) (u : uuid.UUID) w :
  uuid.Parse id1 = Ok u ->
  uuid.Parse id2 = Ok u ->
  fst (v1.GetSignedBlob s (Some {| blobv1.GetSignedBlobRequest_Uuid := id1 |}) w)
  = fst (v1.GetSignedBlob s (Some {| blobv1.GetSignedBlobRequest_Uuid := id2 |}) w).
Proof.
  intros H1 H2.
  rewrite (GetSignedBlob_parsed s id1 u w H1), (GetSignedBlob_parsed s id2 u w H2).
  cbv zeta. destruct (store.GetByUUID _ _) as [row|err].
  - destruct (len _ =? 0); reflexivity.
  - destruct (errors_Is _ _); reflexivity.
Qed.

End ServiceCalls.

(** ** The orchestrator on the PostgreSQL adapter *)

Section ServiceOnPostgres.
Context {Sg : Type} {signer_ : signature.Signer Sg} {codec : ProtoCodec}.
Implicit Types (s : v1.Service Sg) (w : v1.World store.PostgresStorage).

Lemma StoreBlob_store_inv s env req w res w' :
  v1.StoreBlob s env req w = (res, w') ->
  v1.the_store w' = v1.the_store w \/
  exists record, In (v1.call_Store record) (v1.new_calls w w').
Proof.
  intros Hrun.
  destruct req as [[blob]|].
  2:{ left. apply (f_equal snd) in Hrun. simpl in Hrun. subst. reflexivity. }
  destruct (String.eqb blob "") eqn:Hne.
  { left. simpl in Hrun. rewrite Hne in Hrun.
    apply (f_equal snd) in Hrun. simpl in Hrun. subst. reflexivity. }
  destruct (strlen blob >? v1.maxBlobSize) eqn:Hle.
  { left. simpl in Hrun. rewrite Hne, Hle in Hrun.
    apply (f_equal snd) in Hrun. simpl in Hrun. subst. reflexivity. }
  rewrite (StoreBlob_valid s env blob w Hne Hle) in Hrun. cbv zeta in Hrun.
  destruct (len _ =? 0).
  { left. apply pair_equal_spec in Hrun as [_ <-]. reflexivity. }
  destruct (proto_Marshal _) as [p|em] eqn:Hm.
  2:{ left. apply pair_equal_spec in Hrun as [_ <-]. reflexivity. }
  destruct (signature.Sign _ _ p) as [sig|es] eqn:Hsig.
  2:{ left. apply pair_equal_spec in Hrun as [_ <-]. reflexivity. }
  right. eexists.
  destruct (store.Store _ _) as [[err|] st1];
    apply pair_equal_spec in Hrun as [_ <-]; rewrite new_calls_app;
    apply in_app_iff; right; right; left; reflexivity.
Qed.



End ServiceOnPostgres.

(** ** The commands of the client *)

Section ClientCommands.
Context {P : rsa.Primitives} {L : pkg.Libs} {E : pkg.Encoders}
        {codec : ProtoCodec}.
Import pkg.

Lemma append_not_self (s t : string) : t <> ""%string -> s +:+ t <> s.
Proof.
  intros Ht. induction s as [|a s IH]; intros H.
  - change (EmptyString +:+ t) with t in H. contradiction.
  - change (String a s +:+ t) with (String a (s +:+ t)) in H.
    injection H as H. exact (IH H).
Qed.

Lemma suffix_distinct (dir id e1 e2 : string) :
  e1 <> e2 -> dir +:+ "/" +:+ id +:+ e1 <> dir +:+ "/" +:+ id +:+ e2.
Proof.
  intros Hne H. do 3 apply (inj (String.app _)) in H. contradiction.
Qed.

Lemma not_the_directory (dir id e : string) : dir +:+ "/" +:+ id +:+ e <> dir.
Proof. apply append_not_self. discriminate. Qed.

Section AnyServer.
Context {C : BlobServiceClient}.

Lemma host_WriteFile_inv (name : string) (data : list byte) (h : Host) r h' :
  host_WriteFile name data h = (r, h') ->
  (r = Ok None /\ h' = with_file h name data /\
   disk h !! name <> Some Dir /\ fault h name = None) \/
  (exists e, r = Ok (Some e) /\ h' = h).
Proof.
  unfold host_WriteFile, with_file.
  destruct (fault h name) eqn:Hf; [intros [= <- <-]; right; eauto|].
  destruct (disk h !! name) as [[|c]|] eqn:Hd; intros [= <- <-];
    [right; eauto|left..]; repeat split; congruence.
Qed.

(** The runs of [getCommand]. *)
Lemma getCommand_inv (f : Flags) (id : string) (rest : list string) (h : Host) r h' :
  getCommand f (id :: rest) h = (r, h') ->
  let req := {| blobv1.GetSignedBlobRequest_Uuid := id |} in
  let h0 := with_call h (rpc_GetSignedBlob req) in
  let txt := storeDir f +:+ "/" +:+ id +:+ ".txt" in
  let sg := storeDir f +:+ "/" +:+ id +:+ ".sig" in
  let mt := storeDir f +:+ "/" +:+ id +:+ ".meta.json" in
  (h' = h /\ is_Ok r = false /\
   (is_Ok (uuid.Parse id) = false \/ disk h !! storeDir f <> Some Dir)) \/
  (is_Ok (uuid.Parse id) = true /\ disk h !! storeDir f = Some Dir /\
   ((h' = h0 /\ is_Ok r = false /\
     forall payload sig,
       client_GetSignedBlob req
       <> Ok (Some {| reply_Payload := Some payload; reply_Signature := sig |})) \/
    exists payload sig,
      client_GetSignedBlob req
      = Ok (Some {| reply_Payload := Some payload; reply_Signature := sig |}) /\
      let blob := list_byte_of_string (blobv1.Blob payload) in
      let sigB64 := list_byte_of_string (base64_EncodeToString sig) in
      let m := {| UUID := blobv1.Uuid payload; Hash := blobv1.Hash payload;
                  TimeStamp := blobv1.Timestamp payload |} in
      ((h' = h0 /\ is_Ok r = false) \/
       (h' = with_file h0 txt blob /\ is_Ok r = false) \/
       (h' = with_file (with_file h0 txt blob) sg sigB64 /\ is_Ok r = false) \/
       (exists metaByte,
           json_MarshalIndent m = Ok metaByte /\
           h' = with_file (with_file (with_file h0 txt blob) sg sigB64) mt metaByte /\
           r = Ok tt)))).
Proof.
  cbv zeta. unfold getCommand.
  destruct (uuid.Parse id) as [u|e] eqn:Hparse.
  2:{ intros [= <- <-]. left. auto. }
  rewrite bind_eq. unfold host_Stat.
  destruct (disk h !! storeDir f) as [[|c]|] eqn:Hdir.
  2,3: intros [= <- <-]; left; repeat split; right; congruence.
  cbv beta iota. rewrite bind_eq. unfold call at 1. cbv beta iota.
  fold (with_call h (rpc_GetSignedBlob {| blobv1.GetSignedBlobRequest_Uuid := id |})).
  set (h0 := with_call h _).
  intros Hrun. right. split; [reflexivity|]. split; [reflexivity|].
  destruct (client_GetSignedBlob _) as [[[[payload|] sig]|]|e] eqn:Hcall.
  2-4: injection Hrun as <- <-; left; repeat split; intros; discriminate.
  right. exists payload, sig. split; [reflexivity|].
  cbn [reply_Payload reply_Signature] in Hrun.
  rewrite bind_eq in Hrun.
  destruct (host_WriteFile _ _ h0) as [r1 h1] eqn:Hw1.
  apply host_WriteFile_inv in Hw1 as [(-> & -> & _)|(e & -> & ->)];
    cbv beta iota in Hrun.
  2:{ injection Hrun as <- <-. left. auto. }
  rewrite bind_eq in Hrun.
  destruct (host_WriteFile _ _ (with_file h0 _ _)) as [r2 h2] eqn:Hw2.
  apply host_WriteFile_inv in Hw2 as [(-> & -> & _)|(e & -> & ->)];
    cbv beta iota in Hrun.
  2:{ injection Hrun as <- <-. right. left. auto. }
  destruct (json_MarshalIndent _) as [metaByte|e] eqn:Hjson.
  2:{ injection Hrun as <- <-. right. right. left. auto. }
  rewrite bind_eq in Hrun.
  destruct (host_WriteFile _ _ (with_file _ _ _)) as [r3 h3] eqn:Hw3.
  apply host_WriteFile_inv in Hw3 as [(-> & -> & _)|(e & -> & ->)];
    cbv beta iota in Hrun.
  2:{ injection Hrun as <- <-. right. right. left. auto. }
  injection Hrun as <- <-. right. right. right. exists metaByte. auto.
Qed.

(** X17.  [getCommand] asks the server only after it has read an identifier
    from its argument and found the directory of [--dir]: otherwise it fails
    with nothing sent and nothing written. *)
Theorem getCommand_checks_before_asking (f : Flags) (id : string)
    (rest : list string) (h : Host) :
  is_Ok (uuid.Parse id) = false \/ disk h !! storeDir f <> Some Dir ->
  snd (getCommand f (id :: rest) h) = h /\
  is_Ok (fst (getCommand f (id :: rest) h)) = false.
Proof.
  intros Hbad. destruct (getCommand f (id :: rest) h) as [r h'] eqn:Hrun.
  apply getCommand_inv in Hrun. cbv zeta in Hrun.
  destruct Hrun as [(-> & Hr & _)|(Hp & Hd & _)];
    [split; [reflexivity|exact Hr]|].
  destruct Hbad as [Hbad|Hbad]; [congruence|contradiction].
Qed.

(** X18.  Whatever the outcome, [getCommand] sends at most the one request
    for the identifier, touches no file but the three artifacts of the
    identifier in the directory, and writes nothing unless the server has
    answered with a record. *)
Theorem getCommand_writes_only_the_artifacts (f : Flags) (id : string)
    (rest : list string) (h : Host) r h' :
  getCommand f (id :: rest) h = (r, h') ->
  let req := {| blobv1.GetSignedBlobRequest_Uuid := id |} in
  (sent h' = sent h \/ sent h' = sent h ++ [rpc_GetSignedBlob req]) /\
  (forall path,
      ~ In path (artifact_paths (storeDir f) id) ->
      disk h' !! path = disk h !! path) /\
  (disk h' <> disk h ->
   exists payload sig,
     client_GetSignedBlob req
     = Ok (Some {| reply_Payload := Some payload; reply_Signature := sig |})).
Proof.
  intros Hrun. apply getCommand_inv in Hrun. cbv zeta in *.
  assert (Hout : forall path (P1 P2 P3 : Prop),
             ~ In path (artifact_paths (storeDir f) id) ->
             path <> storeDir f +:+ "/" +:+ id +:+ ".txt" /\
             path <> storeDir f +:+ "/" +:+ id +:+ ".sig" /\
             path <> storeDir f +:+ "/" +:+ id +:+ ".meta.json").
  { intros path _ _ _ Hn. unfold artifact_paths in Hn. cbn [In] in Hn.
    repeat split; intros ->; apply Hn; auto. }
  assert (Htxt_sg := suffix_distinct (storeDir f) id ".txt" ".sig" ltac:(discriminate)).
  assert (Htxt_mt := suffix_distinct (storeDir f) id ".txt" ".meta.json"
                       ltac:(discriminate)).
  destruct Hrun as [(-> & _ & _)|(_ & _ & [(-> & _ & _)|(payload & sig & Hcall & Hw)])].
  - repeat split; auto. intros []. reflexivity.
  - repeat split; auto. intros []. reflexivity.
  - destruct Hw as [(-> & _)|[(-> & _)|[(-> & _)|(metaByte & _ & -> & _)]]];
      cbn [with_file with_call disk sent].
    + repeat split; auto. intros []. reflexivity.
    + split; [auto|]. split.
      * intros path Hn. destruct (Hout path True True True Hn) as (H1 & H2 & H3).
        rewrite lookup_insert_ne by congruence. reflexivity.
      * intros _. exists payload, sig. exact Hcall.
    + split; [auto|]. split.
      * intros path Hn. destruct (Hout path True True True Hn) as (H1 & H2 & H3).
        rewrite !lookup_insert_ne by congruence. reflexivity.
      * intros _. exists payload, sig. exact Hcall.
    + split; [auto|]. split.
      * intros path Hn. destruct (Hout path True True True Hn) as (H1 & H2 & H3).
        rewrite !lookup_insert_ne by congruence. reflexivity.
      * intros _. exists payload, sig. exact Hcall.
Qed.

(** What a successful [getCommand] leaves behind. *)
Lemma getCommand_Ok (f : Flags) (id : string) (rest : list string) (h h' : Host) :
  getCommand f (id :: rest) h = (Ok tt, h') ->
  exists payload sig metaByte,
    client_GetSignedBlob {| blobv1.GetSignedBlobRequest_Uuid := id |}
    = Ok (Some {| reply_Payload := Some payload; reply_Signature := sig |}) /\
    json_MarshalIndent {| UUID := blobv1.Uuid payload; Hash := blobv1.Hash payload;
                          TimeStamp := blobv1.Timestamp payload |} = Ok metaByte /\
    is_Ok (uuid.Parse id) = true /\
    disk h' !! storeDir f = Some Dir /\
    disk h' !! (storeDir f +:+ "/" +:+ id +:+ ".txt")
    = Some (File (list_byte_of_string (blobv1.Blob payload))) /\
    disk h' !! (storeDir f +:+ "/" +:+ id +:+ ".sig")
    = Some (File (list_byte_of_string (base64_EncodeToString sig))) /\
    disk h' !! (storeDir f +:+ "/" +:+ id +:+ ".meta.json") = Some (File metaByte) /\
    sent h' = sent h ++ [rpc_GetSignedBlob {| blobv1.GetSignedBlobRequest_Uuid := id |}] /\
    forall path,
      ~ In path (artifact_paths (storeDir f) id) ->
      disk h' !! path = disk h !! path.
Proof.
  intros Hrun. apply getCommand_inv in Hrun. cbv zeta in *.
  assert (Htxt_sg := suffix_distinct (storeDir f) id ".txt" ".sig" ltac:(discriminate)).
  assert (Htxt_mt := suffix_distinct (storeDir f) id ".txt" ".meta.json"
                       ltac:(discriminate)).
  assert (Hsg_mt := suffix_distinct (storeDir f) id ".sig" ".meta.json"
                      ltac:(discriminate)).
  pose proof (not_the_directory (storeDir f) id ".txt") as Hd1.
  pose proof (not_the_directory (storeDir f) id ".sig") as Hd2.
  pose proof (not_the_directory (storeDir f) id ".meta.json") as Hd3.
  destruct Hrun as [(_ & Hr & _)|(Hp & Hdir & [(_ & Hr & _)|(payload & sig & Hcall & Hw)])];
    try discriminate Hr.
  destruct Hw as [(_ & Hr)|[(_ & Hr)|[(_ & Hr)|(metaByte & Hjson & -> & _)]]];
    try discriminate Hr.
  exists payload, sig, metaByte. cbn [with_file with_call disk sent].
  split; [exact Hcall|]. split; [exact Hjson|]. split; [exact Hp|].
  split; [rewrite !lookup_insert_ne by congruence; exact Hdir|].
  split; [rewrite !lookup_insert_ne by congruence; apply lookup_insert_eq|].
  split; [rewrite !lookup_insert_ne by congruence; apply lookup_insert_eq|].
  split; [apply lookup_insert_eq|].
  split; [reflexivity|].
  intros path Hn. unfold artifact_paths in Hn. cbn [In] in Hn.
  rewrite !lookup_insert_ne; [reflexivity|intros <-; apply Hn; auto..].
Qed.

(** X19.  When [getCommand] succeeds, the server has answered its one
    request with a record, and the three artifacts of the identifier are in
    the directory: the content of the record, its signature as encoded, and
    the metadata (identifier, hash and timestamp of the record) as
    marshalled. *)
Theorem getCommand_leaves_the_artifacts (f : Flags) (id : string)
    (rest : list string) (h h' : Host) :
  getCommand f (id :: rest) h = (Ok tt, h') ->
  exists payload sig metaByte,
    client_GetSignedBlob {| blobv1.GetSignedBlobRequest_Uuid := id |}
    = Ok (Some {| reply_Payload := Some payload; reply_Signature := sig |}) /\
    json_MarshalIndent {| UUID := blobv1.Uuid payload; Hash := blobv1.Hash payload;
                          TimeStamp := blobv1.Timestamp payload |} = Ok metaByte /\
    disk h' !! (storeDir f +:+ "/" +:+ id +:+ ".txt")
    = Some (File (list_byte_of_string (blobv1.Blob payload))) /\
    disk h' !! (storeDir f +:+ "/" +:+ id +:+ ".sig")
    = Some (File (list_byte_of_string (base64_EncodeToString sig))) /\
    disk h' !! (storeDir f +:+ "/" +:+ id +:+ ".meta.json") = Some (File metaByte) /\
    sent h' = sent h ++ [rpc_GetSignedBlob {| blobv1.GetSignedBlobRequest_Uuid := id |}].
Proof.
  intros Hrun.
  destruct (getCommand_Ok f id rest h h' Hrun)
    as (payload & sig & metaByte & H1 & H2 & _ & _ & H3 & H4 & H5 & H6 & _).
  exists payload, sig, metaByte. auto 10.
Qed.

(** The runs of [putCommand]. *)
Lemma putCommand_inv (args : list string) (h : Host) r h' :
  putCommand args h = (r, h') ->
  (h' = h /\ is_Ok r = false) \/
  exists filename rest fullPath b,
    args = filename :: rest /\
    filepath_Abs filename = Ok fullPath /\
    disk h !! fullPath = Some (File b) /\ b <> [] /\
    let req := {| blobv1.StoreBlobRequest_Blob := string_of_list_byte b |} in
    h' = with_call h (rpc_StoreBlob req) /\
    match client_StoreBlob req with
    | Ok (Some resp) => r = Ok tt
    | _ => is_Ok r = false
    end.
Proof.
  unfold putCommand. destruct args as [|filename rest].
  { intros [= <- <-]. left. auto. }
  destruct (String.eqb filename "").
  { intros [= <- <-]. left. auto. }
  destruct (filepath_Abs filename) as [fullPath|e] eqn:Habs.
  2:{ intros [= <- <-]. left. auto. }
  rewrite bind_eq. unfold host_Stat.
  destruct (disk h !! fullPath) as [[|c]|] eqn:Hdisk; cbv beta iota;
    cbn [IsDir IsRegular negb].
  1,3: intros [= <- <-]; left; auto.
  rewrite bind_eq. unfold host_Open. rewrite Hdisk.
  destruct (fault h fullPath); cbv beta iota.
  { intros [= <- <-]. left. auto. }
  rewrite bind_eq. unfold host_ReadAll.
  destruct (read_fault h fullPath); cbv beta iota.
  { intros [= <- <-]. left. auto. }
  destruct (len c =? 0) eqn:Hlen.
  { intros [= <- <-]. left. auto. }
  rewrite bind_eq. unfold call at 1. cbv beta iota.
  intros Hrun. right. exists filename, rest, fullPath, c.
  split; [reflexivity|]. split; [exact Habs|]. split; [exact Hdisk|].
  split; [intros ->; discriminate Hlen|]. cbv zeta.
  destruct (client_StoreBlob _) as [[resp|]|e]; injection Hrun as <- <-;
    split; reflexivity.
Qed.

(** X20.  [putCommand] never changes a file, and it sends at most one
    request; it sends one only for a first argument that names a regular
    file that is not empty, and the content of the request is the content of
    that file, byte for byte.  It succeeds exactly when the server answers
    that request with a response. *)
Theorem putCommand_sends_the_file (args : list string) (h : Host) r h' :
  putCommand args h = (r, h') ->
  disk h' = disk h /\
  (sent h' = sent h /\ is_Ok r = false \/
   exists filename rest fullPath b,
     args = filename :: rest /\
     filepath_Abs filename = Ok fullPath /\
     disk h !! fullPath = Some (File b) /\ b <> [] /\
     list_byte_of_string (string_of_list_byte b) = b /\
     let req := {| blobv1.StoreBlobRequest_Blob := string_of_list_byte b |} in
     sent h' = sent h ++ [rpc_StoreBlob req] /\
     (r = Ok tt <-> exists resp, client_StoreBlob req = Ok (Some resp))).
Proof.
  intros Hrun. apply putCommand_inv in Hrun.
  destruct Hrun as [(-> & Hr)|(filename & rest & fullPath & b & -> & Habs & Hfile
                                & Hne & Hrun)].
  { split; [reflexivity|]. left. auto. }
  cbv zeta in Hrun. destruct Hrun as [-> Hr].
  split; [reflexivity|]. right. exists filename, rest, fullPath, b.
  do 5 (split; [first [reflexivity|assumption
                      |apply list_byte_of_string_of_list_byte]|]).
  cbv zeta. split; [reflexivity|].
  destruct (client_StoreBlob _) as [[resp|]|e].
  - split; [eauto|intros _; exact Hr].
  - split; [intros ->; discriminate Hr|intros [resp [=]]].
  - split; [intros ->; discriminate Hr|intros [resp [=]]].
Qed.

(** The runs of [getPublicKeyCommand]. *)
Lemma getPublicKeyCommand_inv (f : Flags) (file : string) (rest : list string)
    (h : Host) r h' :
  getPublicKeyCommand f (file :: rest) h = (r, h') ->
  let h0 := with_call h rpc_GetPublicKey in
  match client_GetPublicKey with
  | Ok (Some key) =>
      r = Ok tt /\ h' = with_file h0 file (list_byte_of_string key) \/
      is_Ok r = false /\ h' = h0
  | Ok None => r = Err nil_dereference /\ h' = h0
  | Err e =>
      r = Err (fmt_Errorf_w "unable to write file %q: %w" [arg_s file] e) /\ h' = h0
  end.
Proof.
  cbv zeta. unfold getPublicKeyCommand. rewrite bind_eq. unfold call at 1.
  cbv beta iota. fold (with_call h rpc_GetPublicKey).
  destruct client_GetPublicKey as [[key|]|e].
  2,3: intros [= <- <-]; split; reflexivity.
  rewrite bind_eq.
  destruct (host_WriteFile _ _ _) as [r1 h1] eqn:Hw.
  apply host_WriteFile_inv in Hw as [(-> & -> & _)|(e & -> & ->)]; cbv beta iota;
    intros [= <- <-]; [left|right]; split; reflexivity.
Qed.

(** X21.  [getPublicKeyCommand] sends its one request and touches no file
    but the one named by its argument; it succeeds only with the key that
    the server returned in that file, byte for byte.  A reply without a
    response is dereferenced: the command has no check for it. *)
Theorem getPublicKeyCommand_saves_the_key (f : Flags) (file : string)
    (rest : list string) (h : Host) r h' :
  getPublicKeyCommand f (file :: rest) h = (r, h') ->
  sent h' = sent h ++ [rpc_GetPublicKey] /\
  (forall path, path <> file -> disk h' !! path = disk h !! path) /\
  (r = Ok tt ->
   exists key,
     client_GetPublicKey = Ok (Some key) /\
     disk h' !! file = Some (File (list_byte_of_string key))) /\
  (client_GetPublicKey = Ok None -> r = Err nil_dereference /\ disk h' = disk h).
Proof.
  intros Hrun. apply getPublicKeyCommand_inv in Hrun. cbv zeta in Hrun.
  destruct client_GetPublicKey as [[key|]|e].
  - destruct Hrun as [[-> ->]|[Hr ->]]; cbn [with_file with_call disk sent].
    + split; [reflexivity|]. split.
      { intros path Hne. apply lookup_insert_ne. congruence. }
      split; [|discriminate]. intros _. exists key. split; [reflexivity|].
      apply lookup_insert_eq.
    + split; [reflexivity|]. split; [reflexivity|].
      split; [intros ->; discriminate Hr|discriminate].
  - destruct Hrun as [-> ->]. cbn [with_call disk sent].
    repeat split; try reflexivity. discriminate.
  - destruct Hrun as [-> ->]. cbn [with_call disk sent].
    repeat split; try reflexivity; discriminate.
Qed.

End AnyServer.

(** *** From the service to the verifier *)

Lemma path_not_empty (dir rest : string) :
  String.eqb (dir +:+ "/" +:+ rest) "" = false.
Proof. destruct dir; reflexivity. Qed.

(** The verifier on a directory that holds the three artifacts. *)
Lemma verifyCommand_succeeds (f : Flags) (id : string) (rest : list string)
    (v : World) (metaBytes blobB sigFile sg payloadBytes pubBytes : list byte)
    (m : metaData) (block : pem.Block) (key : rsa.PublicKey) :
  fs v !! verifyDir f = Some Dir ->
  (forall p, In p (artifact_paths (verifyDir f) id) -> filepath_Abs p = Ok p) ->
  fs v !! (verifyDir f +:+ "/" +:+ id +:+ ".meta.json") = Some (File metaBytes) ->
  json_Unmarshal metaBytes = Ok m ->
  fs v !! (verifyDir f +:+ "/" +:+ id +:+ ".txt") = Some (File blobB) ->
  fs v !! (verifyDir f +:+ "/" +:+ id +:+ ".sig") = Some (File sigFile) ->
  base64_DecodeString (string_of_list_byte sigFile) = Ok sg ->
  hex.EncodeToString (sha256.Sum256 blobB) = Hash m ->
  proto_Marshal {| blobv1.Uuid := UUID m;
                   blobv1.Blob := string_of_list_byte blobB;
                   blobv1.Hash := Hash m;
                   blobv1.Timestamp := TimeStamp m |} = Ok payloadBytes ->
  fs v !! publicKeyPath f = Some (File pubBytes) ->
  rsa.pem_Decode pubBytes = Some block ->
  pem.Type_ block = "PUBLIC KEY"%string ->
  rsa.x509_ParsePKIXPublicKey (pem.Bytes block) = Ok (Some key) ->
  rsa.VerifyPSS key crypto.SHA256 (sha256.Sum256 payloadBytes) sg pssOptions = None ->
  fst (verifyCommand f (id :: rest) v) = Ok tt.
Proof.
  intros Hdir Habs Hmeta Hjson Htxt Hsig Hb64 Hhash Hm Hpub Hpem Hty Hkey Hver.
  assert (Hmt : getAbsolutePath (verifyDir f +:+ "/" +:+ id +:+ ".meta.json")
                = Ok (verifyDir f +:+ "/" +:+ id +:+ ".meta.json")).
  { unfold getAbsolutePath. rewrite path_not_empty, Habs; [reflexivity|].
    unfold artifact_paths. cbn [In]. auto. }
  assert (Hsg : getAbsolutePath (verifyDir f +:+ "/" +:+ id +:+ ".sig")
                = Ok (verifyDir f +:+ "/" +:+ id +:+ ".sig")).
  { unfold getAbsolutePath. rewrite path_not_empty, Habs; [reflexivity|].
    unfold artifact_paths. cbn [In]. auto. }
  assert (Htx : getAbsolutePath (verifyDir f +:+ "/" +:+ id +:+ ".txt")
                = Ok (verifyDir f +:+ "/" +:+ id +:+ ".txt")).
  { unfold getAbsolutePath. rewrite path_not_empty, Habs; [reflexivity|].
    unfold artifact_paths. cbn [In]. auto. }
  unfold verifyCommand, load_artifacts.
  rewrite Hmt, Hsg, Htx.
  unfold check_artifacts, rebuilt_payload, bind, or_fail, os_ReadFile, os_Stat,
    did, bind, ret, fail.
  cbn [fs events]. rewrite Hdir. cbn [fs events].
  rewrite Hmeta. cbn [fs events]. rewrite Hjson. cbn [fs events].
  rewrite Htxt. cbn [fs events]. rewrite Hsig. cbn [fs events].
  rewrite Hb64. cbn [fs events meta blobBytes sig].
  apply String.eqb_eq in Hhash, Hty. rewrite Hhash. cbn [negb].
  rewrite Hm. cbn [fs events]. rewrite Hpub. cbn [fs events].
  rewrite Hpem, Hty. cbn [negb fs events]. rewrite Hkey. cbn [fs events].
  rewrite Hver. reflexivity.
Qed.

Section Connected.
Context {Sg : Type} {signer_ : signature.Signer Sg}.
Implicit Types (s : v1.Service Sg) (w : v1.World store.PostgresStorage).

(** The record behind an identifier that [StoreBlob] has returned. *)
Lemma StoreBlob_Ok_record s env (content : string) w resp w1 :
  v1.StoreBlob s env (Some {| blobv1.StoreBlobRequest_Blob := content |}) w
  = (Ok resp, w1) ->
  exists record p,
    resp = {| blobv1.StoreBlobResponse_Uuid := uuid.String (v1.env_uuid env) |} /\
    blobv1.Payload record =
      {| blobv1.Uuid := uuid.String (v1.env_uuid env);
         blobv1.Blob := content;
         blobv1.Hash := hex.EncodeToString
                          (signature.ComputeHash (v1.signer s)
                             (list_byte_of_string content));
         blobv1.Timestamp := v1.env_timestamp env |} /\
    proto_Marshal (blobv1.Payload record) = Ok p /\
    signature.Sign (v1.signer s) (v1.env_rand env) p = Ok (blobv1.Signature record) /\
    store.GetByUUID (v1.the_store w1) (v1.env_uuid env) = Ok record.
Proof.
  intros Hrun.
  assert (Hne : String.eqb content "" = false).
  { destruct (String.eqb content "") eqn:Hq; [|reflexivity].
    simpl in Hrun. rewrite Hq in Hrun. discriminate. }
  assert (Hle : (strlen content >? v1.maxBlobSize) = false).
  { destruct (strlen content >? v1.maxBlobSize) eqn:Hq; [|reflexivity].
    simpl in Hrun. rewrite Hne, Hq in Hrun. discriminate. }
  rewrite (StoreBlob_valid s env content w Hne Hle) in Hrun. cbv zeta in Hrun.
  destruct (len _ =? 0); [discriminate|].
  destruct (proto_Marshal _) as [p|] eqn:Hm; [|discriminate].
  destruct (signature.Sign _ _ p) as [sig|] eqn:Hsign; [|discriminate].
  destruct (store.Store _ _) as [[?|] st] eqn:Hstore; [discriminate|].
  apply pair_equal_spec in Hrun as [Hid <-].
  apply (GetByUUID_after_Store _ _ (v1.env_uuid env)) in Hstore as [Hget _];
    [|reflexivity].
  eexists {| blobv1.Payload := _; blobv1.Signature := sig |}, p.
  cbn [blobv1.Payload blobv1.Signature v1.the_store].
  split; [congruence|]. split; [reflexivity|].
  split; [exact Hm|]. split; [exact Hsign|exact Hget].
Qed.

(** What the client of a service receives for an identifier that holds a
    record. *)
Lemma connect_GetSignedBlob s env w (u : uuid.UUID)
    (record : blobv1.SignedBlobRecord) (reply : option SignedBlobReply) :
  store.GetByUUID (v1.the_store w) u = Ok record ->
  client_GetSignedBlob (BlobServiceClient := transport.connect s env w)
    {| blobv1.GetSignedBlobRequest_Uuid := uuid.String u |} = Ok reply ->
  reply = Some {| reply_Payload := Some (blobv1.Payload record);
                  reply_Signature := blobv1.Signature record |} /\
  blobv1.Signature record <> [].
Proof.
  intros Hget. cbn [client_GetSignedBlob transport.connect].
  rewrite (GetSignedBlob_parsed s _ u w (uuid_Parse_String u)). cbv zeta.
  rewrite Hget. destruct (len _ =? 0) eqn:Hlen; cbn [fst]; [discriminate|].
  intros [= <-].
  cbn [blobv1.GetSignedBlobResponse_Payload blobv1.GetSignedBlobResponse_Signature].
  split.
  - destruct record as [[] ?]; reflexivity.
  - intros Hnil. rewrite Hnil in Hlen. discriminate.
Qed.


End Connected.


End ClientCommands.

(** ** The hash that is stored *)

Section StoredHash.
Context {P : rsa.Primitives} {codec : ProtoCodec}
        {St : Type} {storage : store.Storage St}.

(** X24.  With the RSA signer, the hash of every record that [StoreBlob]
    hands to [Store] is the SHA-256 of the content of that record in
    hexadecimal: 64 characters, each one of [0123456789abcdef]. *)
Theorem stored_hash_is_the_hex_SHA256
    (s : v1.Service (option signature.RSASignerService)) env req
    (w w' : v1.World St) res (record : blobv1.SignedBlobRecord) :
  v1.StoreBlob s env req w = (res, w') ->
  In (v1.call_Store record) (v1.new_calls w w') ->
  blobv1.Hash (blobv1.Payload record)
  = hex.EncodeToString
      (sha256.Sum256 (list_byte_of_string (blobv1.Blob (blobv1.Payload record)))) /\
  String.length (blobv1.Hash (blobv1.Payload record)) = 64%nat /\
  Forall (fun c => In c (list_ascii_of_string hex.hextable))
    (list_ascii_of_string (blobv1.Hash (blobv1.Payload record))).
Proof.
  intros Hrun Hin.
  destruct (StoreBlob_Store_call s env req w res w' record Hrun Hin)
    as (blob & p & _ & _ & _ & Hpay & _).
  rewrite Hpay. cbn [blobv1.Hash blobv1.Blob].
  cbn [signature.ComputeHash signature.RSASignerService_Signer].
  unfold signature.RSASignerService_ComputeHash. cbv zeta.
  split; [reflexivity|]. split.
  - rewrite Encode_length, Sum256_length. reflexivity.
  - apply Encode_digits.
Qed.

End StoredHash.

(** ** The properties on the sample deployment *)

Section MoreWitnesses.
Import sample.





Lemma NewPostgresStorage_gives_up_witness :
  exists e,
    store.NewPostgresStorage "postgres://blob@db:5432/blobs" (Some tt) 2
      ([store.wake_Tick (Err (lib_error "pq" "connection refused"));
        store.wake_Tick (Ok starting_up)]
       ++ store.wake_Done context_DeadlineExceeded :: [store.wake_Tick (Ok ready)])
    = store.Returned (Err e) /\
    errors_Is e context_DeadlineExceeded = true.
Proof.
  pose proof (NewPostgresStorage_gives_up "postgres://blob@db:5432/blobs" tt 2
                [store.wake_Tick (Err (lib_error "pq" "connection refused"));
                 store.wake_Tick (Ok starting_up)]
                [store.wake_Tick (Ok ready)] context_DeadlineExceeded) as H.
  apply H.
  - discriminate.
  - lia.
  - repeat constructor. simpl. discriminate.
Defined.

Lemma NewRSASignerServiceFromFile_is_initialised_witness :
  signature.rSASignerServiceCheckInit (Some loaded_signer) = None.
Proof.
  pose proof (NewRSASignerServiceFromFile_is_initialised (Ok private_key_file)
                loaded_signer) as H.
  refine (proj1 (H _)). reflexivity.
Defined.

Lemma Sign_then_VerifySignature_witness :
  signature.VerifySignature the_signer (list_byte_of_string "hello-world")
    (encipher {| key_N := 3233; key_E := 17; key_D := 2753 |}
       (encode (firstn saltLength (v1.env_rand an_env))
          (sha256.Sum256 (list_byte_of_string "hello-world")))) = None.
Proof.
  pose proof (Sign_then_VerifySignature sample_sound (Ok private_key_file)
                loaded_signer (v1.env_rand an_env) (list_byte_of_string "hello-world")
                (encipher {| key_N := 3233; key_E := 17; key_D := 2753 |}
                   (encode (firstn saltLength (v1.env_rand an_env))
                      (sha256.Sum256 (list_byte_of_string "hello-world"))))) as H.
  refine (proj1 (H _ _)).
  - reflexivity.
  - vm_compute. reflexivity.
Defined.

Lemma StoreBlob_stores_what_it_signed_witness :
  exists p,
    proto_Marshal (blobv1.Payload the_record) = Ok p /\
    signature.Sign (v1.signer the_service) (v1.env_rand an_env) p
    = Ok (blobv1.Signature the_record).
Proof.
  pose proof (StoreBlob_stores_what_it_signed the_service an_env hello start
                (Ok {| blobv1.StoreBlobResponse_Uuid := the_id |}) stored
                the_record) as H.
  refine (proj1 (H _ _)).
  - vm_compute. reflexivity.
  - vm_compute. do 5 right. left. reflexivity.
Defined.

Lemma GetSignedBlob_rejects_without_lookup_witness :
  is_Ok (fst (v1.GetSignedBlob the_service
                (Some {| blobv1.GetSignedBlobRequest_Uuid := "invalid-uuid" |}) stored))
  = false.
Proof.
  pose proof (GetSignedBlob_rejects_without_lookup the_service
                (Some {| blobv1.GetSignedBlobRequest_Uuid := "invalid-uuid" |}) stored)
    as H.
  refine (proj1 (H _)). vm_compute. reflexivity.
Defined.

Lemma GetSignedBlob_tells_not_found_apart_witness :
  exists e,
    fst (v1.GetSignedBlob the_service get_the_id start) = Err e /\
    errors_Is e ErrBlobNotFound = true /\
    errors_Is e ErrBlobNotFound = errors_Is ErrBlobNotFound ErrBlobNotFound.
Proof.
  pose proof (GetSignedBlob_tells_not_found_apart the_service the_id an_uuid
                ErrBlobNotFound start) as H.
  apply H; vm_compute; reflexivity.
Defined.

Lemma GetSignedBlob_any_spelling_witness :
  fst (v1.GetSignedBlob the_service
         (Some {| blobv1.GetSignedBlobRequest_Uuid := the_id |}) stored)
  = fst (v1.GetSignedBlob the_service
           (Some {| blobv1.GetSignedBlobRequest_Uuid :=
                      "{550E8400-E29B-41D4-A716-446655440000}" |}) stored).
Proof.
  pose proof (GetSignedBlob_any_spelling the_service the_id
                "{550E8400-E29B-41D4-A716-446655440000}" an_uuid stored) as H.
  apply H; vm_compute; reflexivity.
Defined.



Lemma getCommand_checks_before_asking_witness :
  snd (pkg.getCommand (C := the_client) download_flags ["invalid-uuid"%string] a_host)
  = a_host.
Proof.
  pose proof (getCommand_checks_before_asking (C := the_client) download_flags
                "invalid-uuid" [] a_host) as H.
  refine (proj1 (H _)). left. vm_compute. reflexivity.
Defined.

Lemma getCommand_writes_only_the_artifacts_witness :
  (pkg.sent downloaded_host = pkg.sent key_saved_host \/
   pkg.sent downloaded_host
   = pkg.sent key_saved_host
     ++ [pkg.rpc_GetSignedBlob {| blobv1.GetSignedBlobRequest_Uuid := the_id |}]) /\
  forall path,
    ~ In path (pkg.artifact_paths (pkg.storeDir download_flags) the_id) ->
    pkg.disk downloaded_host !! path = pkg.disk key_saved_host !! path.
Proof.
  pose proof (getCommand_writes_only_the_artifacts (C := the_client) download_flags
                the_id [] key_saved_host (Ok tt) downloaded_host) as H.
  refine (let H' := H _ in conj (proj1 H') (proj1 (proj2 H'))).
  vm_compute. reflexivity.
Defined.

Lemma getCommand_leaves_the_artifacts_witness :
  exists payload sig metaByte,
    pkg.client_GetSignedBlob (BlobServiceClient := the_client)
      {| blobv1.GetSignedBlobRequest_Uuid := the_id |}
    = Ok (Some {| pkg.reply_Payload := Some payload; pkg.reply_Signature := sig |}) /\
    pkg.json_MarshalIndent
      {| pkg.UUID := blobv1.Uuid payload; pkg.Hash := blobv1.Hash payload;
         pkg.TimeStamp := blobv1.Timestamp payload |} = Ok metaByte /\
    pkg.disk downloaded_host !! (pkg.storeDir download_flags +:+ "/" +:+ the_id +:+ ".txt")
    = Some (pkg.File (list_byte_of_string (blobv1.Blob payload))) /\
    pkg.disk downloaded_host !! (pkg.storeDir download_flags +:+ "/" +:+ the_id +:+ ".sig")
    = Some (pkg.File (list_byte_of_string (pkg.base64_EncodeToString sig))) /\
    pkg.disk downloaded_host
      !! (pkg.storeDir download_flags +:+ "/" +:+ the_id +:+ ".meta.json")
    = Some (pkg.File metaByte) /\
    pkg.sent downloaded_host
    = pkg.sent key_saved_host
      ++ [pkg.rpc_GetSignedBlob {| blobv1.GetSignedBlobRequest_Uuid := the_id |}].
Proof.
  pose proof (getCommand_leaves_the_artifacts (C := the_client) download_flags
                the_id [] key_saved_host downloaded_host) as H.
  apply H. vm_compute. reflexivity.
Defined.

Lemma putCommand_sends_the_file_witness :
  pkg.disk uploaded_host = pkg.disk a_host.
Proof.
  pose proof (putCommand_sends_the_file (C := first_client) ["/home/hello.txt"%string]
                a_host (Ok tt) uploaded_host) as H.
  refine (proj1 (H _)). vm_compute. reflexivity.
Defined.

Lemma getPublicKeyCommand_saves_the_key_witness :
  pkg.sent key_saved_host = pkg.sent a_host ++ [pkg.rpc_GetPublicKey].
Proof.
  pose proof (getPublicKeyCommand_saves_the_key (C := the_client) download_flags
                "/keys/public.pem" [] a_host (Ok tt) key_saved_host) as H.
  refine (proj1 (H _)). vm_compute. reflexivity.
Defined.


Lemma hex_sig_round_trip : pkg.sig_round_trip.
Proof.
  intros sig. cbn [pkg.base64_DecodeString pkg.base64_EncodeToString libs encoders].
  unfold DecodeString, hex.EncodeToString.
  assert (Hun : unhex (hex.Encode sig) = Some sig); [|rewrite Hun; reflexivity].
  induction sig as [|b l IH]; [reflexivity|].
  cbn [hex.Encode unhex]. rewrite xtob_digit, IH. reflexivity.
Qed.


Lemma stored_hash_is_the_hex_SHA256_witness :
  String.length (blobv1.Hash (blobv1.Payload the_record)) = 64%nat.
Proof.
  pose proof (stored_hash_is_the_hex_SHA256 the_service an_env hello start stored
                (Ok {| blobv1.StoreBlobResponse_Uuid := the_id |}) the_record) as H.
  refine (proj1 (proj2 (H _ _))).
  - vm_compute. reflexivity.
  - vm_compute. do 5 right. left. reflexivity.
Defined.

End MoreWitnesses.
